(** * js-launchpad: the protocol and state core of [src/Launchpad.js]

    A shallow embedding of the [Launchpad] class: the JavaScript values it
    handles, the static button and colour tables, the velocity encoder,
    the LED commands, the buffer switches, the listener registry and the
    inbound MIDI listener, with [eqSet] of the demo page [src/index.js],
    followed by the properties of the specification that concern them and
    by further properties of the code. *)

From stdpp Require Import gmap strings list fin_maps pretty sorting.
From Stdlib Require Import ZArith Lia Ascii.

Local Open Scope string_scope.
Local Open Scope list_scope.
Local Open Scope Z_scope.

(** ** JavaScript values *)

Module JS.

(** Numbers are the integer-valued doubles in the exactly representable
    range, and [NaN]. *)
Inductive num :=
| Int (z : Z)
| NaN.

(** An object is its heap address (its identity) and its own properties
    in creation order.  The class never writes to the objects it is handed,
    so the properties travel with the reference. *)
#[warnings="-register-all"]
Inductive value :=
| JUndefined
| JNull
| JBool (b : bool)
| JNum (n : num)
| JStr (s : string)
| JObj (addr : positive) (props : list (string * value)).

Inductive exn :=
| Error (msg : string)
| TypeError.

(** Result of evaluating an expression: a value, a thrown exception, or
    [Unmodelled] when evaluation needs a conversion this development leaves
    out (string concatenation and parsing, object-to-primitive). *)
Inductive res (A : Type) :=
| Val (a : A)
| Raise (e : exn)
| Unmodelled.
Arguments Val {A} a.
Arguments Raise {A} e.
Arguments Unmodelled {A}.

Definition res_bind {A B} (r : res A) (k : A -> res B) : res B :=
  match r with
  | Val a => k a
  | Raise e => Raise e
  | Unmodelled => Unmodelled
  end.

#[export] Instance res_ret : MRet res := fun A a => Val a.
#[export] Instance res_mbind : MBind res := fun A B k r => res_bind r k.

(** [!!v] *)
Definition truthy (v : value) : bool :=
  match v with
  | JUndefined | JNull => false
  | JBool b => b
  | JNum (Int z) => negb (z =? 0)
  | JNum NaN => false
  | JStr s => negb (String.eqb s "")
  | JObj _ _ => true
  end.

Definition typeof (v : value) : string :=
  match v with
  | JUndefined => "undefined"
  | JNull => "object"
  | JBool _ => "boolean"
  | JNum _ => "number"
  | JStr _ => "string"
  | JObj _ _ => "object"
  end.

Definition is_undefined (v : value) : bool :=
  match v with
  | JUndefined => true
  | _ => false
  end.

Fixpoint assoc {A} (k : string) (l : list (string * A)) : option A :=
  match l with
  | [] => None
  | (k', a) :: l' => if String.eqb k k' then Some a else assoc k l'
  end.

(** [v.k] for the property names the class reads ([r], [g], [name],
    [_note_key], [_automap_key]); every read in the source sits behind a
    test that [v] is an object. *)
Definition get (v : value) (k : string) : value :=
  match v with
  | JObj _ props => default JUndefined (assoc k props)
  | _ => JUndefined
  end.

(** [a === b] *)
Definition strict_eq (a b : value) : bool :=
  match a, b with
  | JUndefined, JUndefined => true
  | JNull, JNull => true
  | JBool x, JBool y => Bool.eqb x y
  | JNum (Int x), JNum (Int y) => x =? y
  | JStr x, JStr y => String.eqb x y
  | JObj x _, JObj y _ => Pos.eqb x y
  | _, _ => false
  end.

(** SameValueZero, the comparison of [Set.prototype.has/add/delete]. *)
Definition same_value_zero (a b : value) : bool :=
  match a, b with
  | JNum NaN, JNum NaN => true
  | _, _ => strict_eq a b
  end.

Definition safe_integer (z : Z) : bool :=
  (- (2 ^ 53 - 1) <=? z) && (z <=? 2 ^ 53 - 1).

Definition int_result (z : Z) : res num :=
  if safe_integer z then Val (Int z) else Unmodelled.

(** ToNumber on the primitives that need no parsing. *)
Definition to_number (v : value) : res num :=
  match v with
  | JUndefined => Val NaN
  | JNull => Val (Int 0)
  | JBool b => Val (Int (if b then 1 else 0))
  | JNum (Int z) => int_result z
  | JNum NaN => Val NaN
  | JStr _ | JObj _ _ => Unmodelled
  end.

(** [a + b]: numeric addition unless an operand is a string or an object. *)
Definition add (a b : value) : res value :=
  res_bind (to_number a) (fun x =>
  res_bind (to_number b) (fun y =>
  match x, y with
  | Int p, Int q => res_bind (int_result (p + q)) (fun n => Val (JNum n))
  | _, _ => Val (JNum NaN)
  end)).

(** [a * b] *)
Definition mul (a b : value) : res value :=
  res_bind (to_number a) (fun x =>
  res_bind (to_number b) (fun y =>
  match x, y with
  | Int p, Int q => res_bind (int_result (p * q)) (fun n => Val (JNum n))
  | _, _ => Val (JNum NaN)
  end)).

(** [a - b] *)
Definition sub (a b : value) : res value :=
  res_bind (to_number a) (fun x =>
  res_bind (to_number b) (fun y =>
  match x, y with
  | Int p, Int q => res_bind (int_result (p - q)) (fun n => Val (JNum n))
  | _, _ => Val (JNum NaN)
  end)).

(** [a < b] on numbers: false as soon as an operand is [NaN]. *)
Definition lt (a b : value) : res bool :=
  res_bind (to_number a) (fun x =>
  res_bind (to_number b) (fun y =>
  match x, y with
  | Int p, Int q => Val (p <? q)
  | _, _ => Val false
  end)).

(** ToString on primitives; within the safe range a number prints as its
    decimal numeral. *)
Definition to_string (v : value) : res string :=
  match v with
  | JUndefined => Val "undefined"
  | JNull => Val "null"
  | JBool b => Val (if b then "true" else "false")
  | JNum (Int z) => if safe_integer z then Val (pretty z) else Unmodelled
  | JNum NaN => Val "NaN"
  | JStr s => Val s
  | JObj _ _ => Unmodelled
  end.

(** One element of [new Uint8Array(arguments)]: ToNumber, then modulo 256,
    with [NaN] stored as 0. *)
Definition to_uint8 (v : value) : res Z :=
  res_bind (to_number v) (fun n =>
  match n with
  | Int z => Val (z mod 256)
  | NaN => Val 0
  end).

Fixpoint to_uint8_array (vs : list value) : res (list Z) :=
  match vs with
  | [] => Val []
  | v :: vs' =>
      res_bind (to_uint8 v) (fun b =>
      res_bind (to_uint8_array vs') (fun bs => Val (b :: bs)))
  end.

(** *** Property order of [Object.keys]

    Keys that are canonical array indices come first, in ascending numeric
    order; the other string keys follow in creation order. *)

Definition digit (a : Ascii.ascii) : option N :=
  let n := N_of_ascii a in
  if ((48 <=? n) && (n <=? 57))%N then Some (n - 48)%N else None.

Fixpoint parse_digits (s : string) (acc : N) : option N :=
  match s with
  | EmptyString => Some acc
  | String a s' =>
      match digit a with
      | Some d => parse_digits s' (acc * 10 + d)%N
      | None => None
      end
  end.

Definition array_index (s : string) : option N :=
  match s with
  | EmptyString => None
  | String a s' =>
      if Ascii.eqb a "0"%char
      then (if String.eqb s' "" then Some 0%N else None)
      else match parse_digits s 0 with
           | Some n => if (n <? 2 ^ 32 - 1)%N then Some n else None
           | None => None
           end
  end.

Definition index_le (p q : N * string) : Prop := (p.1 <= q.1)%N.

#[local] Instance index_le_dec : RelDecision index_le.
Proof. intros p q. unfold index_le. apply _. Defined.

Definition keys {A} (props : list (string * A)) : list string :=
  let names := map fst props in
  let indexed := omap (fun k => (fun n => (n, k)) <$> array_index k) names in
  let named := filter (fun k => array_index k = None) names in
  map snd (merge_sort index_le indexed) ++ named.

End JS.

Import JS.

(** ** The Launchpad class *)

Module Launchpad.

(** *** Static tables: [Launchpad.Colors] and [Launchpad.Buttons] *)

Definition colorGenerator (addr : positive) (name : string) (r g : Z)
    (htmlColorCode : string) : value :=
  JObj addr [("name", JStr name); ("r", JNum (Int r)); ("g", JNum (Int g));
             ("htmlColorCode", JStr htmlColorCode)].

Definition Colors : list (string * value) :=
  [("Off", colorGenerator 1 "Off" 0 0 "#555555");
   ("GreenLow", colorGenerator 2 "GreenLow" 0 1 "#687b49");
   ("GreenMed", colorGenerator 3 "GreenMed" 0 2 "#8a9f47");
   ("Green", colorGenerator 4 "Green" 0 3 "#a8cc36");
   ("RedLow", colorGenerator 5 "RedLow" 1 0 "#8a4b4b");
   ("RedMed", colorGenerator 6 "RedMed" 2 0 "#a14e4e");
   ("Red", colorGenerator 7 "Red" 3 0 "#e02323");
   ("OrangeMed", colorGenerator 8 "OrangeMed" 2 1 "#ca6919");
   ("Orange", colorGenerator 9 "Orange" 3 2 "#db7018");
   ("YellowMed", colorGenerator 10 "YellowMed" 1 2 "#bbad25");
   ("Yellow", colorGenerator 11 "Yellow" 2 3 "#dbc708");
   ("AmberLow", colorGenerator 12 "AmberLow" 1 1 "#9f721a");
   ("AmberMed", colorGenerator 13 "AmberMed" 2 2 "#c18819");
   ("Amber", colorGenerator 14 "Amber" 3 3 "#ffba32");
   ("Lime", colorGenerator 15 "Lime" 1 3 "#d0e021");
   ("OrangeRed", colorGenerator 16 "OrangeRed" 3 1 "#f3581f")].

(** [Launchpad.Colors[name]] *)
Definition Color (name : string) : value := default JUndefined (assoc name Colors).

(** [buttonGenerator] copies every property of its argument to a new object. *)
Definition buttonGenerator (addr : positive) (data : list (string * value)) : value :=
  JObj addr data.

(** The template literal [`${x}${y}`] on two integers. *)
Definition xy_name (x y : Z) : string := pretty x +:+ pretty y.

Definition grid_button (x y : Z) : string * value :=
  (xy_name x y,
   buttonGenerator (Z.to_pos (17 + 8 * y + x))
     [("name", JStr (xy_name x y)); ("x", JNum (Int x)); ("y", JNum (Int y));
      ("_note_key", JNum (Int (x + y * 16)))]).

Definition note_button (addr : positive) (name : string) (key : Z) : string * value :=
  (name, buttonGenerator addr [("name", JStr name); ("_note_key", JNum (Int key))]).

Definition automap_button (addr : positive) (name : string) (key : Z) : string * value :=
  (name, buttonGenerator addr [("name", JStr name); ("_automap_key", JNum (Int key))]).

(** The properties of [Launchpad.Buttons] in the order the module creates
    them: the two nested loops, then the sixteen named buttons. *)
Definition Buttons : list (string * value) :=
  flat_map (fun y => map (fun x => grid_button x y) (seqZ 0 8)) (seqZ 0 8)
  ++ [note_button 81 "Vol" 8; note_button 82 "Pan" 24;
      note_button 83 "SendA" 40; note_button 84 "SendB" 56;
      note_button 85 "Stop" 72; note_button 86 "TrackOn" 88;
      note_button 87 "Solo" 104; note_button 88 "Arm" 120;
      automap_button 89 "Up" 104; automap_button 90 "Down" 105;
      automap_button 91 "Left" 106; automap_button 92 "Right" 107;
      automap_button 93 "Session" 108; automap_button 94 "User1" 109;
      automap_button 95 "User2" 110; automap_button 96 "Mixer" 111].

(** [Launchpad.Buttons[name]] *)
Definition Button (name : string) : value := default JUndefined (assoc name Buttons).

(** *** Instance state *)

(** Listener callbacks are opaque observers, told apart by a number. *)
Definition callback := nat.

Inductive category := pressed | released | led_changed.

#[export] Instance category_eq_dec : EqDecision category.
Proof. solve_decision. Defined.

Record state := mkState {
  listeners : category -> list callback;
  _pressedButtons : list value;            (* a Set, in insertion order *)
  flashingBuffers : value;
  displayingBuffer : value;
  updatingBuffer : value;
  ledBuffers : option (gmap string (gmap string value));
  _cachedOrderedButtons : option (gmap string (list value));
  output : option (list (list Z));         (* null, or the port and what it was sent *)
  calls : list (callback * value)          (* callback invocations so far *)
}.

(** The instance [new Launchpad()] builds, before any device is attached. *)
Definition constructor : state :=
  {| listeners := fun _ => [];
     _pressedButtons := [];
     flashingBuffers := JUndefined;
     displayingBuffer := JUndefined;
     updatingBuffer := JUndefined;
     ledBuffers := None;
     _cachedOrderedButtons := None;
     output := None;
     calls := [] |}.

Definition with_pressedButtons (v : list value) (s : state) : state :=
  mkState (listeners s) v (flashingBuffers s) (displayingBuffer s) (updatingBuffer s)
          (ledBuffers s) (_cachedOrderedButtons s) (output s) (calls s).
Definition with_flashingBuffers (v : value) (s : state) : state :=
  mkState (listeners s) (_pressedButtons s) v (displayingBuffer s) (updatingBuffer s)
          (ledBuffers s) (_cachedOrderedButtons s) (output s) (calls s).
Definition with_displayingBuffer (v : value) (s : state) : state :=
  mkState (listeners s) (_pressedButtons s) (flashingBuffers s) v (updatingBuffer s)
          (ledBuffers s) (_cachedOrderedButtons s) (output s) (calls s).
Definition with_updatingBuffer (v : value) (s : state) : state :=
  mkState (listeners s) (_pressedButtons s) (flashingBuffers s) (displayingBuffer s) v
          (ledBuffers s) (_cachedOrderedButtons s) (output s) (calls s).
Definition with_ledBuffers (v : option (gmap string (gmap string value))) (s : state) : state :=
  mkState (listeners s) (_pressedButtons s) (flashingBuffers s) (displayingBuffer s)
          (updatingBuffer s) v (_cachedOrderedButtons s) (output s) (calls s).
Definition with_cachedOrderedButtons (v : option (gmap string (list value))) (s : state) : state :=
  mkState (listeners s) (_pressedButtons s) (flashingBuffers s) (displayingBuffer s)
          (updatingBuffer s) (ledBuffers s) v (output s) (calls s).
Definition with_output (v : option (list (list Z))) (s : state) : state :=
  mkState (listeners s) (_pressedButtons s) (flashingBuffers s) (displayingBuffer s)
          (updatingBuffer s) (ledBuffers s) (_cachedOrderedButtons s) v (calls s).
Definition with_calls (v : list (callback * value)) (s : state) : state :=
  mkState (listeners s) (_pressedButtons s) (flashingBuffers s) (displayingBuffer s)
          (updatingBuffer s) (ledBuffers s) (_cachedOrderedButtons s) (output s) v.
Definition with_listener (c : category) (v : list callback) (s : state) : state :=
  mkState (fun c' => if decide (c' = c) then v else listeners s c')
          (_pressedButtons s) (flashingBuffers s) (displayingBuffer s)
          (updatingBuffer s) (ledBuffers s) (_cachedOrderedButtons s) (output s) (calls s).

(** *** Methods as state transformers

    A method call either completes with a result and a new state, throws
    (an [async] method rejects) leaving the state it had reached, or is
    [Stuck] on a conversion outside the model.  Each command runs to its
    end before the next one starts. *)

Inductive outcome (A : Type) :=
| Ok (a : A) (s : state)
| Fail (e : exn) (s : state)
| Stuck.
Arguments Ok {A} a s.
Arguments Fail {A} e s.
Arguments Stuck {A}.

Definition M (A : Type) : Type := state -> outcome A.

#[export] Instance M_ret : MRet M := fun A a s => Ok a s.
#[export] Instance M_bind : MBind M := fun A B k m s =>
  match m s with
  | Ok a s' => k a s'
  | Fail e s' => Fail e s'
  | Stuck => Stuck
  end.

Definition throw {A} (e : exn) : M A := fun s => Fail e s.
Definition stuck {A} : M A := fun _ => Stuck.
Definition read {A} (f : state -> A) : M A := fun s => Ok (f s) s.
Definition modify (f : state -> state) : M unit := fun s => Ok tt (f s).

Definition lift {A} (r : res A) : M A := fun s =>
  match r with
  | Val a => Ok a s
  | Raise e => Fail e s
  | Unmodelled => Stuck
  end.

Fixpoint for_each {A} (l : list A) (f : A -> M unit) : M unit :=
  match l with
  | [] => mret tt
  | a :: l' => f a ;; for_each l' f
  end.

(** [l[i]] on an array. *)
Definition elem (l : list value) (i : nat) : value := default JUndefined (l !! i).

(** A number literal. *)
Definition lit (z : Z) : value := JNum (Int z).

(** [this.listeners[listener].forEach(l => l.callback(data))] *)
Definition _dispatchListener (listener : category) (data : value) : M unit :=
  modify (fun s =>
    with_calls (calls s ++ map (fun cb => (cb, data)) (listeners s listener)) s).

(** [this.output.send(new Uint8Array(arguments))] *)
Definition _midiSend (args : list value) : M unit := fun s =>
  match output s with
  | None => Fail TypeError s
  | Some sent =>
      match to_uint8_array args with
      | Val bytes => Ok tt (with_output (Some (sent ++ [bytes])) s)
      | Raise e => Fail e s
      | Unmodelled => Stuck
      end
  end.

Definition _colorToMIDIVelocity (color changeInBothBuffers turnOffInOtherBuffer : value)
    : res value :=
  let changeInBothBuffers :=
    if is_undefined changeInBothBuffers then JBool false else changeInBothBuffers in
  let turnOffInOtherBuffer :=
    if is_undefined turnOffInOtherBuffer then JBool false else turnOffInOtherBuffer in
  if negb (truthy color) || negb (String.eqb (typeof color) "object")
     || (is_undefined (get color "r") && is_undefined (get color "g"))
  then Raise (Error "Invalid color")
  else
    let turnOffInOtherBuffer := lit (if truthy turnOffInOtherBuffer then 8 else 0) in
    let changeInBothBuffers := lit (if truthy changeInBothBuffers then 12 else 0) in
    flags ← add turnOffInOtherBuffer changeInBothBuffers;
    withRed ← add flags (get color "r");
    green ← mul (get color "g") (lit 16);
    add withRed green.

(** [this.ledBuffers[buffer][name] = color] *)
Definition set_led (buffer name color : value) : M unit := fun s =>
  match ledBuffers s with
  | None => Fail TypeError s
  | Some bufs =>
      match to_string buffer, to_string name with
      | Val b, Val n =>
          match bufs !! b with
          | None => Fail TypeError s
          | Some leds => Ok tt (with_ledBuffers (Some (<[b := <[n := color]> leds]> bufs)) s)
          end
      | _, _ => Stuck
      end
  end.

Definition reset : M unit :=
  _midiSend [lit 0xB0; lit 0; lit 0];;
  modify (with_flashingBuffers (lit 0));;
  modify (with_displayingBuffer (lit 0));;
  modify (with_updatingBuffer (lit 0));;
  modify (with_ledBuffers (Some (<["0" := ∅]> (<["1" := ∅]> ∅))));;
  for_each (keys Buttons) (fun buttonName =>
    set_led (lit 1) (JStr buttonName) (Color "Off");;
    set_led (lit 0) (JStr buttonName) (Color "Off"));;
  _dispatchListener led_changed JUndefined.

Definition setSingleLED (button color changeInBothBuffers turnOffInOtherBuffer : value)
    : M unit :=
  if negb (truthy button) || negb (String.eqb (typeof button) "object")
     || (is_undefined (get button "_note_key") && is_undefined (get button "_automap_key"))
  then throw (Error "Invalid button")
  else
    velocity ← lift (_colorToMIDIVelocity color changeInBothBuffers turnOffInOtherBuffer);
    let ledID :=
      if negb (is_undefined (get button "_note_key"))
      then get button "_note_key" else get button "_automap_key" in
    _midiSend [lit (if negb (is_undefined (get button "_note_key")) then 0x90 else 0xB0);
               ledID; velocity];;
    updating ← read updatingBuffer;
    set_led updating (get button "name") color;;
    _dispatchListener led_changed JUndefined.

(** Names every object inherits from [Object.prototype]; looking one of
    them up in an object literal finds a function, which is not a value of
    this model. *)
Definition object_prototype_names : list string :=
  ["constructor"; "hasOwnProperty"; "isPrototypeOf"; "propertyIsEnumerable";
   "toLocaleString"; "toString"; "valueOf"; "__proto__"; "__defineGetter__";
   "__defineSetter__"; "__lookupGetter__"; "__lookupSetter__"].

Definition brightnessMap : list (string * value) :=
  [("low", lit 0x7D); ("medium", lit 0x7E); ("high", lit 0x7F)].

Definition allLEDsOn (brightness : value) : M unit :=
  let brightness := if is_undefined brightness then JStr "medium" else brightness in
  key ← lift (to_string brightness);
  if bool_decide (key ∈ object_prototype_names) then stuck else
  let brightness :=
    if negb (truthy (default JUndefined (assoc key brightnessMap)))
    then JStr "medium" else brightness in
  key ← lift (to_string brightness);
  _midiSend [lit 0xB0; lit 0x00; default JUndefined (assoc key brightnessMap)];;
  for_each (keys Buttons) (fun buttonName =>
    let color :=
      Color (if strict_eq brightness (JStr "low") then "AmberLow"
             else if strict_eq brightness (JStr "medium") then "AmberMed" else "Amber") in
    set_led (lit 1) (JStr buttonName) color;;
    set_led (lit 0) (JStr buttonName) color);;
  _dispatchListener led_changed JUndefined.

Definition _updateBufferStatus (copy : value) : M unit :=
  display ← read displayingBuffer;
  update ← read updatingBuffer;
  flashing ← read flashingBuffers;
  let flash := lit (if truthy flashing then 1 else 0) in
  let copy := lit (if truthy copy then 1 else 0) in
  byte ← lift (a ← add (lit 32) display;
               u ← mul update (lit 4);
               b ← add a u;
               f ← mul flash (lit 8);
               c ← add b f;
               k ← mul copy (lit 16);
               add c k);
  _midiSend [lit 0xB0; lit 0x00; byte];;
  if truthy copy then _dispatchListener led_changed JUndefined else mret tt.

Definition switchDisplayingBuffer : M unit :=
  d ← read displayingBuffer;
  (if negb (truthy d) then modify (with_displayingBuffer (lit 0)) else mret tt);;
  d ← read displayingBuffer;
  modify (with_displayingBuffer (if strict_eq d (lit 1) then lit 0 else lit 1));;
  _updateBufferStatus JUndefined.

Definition switchUpdatingBuffer (copy : value) : M unit :=
  u ← read updatingBuffer;
  (if negb (truthy u) then modify (with_updatingBuffer (lit 0)) else mret tt);;
  u ← read updatingBuffer;
  modify (with_updatingBuffer (if strict_eq u (lit 1) then lit 0 else lit 1));;
  _updateBufferStatus copy.

Definition switchFlash : M unit :=
  f ← read flashingBuffers;
  modify (with_flashingBuffers (JBool (negb (truthy f))));;
  _updateBufferStatus JUndefined.

Definition setDutyCycle (numerator denominator : value) : M unit :=
  low ← lift (lt numerator (lit 1));
  high ← lift (lt (lit 16) numerator);
  if low || high then throw (Error "Invalid numerator") else
  low ← lift (lt denominator (lit 3));
  high ← lift (lt (lit 18) denominator);
  if low || high then throw (Error "Invalid denominator") else
  small ← lift (lt numerator (lit 9));
  if small : bool then
    byte ← lift (n ← sub numerator (lit 1);
                 m ← mul (lit 16) n;
                 d ← sub denominator (lit 3);
                 add m d);
    _midiSend [lit 0xB0; lit 0x1E; byte]
  else
    byte ← lift (n ← sub numerator (lit 9);
                 m ← mul (lit 16) n;
                 d ← sub denominator (lit 3);
                 add m d);
    _midiSend [lit 0xB0; lit 0x1F; byte].

Definition setBrightness (brightness : value) : M unit :=
  let brightness := if is_undefined brightness then lit 1 else brightness in
  if strict_eq brightness (lit 1) then setDutyCycle (lit 1) (lit 5)
  else if strict_eq brightness (lit 2) then setDutyCycle (lit 2) (lit 5)
  else if strict_eq brightness (lit 3) then setDutyCycle (lit 3) (lit 5)
  else if strict_eq brightness (lit 4) then setDutyCycle (lit 4) (lit 5)
  else if strict_eq brightness (lit 5) then setDutyCycle (lit 5) (lit 5)
  else throw (Error "Invalid brightness").

(** The list of names [getOrderedButtons] builds for each order. *)
Definition sideBar : list string :=
  ["Vol"; "Pan"; "SendA"; "SendB"; "Stop"; "TrackOn"; "Solo"; "Arm"].

Definition physical_names : list string :=
  ["Up"; "Down"; "Left"; "Right"; "Session"; "User1"; "User2"; "Mixer"]
  ++ flat_map (fun y =>
       map (fun x => xy_name x y) (seqZ 0 8)
       ++ [default "undefined" (sideBar !! Z.to_nat y)]) (seqZ 0 8).

Definition forBatch_names : list string :=
  flat_map (fun y => map (fun x => xy_name x y) (seqZ 0 8)) (seqZ 0 8)
  ++ ["Vol"; "Pan"; "SendA"; "SendB"; "Stop"; "TrackOn"; "Solo"; "Arm";
      "Up"; "Down"; "Left"; "Right"; "Session"; "User1"; "User2"; "Mixer"].

(** [getOrderedButtons(order)]: the cached list, computed on first use.
    For an order other than the two known ones nothing is stored and the
    result is [undefined] ([None]).  The cache is a plain object, so under
    a name inherited from [Object.prototype] the lookup finds a function,
    which the method returns: that result is not a value of this model. *)
Definition getOrderedButtons (order : string) : M (option (list value)) := fun s =>
  if bool_decide (order ∈ object_prototype_names) then Stuck else
  let cache := default ∅ (_cachedOrderedButtons s) in
  let cache :=
    match cache !! order with
    | Some _ => cache
    | None =>
        if String.eqb order "physical" then <[order := map Button physical_names]> cache
        else if String.eqb order "forBatch" then <[order := map Button forBatch_names]> cache
        else cache
    end in
  Ok (cache !! order) (with_cachedOrderedButtons (Some cache) s).

(** An array given by a caller may have holes ([new Array(2)],
    [[a, , b]]): an element is [None] where the index is absent.  [dense]
    is an array without holes, and [item a i] is [a[i]], which is
    [undefined] at a hole and beyond the length. *)
Definition dense (l : list value) : list (option value) := map Some l.

Definition item (a : list (option value)) (i : nat) : value :=
  default JUndefined (a !! i ≫= id).

(** [colors.map(color => this._colorToMIDIVelocity(color))]:
    [Array.prototype.map] does not call its function at a hole and leaves
    the hole in the result. *)
Fixpoint velocities_of (colors : list (option value)) : res (list (option value)) :=
  match colors with
  | [] => Val []
  | None :: rest =>
      vs ← velocities_of rest;
      Val (None :: vs)
  | Some color :: rest =>
      v ← _colorToMIDIVelocity color JUndefined JUndefined;
      vs ← velocities_of rest;
      Val (Some v :: vs)
  end.

(** [b.name] where [b] may be [undefined]. *)
Definition name_of (b : value) : M value :=
  match b with
  | JUndefined | JNull => throw TypeError
  | _ => mret (get b "name")
  end.

(** The [for (var i = 0; i < velocities.length; i += 2)] loop, entered at
    index [i]; [fuel] bounds the number of iterations. *)
Fixpoint batch_loop (fuel : nat) (colors velocities : list (option value))
    (listOfButtons : list value) (i : nat) : M unit :=
  match fuel with
  | O => stuck
  | S fuel' =>
      if (i <? length velocities)%nat then
        _midiSend [lit 0x92; item velocities i; item velocities (i + 1)];;
        updating ← read updatingBuffer;
        name ← name_of (elem listOfButtons i);
        set_led updating name (item colors i);;
        (if truthy (item colors (i + 1)) then
           updating ← read updatingBuffer;
           name ← name_of (elem listOfButtons (i + 1));
           set_led updating name (item colors (i + 1))
         else mret tt);;
        batch_loop fuel' colors velocities listOfButtons (i + 2)
      else mret tt
  end.

(** The part of [setMultipleLED] up to the end of its loop.  The argument
    is an array, with or without holes, so the first guard of the source
    (not an object) never fires. *)
Definition setMultipleLED_loop (colors : list (option value)) : M unit :=
  if (length colors =? 0)%nat
  then throw (Error "Invalid colors array: Can not be empty") else
  if (80 <? length colors)%nat
  then throw (Error "Invalid colors array: Can not have more than 80 elements") else
  listOfButtons ← getOrderedButtons "forBatch";
  velocities ← lift (velocities_of colors);
  batch_loop (S (length velocities)) colors velocities (default [] listOfButtons) 0.

Definition setMultipleLED (colors : list (option value)) : M unit :=
  setMultipleLED_loop colors;;
  setSingleLED (Button "00") (item colors 0) JUndefined JUndefined;;
  _dispatchListener led_changed JUndefined.

(** [Set.prototype.add], [delete] and [has] on the insertion-ordered set. *)
Definition set_add (v : value) (l : list value) : list value :=
  if existsb (same_value_zero v) l then l else l ++ [v].

Definition set_delete (v : value) (l : list value) : list value :=
  List.filter (fun w => negb (same_value_zero v w)) l.

Definition set_has (v : value) (l : list value) : bool :=
  existsb (same_value_zero v) l.

Definition isButtonPressed (button : value) (s : state) : bool :=
  set_has button (_pressedButtons s).

(** The search loop of [_midiMessageListener] over [Object.keys]. *)
Fixpoint find_button (names : list string) (keyToSearch : string) (key : value) : value :=
  match names with
  | [] => JUndefined
  | i :: rest =>
      if strict_eq (get (Button i) keyToSearch) key then Button i
      else find_button rest keyToSearch key
  end.

(** [_midiMessageListener(data)] on the bytes of an inbound message; the
    result is the returned value ([false], or [undefined] at the end). *)
Definition _midiMessageListener (data : list Z) : M value :=
  if negb (length data =? 3)%nat then mret (JBool false) else
  let type :=
    match data !! 2%nat with
    | Some 0x7F => Some pressed
    | Some 0x0 => Some released
    | _ => None
    end in
  match type with
  | None => mret (JBool false)
  | Some type =>
      let keyToSearch :=
        if decide (data !! 0%nat = Some 0x90) then "_note_key" else "_automap_key" in
      let button := find_button (keys Buttons) keyToSearch (lit (default 0 (data !! 1%nat))) in
      if negb (truthy button) then mret (JBool false) else
      (match type with
       | pressed => modify (fun s => with_pressedButtons (set_add button (_pressedButtons s)) s)
       | released => modify (fun s => with_pressedButtons (set_delete button (_pressedButtons s)) s)
       | led_changed => mret tt
       end);;
      _dispatchListener type button;;
      mret JUndefined
  end.

(** [onButtonPressed], [onButtonReleased] and [onLedChanged]: the callback
    is appended and its index kept by the returned unsubscribe function,
    which is [unsubscribe] at that index. *)
Definition subscribe (c : category) (cb : callback) : M nat := fun s =>
  Ok (length (listeners s c)) (with_listener c (listeners s c ++ [cb]) s).

Definition unsubscribe (c : category) (listenerIndex : nat) : M unit :=
  modify (fun s => with_listener c (delete listenerIndex (listeners s c)) s).

Definition onButtonPressed := subscribe pressed.
Definition onButtonReleased := subscribe released.
Definition onLedChanged := subscribe led_changed.

(** *** Vocabulary of the properties *)

(** The sixteen palette entries and the registered buttons, as objects. *)
Definition palette : list value := map snd Colors.
Definition registry : list value := map snd Buttons.

(** [this.ledBuffers[buffer][name]], when both exist. *)
Definition led (s : state) (buffer : Z) (name : string) : option value :=
  bufs ← ledBuffers s; leds ← bufs !! pretty buffer; leds !! name.

(** What one [_dispatchListener(listener, data)] adds to the call log. *)
Definition notified (s : state) (listener : category) (data : value)
    : list (callback * value) :=
  map (fun cb => (cb, data)) (listeners s listener).

(** The public commands, and the method each one runs. *)
Inductive command :=
| Reset
| AllLEDsOn (brightness : value)
| SetSingleLED (button color changeInBothBuffers turnOffInOtherBuffer : value)
| SwitchDisplayingBuffer
| SwitchUpdatingBuffer (copy : value)
| SwitchFlash
| SetDutyCycle (numerator denominator : value)
| SetBrightness (brightness : value)
| SetMultipleLED (colors : list (option value)).

Definition run (c : command) : M unit :=
  match c with
  | Reset => reset
  | AllLEDsOn b => allLEDsOn b
  | SetSingleLED b c f g => setSingleLED b c f g
  | SwitchDisplayingBuffer => switchDisplayingBuffer
  | SwitchUpdatingBuffer c => switchUpdatingBuffer c
  | SwitchFlash => switchFlash
  | SetDutyCycle n d => setDutyCycle n d
  | SetBrightness b => setBrightness b
  | SetMultipleLED cs => setMultipleLED cs
  end.

(** An object that is no palette entry but carries a red intensity. *)
Definition custom_color : value := JObj 200 [("r", lit 5); ("g", lit 0)].

(** What the guard of the encoder rejects: every value that is not an
    object, and the objects on which both [r] and [g] are undefined. *)
Definition lacks_intensities (color : value) : Prop :=
  match color with
  | JObj _ _ => get color "r" = JUndefined /\ get color "g" = JUndefined
  | _ => True
  end.

(** An instance with a device attached and nothing sent yet. *)
Definition attached : state := with_output (Some []) constructor.

(** The state a method leaves behind, whatever its outcome. *)
Definition after {A} (m : M A) (s : state) : state :=
  match m s with
  | Ok _ s' => s'
  | Fail _ s' => s'
  | Stuck => s
  end.

(** A device attached and [reset()] done. *)
Definition fresh : state := after reset attached.

(** Writing one colour under every name of a list. *)
Definition fill (c : value) (names : list string) (leds : gmap string value)
    : gmap string value :=
  foldl (fun m n => <[n := c]> m) leds names.

(** The two buffers as [reset()] leaves them: Off under every key of
    [Launchpad.Buttons]. *)
Definition reset_buffers : gmap string (gmap string value) :=
  <["0" := fill (Color "Off") (keys Buttons) ∅]>
    (<["1" := fill (Color "Off") (keys Buttons) ∅]> (<["0" := ∅]> (<["1" := ∅]> ∅))).

(** The button an inbound message with this status and key byte resolves
    to in [_midiMessageListener], [undefined] if there is none. *)
Definition resolve (status key : Z) : value :=
  find_button (keys Buttons)
    (if decide ([status; key] !! 0%nat = Some 0x90) then "_note_key" else "_automap_key")
    (lit key).

(** An expression that throws nothing. *)
Definition no_raise {A} (r : res A) : Prop := forall e, r <> Raise e.

(** A method that can only fail with a [TypeError] (a missing device or
    missing buffers), never with a validation error. *)
Definition only_type_errors {A} (m : M A) : Prop :=
  forall s e s', m s = Fail e s' -> e = TypeError.

(** A method that sends nothing, whatever its outcome. *)
Definition quiet {A} (m : M A) : Prop :=
  forall s,
    match m s with
    | Ok _ s' | Fail _ s' => output s' = output s
    | Stuck => True
    end.

(** A method whose validation errors come before any send. *)
Definition validates {A} (m : M A) : Prop :=
  forall s msg s', m s = Fail (Error msg) s' -> output s' = output s.

(** The paired messages of a batch: two velocities per message, the last
    one padded with the 0 that [undefined] becomes in a byte array. *)
Fixpoint paired (bytes : list Z) : list (list Z) :=
  match bytes with
  | [] => []
  | [a] => [[0x92; a; 0]]
  | a :: b :: rest => [0x92; a; b] :: paired rest
  end.

(** Writing each colour under the name at the same position. *)
Definition written (names : list string) (colors : list value)
    (leds : gmap string value) : gmap string value :=
  foldl (fun m p => <[p.1 := p.2]> m) leds (zip names colors).

(** The velocity of a colour with default flags, as a byte. *)
Definition velocity_byte (color : value) : Z :=
  match _colorToMIDIVelocity color JUndefined JUndefined with
  | Val (JNum (Int z)) => z
  | _ => 0
  end.

(** The listener calls a method has made once it completes. *)
Definition calls_after {A} (m : M A) (s : state) : option (list (callback * value)) :=
  match m s with
  | Ok _ s' => Some (calls s')
  | _ => None
  end.

(** The error a method has thrown, if it threw. *)
Definition thrown {A} (m : M A) (s : state) : option exn :=
  match m s with
  | Fail e _ => Some e
  | _ => None
  end.

(** A command whose batch, if it takes one, has no hole at index 0. *)
Definition first_present (c : command) : Prop :=
  match c with
  | SetMultipleLED cs => cs !! 0%nat <> Some None
  | _ => True
  end.

(** A reset instance with one LED-changed listener. *)
Definition listening : state := after (onLedChanged 7%nat) fresh.

(** The heap address of an object. *)
Definition address (v : value) : option positive :=
  match v with
  | JObj addr _ => Some addr
  | _ => None
  end.

(** The cache of [getOrderedButtons] holds nothing but lists the method
    itself stored. *)
Definition cache_ok (s : state) : Prop :=
  forall cache, _cachedOrderedButtons s = Some cache ->
    (forall l, cache !! "physical" = Some l -> l = map Button physical_names) /\
    (forall l, cache !! "forBatch" = Some l -> l = map Button forBatch_names).

(** *** Further methods *)

(** [dispatchButtonPressed(button)] and [dispatchButtonReleased(button)]:
    the listeners are called as for a real message, nothing else happens. *)
Definition dispatchButtonPressed (button : value) : M unit :=
  _dispatchListener pressed button.

Definition dispatchButtonReleased (button : value) : M unit :=
  _dispatchListener released button.


(** [eqSet(as, bs)] of [index.js], on sets in insertion order. *)
Definition eqSet (as_ bs : list value) : bool :=
  if negb (length as_ =? length bs)%nat then false
  else forallb (fun a => set_has a bs) as_.

(** *** Vocabulary of the further properties *)

Definition b2z (b : bool) : Z := if b then 1 else 0.

(** The buffer-control byte for two buffer indices and the two flags. *)
Definition control_byte (display update : Z) (flash copy : bool) : Z :=
  32 + display + update * 4 + b2z flash * 8 + b2z copy * 16.

(** What the guard of [setSingleLED] rejects: every value that is not an
    object, and the objects with neither addressing key. *)
Definition lacks_keys (button : value) : Prop :=
  match button with
  | JObj _ _ => get button "_note_key" = JUndefined /\ get button "_automap_key" = JUndefined
  | _ => True
  end.

(** A method that leaves one aspect of the state alone, whatever its
    outcome. *)
Definition unchanged {A B} (f : state -> A) (m : M B) : Prop :=
  forall s,
    match m s with
    | Ok _ s' | Fail _ s' => f s' = f s
    | Stuck => True
    end.

(** A method that cannot complete while no output port is attached, and
    attaches none. *)
Definition needs_port {A} (m : M A) : Prop :=
  forall s a s', output s = None -> m s <> Ok a s'.

Definition keeps_detached {A} (m : M A) : Prop :=
  forall s a s', output s = None -> m s = Ok a s' -> output s' = None.

(** A set without two elements that are the same value. *)
Fixpoint set_wf (l : list value) : bool :=
  match l with
  | [] => true
  | v :: l' => negb (set_has v l') && set_wf l'
  end.

(** The key property that an inbound status byte selects. *)
Definition keyspace (status : Z) : string :=
  if decide (status = 0x90) then "_note_key" else "_automap_key".

(** Both LED buffers hold a palette colour under every button name. *)
Definition painted (bufs : gmap string (gmap string value)) : Prop :=
  forall b, b = 0 \/ b = 1 ->
    exists leds, bufs !! pretty b = Some leds /\
      forall name, In name (map fst Buttons) ->
        exists c, leds !! name = Some c /\ In c palette.

(** An instance after [reset()]: a port is attached, both buffer indices
    are 0 or 1, the cache is sound, and the buffers are painted. *)
Definition ready (s : state) : Prop :=
  (exists sent, output s = Some sent) /\
  (exists d u, displayingBuffer s = lit d /\ updatingBuffer s = lit u /\
               (d = 0 \/ d = 1) /\ (u = 0 \/ u = 1)) /\
  cache_ok s /\
  exists bufs, ledBuffers s = Some bufs /\ painted bufs.

(** Arguments a caller is meant to pass. *)
Definition valid_command (c : command) : Prop :=
  match c with
  | Reset | SwitchDisplayingBuffer | SwitchUpdatingBuffer _ | SwitchFlash => True
  | AllLEDsOn b =>
      b = JUndefined \/ exists str, b = JStr str /\ ~ In str object_prototype_names
  | SetSingleLED b c _ _ => In b registry /\ In c palette
  | SetDutyCycle n d =>
      exists n' d', n = lit n' /\ d = lit d' /\ 1 <= n' <= 16 /\ 3 <= d' <= 18
  | SetBrightness b => b = JUndefined \/ exists k, b = lit k /\ 1 <= k <= 5
  | SetMultipleLED cs =>
      exists colors, cs = dense colors /\
        Forall (fun c => In c palette) colors /\ (1 <= length colors <= 80)%nat
  end.


(** Whether a method call ran to its end. *)
Definition completes {A} (o : outcome A) : bool :=
  match o with
  | Ok _ _ => true
  | _ => false
  end.

(** The part of the instance that inbound messages write: the pressed
    set, next to the listener lists. *)
Definition inbound (s : state) : (category -> list callback) * list value :=
  (listeners s, _pressedButtons s).

(** The part of the instance that the commands write. *)
Definition outbound (s : state) :=
  (output s, ledBuffers s, (displayingBuffer s, updatingBuffer s, flashingBuffers s),
   (_cachedOrderedButtons s, listeners s)).

(** What SameValueZero compares: a primitive by its value, an object by
    its address. *)
Definition identity (v : value) : value :=
  match v with
  | JObj addr _ => JObj addr []
  | _ => v
  end.

End Launchpad.

Import Launchpad.

(** * Properties *)

(** ** Velocity encoder *)

(** Prove [Forall P l] on a concrete list, one element at a time. *)
Ltac forall_list tac :=
  repeat first [apply Forall_nil_2 | apply Forall_cons_2; [tac|]].

Lemma palette_cases (P : value -> Prop) :
  Forall P palette -> forall C, In C palette -> P C.
Proof. intros HP C HC. rewrite Forall_forall in HP. apply HP. by apply list_elem_of_In. Qed.

(** C3: for a palette colour and boolean flags the encoder returns
    (clearOther ? 8 : 0) + (bothBuffers ? 12 : 0) + red + green * 16, with red
    and green the colour's two intensities in 0..3; encode(Red) is 3 and
    encode(Off, true, false) is 12. *)
Theorem velocity_formula (C : value) (bothBuffers clearOther : bool) :
  In C palette ->
  (exists red green,
      get C "r" = lit red /\ get C "g" = lit green /\
      0 <= red <= 3 /\ 0 <= green <= 3 /\
      _colorToMIDIVelocity C (JBool bothBuffers) (JBool clearOther) =
        Val (lit ((if clearOther then 8 else 0) + (if bothBuffers then 12 else 0)
                  + red + green * 16)))
  /\ _colorToMIDIVelocity (Color "Red") JUndefined JUndefined = Val (lit 3)
  /\ _colorToMIDIVelocity (Color "Off") (JBool true) (JBool false) = Val (lit 12).
Proof.
  intros HC. split; [|split; reflexivity].
  revert C HC. apply palette_cases.
  forall_list ltac:(idtac);
    match goal with
    | |- exists r g, get ?c "r" = _ /\ _ =>
        let r := eval vm_compute in (get c "r") in
        let g := eval vm_compute in (get c "g") in
        match r with JNum (Int ?r') =>
          match g with JNum (Int ?g') => exists r', g' end end
    end;
    (split; [reflexivity|]); (split; [reflexivity|]);
    (split; [lia|]); (split; [lia|]);
    destruct bothBuffers, clearOther; reflexivity.
Qed.

Lemma velocity_formula_witness :
  In (Color "Amber") palette /\
  _colorToMIDIVelocity (Color "Amber") (JBool true) (JBool false) = Val (lit 63).
Proof.
  assert (H : In (Color "Amber") palette) by (vm_compute; tauto).
  split; [exact H|].
  destruct (velocity_formula (Color "Amber") true false H) as [(r & g & Hr & Hg & _ & _ & E) _].
  vm_compute in Hr, Hg. injection Hr as <-. injection Hg as <-. exact E.
Defined.

(** C2: with both flags requested the encoder adds the two contributions:
    on every palette colour the result is 8 more than with
    changeInBothBuffers alone, so the flag part is 20 and not 12;
    encode(Off, true, true) is 20 while encode(Off, true, false) is 12. *)
Theorem both_flags_are_summed :
  Forall (fun C => exists v,
            _colorToMIDIVelocity C (JBool true) (JBool false) = Val (lit v) /\
            _colorToMIDIVelocity C (JBool true) (JBool true) = Val (lit (v + 8)))
         palette
  /\ _colorToMIDIVelocity (Color "Off") (JBool true) (JBool true) = Val (lit 20)
  /\ _colorToMIDIVelocity (Color "Off") (JBool true) (JBool false) = Val (lit 12).
Proof.
  split; [|split; reflexivity].
  forall_list ltac:(idtac);
    match goal with
    | |- exists v, ?e = _ /\ _ =>
        let r := eval vm_compute in e in
        match r with Val (JNum (Int ?z)) => exists z end
    end; split; reflexivity.
Qed.

(** C7, as stated, fails: an object outside the palette that has an [r]
    property is encoded, not rejected. *)
Lemma non_palette_object_is_encoded :
  ~ In custom_color palette /\
  _colorToMIDIVelocity custom_color JUndefined JUndefined = Val (lit 5).
Proof.
  split; [|reflexivity].
  vm_compute. intros H.
  repeat (destruct H as [H|H]; [discriminate H|]). exact H.
Qed.

Lemma is_undefined_true v : is_undefined v = true <-> v = JUndefined.
Proof. destruct v; simpl; split; congruence. Qed.

Lemma arith_never_raises (f : value -> value -> res value) a b e :
  f = add \/ f = mul \/ f = sub -> f a b <> Raise e.
Proof.
  intros [-> | [-> | ->]]; unfold add, mul, sub, to_number, int_result, res_bind;
    destruct a as [| |?|[?|]|?|? ?], b as [| |?|[?|]|?|? ?];
    repeat (case_match; try discriminate); discriminate.
Qed.

Lemma encoder_raise_inv color a b e :
  _colorToMIDIVelocity color a b = Raise e ->
  e = Error "Invalid color" /\
  (negb (truthy color) || negb (String.eqb (typeof color) "object")
   || (is_undefined (get color "r") && is_undefined (get color "g"))) = true.
Proof.
  unfold _colorToMIDIVelocity.
  destruct (negb (truthy color) || _ || _) eqn:G.
  - intros [= <-]. done.
  - intros H. exfalso. revert H.
    unfold mbind, res_mbind, res_bind.
    repeat match goal with
           | |- context [match ?f ?x ?y with _ => _ end] =>
               let E := fresh in
               destruct (f x y) as [?| ?|] eqn:E;
               [| exfalso; eapply arith_never_raises; [|exact E]; tauto | discriminate]
           end.
    intros Hlast. eapply arith_never_raises; [|exact Hlast]. tauto.
Qed.

Lemma invalid_color_guard color f g :
  _colorToMIDIVelocity color f g = Raise (Error "Invalid color") <-> lacks_intensities color.
Proof.
  split.
  - intros H. apply encoder_raise_inv in H as [_ G].
    destruct color as [| |?|[?|]|?|? ?]; simpl; try exact I.
    simpl in G. apply andb_true_iff in G as [G1 G2].
    by rewrite !is_undefined_true in G1, G2.
  - intros H. unfold _colorToMIDIVelocity.
    destruct color as [| |[|]|[z|]|str|? ?]; simpl; try reflexivity.
    + destruct (z =? 0); reflexivity.
    + destruct (String.eqb str ""); reflexivity.
    + simpl in H. destruct H as [-> ->]. reflexivity.
Qed.

(** ** Ordered button lists *)

Lemma known_orders :
  bool_decide ("physical" ∈ object_prototype_names) = false /\
  bool_decide ("forBatch" ∈ object_prototype_names) = false.
Proof. split; vm_compute; reflexivity. Qed.

Lemma getOrderedButtons_physical s :
  cache_ok s ->
  exists s', getOrderedButtons "physical" s = Ok (Some (map Button physical_names)) s'.
Proof.
  intros Hc. unfold getOrderedButtons, cache_ok in *.
  rewrite (proj1 known_orders).
  destruct (_cachedOrderedButtons s) as [cache|]; simpl.
  - destruct (Hc cache eq_refl) as [Hp _].
    destruct (cache !! "physical") as [l|] eqn:E.
    + rewrite E, (Hp l eq_refl). eauto.
    + rewrite lookup_insert_eq. eauto.
  - rewrite lookup_empty, lookup_insert_eq. eauto.
Qed.

Lemma getOrderedButtons_forBatch s :
  cache_ok s ->
  exists s', getOrderedButtons "forBatch" s = Ok (Some (map Button forBatch_names)) s'
             /\ output s' = output s /\ calls s' = calls s
             /\ ledBuffers s' = ledBuffers s /\ updatingBuffer s' = updatingBuffer s
             /\ listeners s' = listeners s /\ cache_ok s'.
Proof.
  intros Hc. unfold getOrderedButtons. rewrite (proj2 known_orders).
  assert (Hc' := Hc). unfold cache_ok in Hc.
  destruct (_cachedOrderedButtons s) as [cache|] eqn:Ec;
    cbn [default from_option id String.eqb Ascii.eqb Bool.eqb].
  - destruct (Hc cache eq_refl) as [Hp Hb].
    destruct (cache !! "forBatch") as [l|] eqn:E.
    + rewrite E, (Hb l eq_refl). eexists. repeat (split; [reflexivity|]).
      intros c. cbn [_cachedOrderedButtons with_cachedOrderedButtons].
      intros [= <-]. exact (Hc' _ Ec).
    + rewrite lookup_insert_eq. eexists. repeat (split; [reflexivity|]).
      intros c. cbn [_cachedOrderedButtons with_cachedOrderedButtons].
      intros [= <-]. split; intros l.
      * rewrite lookup_insert_ne by done. apply Hp.
      * rewrite lookup_insert_eq. intros [= <-]. reflexivity.
  - rewrite lookup_empty, lookup_insert_eq. eexists. repeat (split; [reflexivity|]).
    intros c. cbn [_cachedOrderedButtons with_cachedOrderedButtons].
    intros [= <-]. split; intros l.
    + rewrite lookup_insert_ne by done. by rewrite lookup_empty.
    + rewrite lookup_insert_eq. intros [= <-]. reflexivity.
Qed.

Lemma registry_by_name : registry = map Button (map fst Buttons).
Proof. vm_compute. reflexivity. Qed.

Lemma NoDup_registry : NoDup registry.
Proof.
  apply (NoDup_fmap_1 address).
  apply (bool_decide_unpack _). vm_compute. exact I.
Qed.

Lemma names_permutation (names : list string) :
  bool_decide (NoDup names) = true ->
  bool_decide (names ⊆ map fst Buttons) = true ->
  bool_decide (map fst Buttons ⊆ names) = true ->
  map Button names ≡ₚ registry.
Proof.
  intros H1 H2 H3. rewrite registry_by_name.
  apply bool_decide_eq_true in H1, H2, H3.
  apply (fmap_Permutation Button).
  apply NoDup_Permutation; [done| |].
  - apply (bool_decide_unpack _). vm_compute. exact I.
  - intros x. split; [apply H2|apply H3].
Qed.

Lemma grid_cases (P : Z -> Z -> Prop) :
  Forall (fun y => Forall (fun x => P x y) (seqZ 0 8)) (seqZ 0 8) ->
  forall x y, 0 <= x < 8 -> 0 <= y < 8 -> P x y.
Proof.
  intros H x y Hx Hy.
  rewrite Forall_forall in H.
  assert (Hy' : y ∈ seqZ 0 8) by (apply elem_of_seqZ; lia).
  specialize (H y Hy'). rewrite Forall_forall in H.
  apply H. apply elem_of_seqZ. lia.
Qed.

(** C1, as stated, fails: the lists hold 80 buttons, not 72. *)
Lemma ordered_buttons_are_not_72 :
  exists l s, getOrderedButtons "physical" constructor = Ok (Some l) s
              /\ length l = 80%nat /\ length l <> 72%nat.
Proof.
  destruct (getOrderedButtons_physical constructor) as [s E].
  { intros c H. discriminate H. }
  exists (map Button physical_names), s.
  split; [exact E|]. split; [vm_compute; reflexivity|vm_compute; discriminate].
Qed.

(** C1 (amended): the registry holds 80 distinct buttons, and both
    [getOrderedButtons('physical')] and [getOrderedButtons('forBatch')]
    return each of them exactly once; the physical order begins with
    Up, Down, Left, Right, Session, User1, User2, Mixer; the batch order
    has the grid button of column x and row y at index 8*y + x, then the
    eight side buttons, then the eight top buttons. *)
Theorem ordered_buttons (s : state) :
  cache_ok s ->
  exists physical forBatch s1 s2,
    getOrderedButtons "physical" s = Ok (Some physical) s1 /\
    getOrderedButtons "forBatch" s = Ok (Some forBatch) s2 /\
    length registry = 80%nat /\ NoDup registry /\
    physical ≡ₚ registry /\ forBatch ≡ₚ registry /\
    take 8 physical
      = map Button ["Up"; "Down"; "Left"; "Right"; "Session"; "User1"; "User2"; "Mixer"] /\
    (forall x y, 0 <= x < 8 -> 0 <= y < 8 ->
       forBatch !! Z.to_nat (8 * y + x) = Some (Button (xy_name x y)) /\
       get (Button (xy_name x y)) "x" = lit x /\
       get (Button (xy_name x y)) "y" = lit y) /\
    drop 64 forBatch
      = map Button ["Vol"; "Pan"; "SendA"; "SendB"; "Stop"; "TrackOn"; "Solo"; "Arm";
                    "Up"; "Down"; "Left"; "Right"; "Session"; "User1"; "User2"; "Mixer"].
Proof.
  intros Hc.
  destruct (getOrderedButtons_physical s Hc) as [s1 E1].
  destruct (getOrderedButtons_forBatch s Hc) as (s2 & E2 & _).
  exists (map Button physical_names), (map Button forBatch_names), s1, s2.
  split; [exact E1|]. split; [exact E2|].
  split; [vm_compute; reflexivity|]. split; [apply NoDup_registry|].
  split; [apply names_permutation; vm_compute; reflexivity|].
  split; [apply names_permutation; vm_compute; reflexivity|].
  split; [vm_compute; reflexivity|]. split; [|vm_compute; reflexivity].
  apply grid_cases.
  forall_list ltac:(forall_list ltac:(
    split; [vm_compute; reflexivity|];
    split; vm_compute; reflexivity)).
Qed.

Lemma ordered_buttons_witness :
  exists physical forBatch,
    length physical = 80%nat /\ length forBatch = 80%nat /\
    physical ≡ₚ registry /\ forBatch ≡ₚ registry.
Proof.
  assert (Hc : cache_ok constructor) by (intros c E; discriminate E).
  destruct (ordered_buttons constructor Hc)
    as (p & b & s1 & s2 & _ & _ & Hn & _ & Hp & Hb & _).
  exists p, b.
  split; [rewrite Hp; exact Hn|]. split; [rewrite Hb; exact Hn|]. split; assumption.
Defined.

(** ** Stepping through a method body *)

(** Reduce the field updates and projections of a state, nothing else. *)
Ltac fields :=
  unfold with_pressedButtons, with_flashingBuffers, with_displayingBuffer,
         with_updatingBuffer, with_ledBuffers, with_cachedOrderedButtons,
         with_output, with_calls, with_listener in *;
  cbn [listeners _pressedButtons flashingBuffers displayingBuffer updatingBuffer
       ledBuffers _cachedOrderedButtons output calls] in *.

Lemma bind_Ok {A B} (m : M A) (k : A -> M B) s a s1 :
  m s = Ok a s1 -> (m ≫= k) s = k a s1.
Proof. unfold mbind, M_bind. by intros ->. Qed.

Lemma midiSend_Ok args bytes s sent :
  output s = Some sent -> to_uint8_array args = Val bytes ->
  _midiSend args s = Ok tt (with_output (Some (sent ++ [bytes])) s).
Proof. unfold _midiSend. by intros -> ->. Qed.

Lemma set_led_Ok s bufs leds buffer b name n c :
  ledBuffers s = Some bufs -> to_string buffer = Val b -> to_string name = Val n ->
  bufs !! b = Some leds ->
  set_led buffer name c s = Ok tt (with_ledBuffers (Some (<[b := <[n := c]> leds]> bufs)) s).
Proof. unfold set_led. by intros -> -> -> ->. Qed.

Lemma with_ledBuffers_id s : with_ledBuffers (ledBuffers s) s = s.
Proof. by destruct s. Qed.

Lemma fill_lookup c names leds n :
  fill c names leds !! n = if bool_decide (n ∈ names) then Some c else leds !! n.
Proof.
  unfold fill. revert leds. induction names as [|k names IH]; intros leds; simpl.
  - done.
  - rewrite IH. destruct (decide (n = k)) as [->|Hne].
    + rewrite lookup_insert_eq, (bool_decide_eq_true_2 (k ∈ k :: names)) by left.
      by destruct (bool_decide (k ∈ names)).
    + rewrite lookup_insert_ne by done.
      rewrite (bool_decide_ext (n ∈ k :: names) (n ∈ names)); [done|].
      rewrite elem_of_cons. split; [intros [?|?]; done|by right].
Qed.

(** ** reset *)

Lemma pretty_0 : pretty 0 = "0".
Proof. vm_compute. reflexivity. Qed.

Lemma pretty_1 : pretty 1 = "1".
Proof. vm_compute. reflexivity. Qed.

Lemma to_string_lit_0 : to_string (lit 0) = Val "0".
Proof. vm_compute. reflexivity. Qed.

Lemma to_string_lit_1 : to_string (lit 1) = Val "1".
Proof. vm_compute. reflexivity. Qed.

Lemma keys_Buttons name : In name (map fst Buttons) -> name ∈ keys Buttons.
Proof.
  intros H. apply list_elem_of_In in H. revert name H. apply Forall_forall.
  apply (bool_decide_unpack _). vm_compute. exact I.
Qed.

Lemma reset_loop c names s bufs l0 l1 :
  ledBuffers s = Some bufs -> bufs !! "0" = Some l0 -> bufs !! "1" = Some l1 ->
  for_each names (fun n => set_led (lit 1) (JStr n) c;; set_led (lit 0) (JStr n) c) s
  = Ok tt (with_ledBuffers
             (Some (<["0" := fill c names l0]> (<["1" := fill c names l1]> bufs))) s).
Proof.
  revert s bufs l0 l1.
  induction names as [|n names IH]; intros s bufs l0 l1 Hb H0 H1; simpl.
  - rewrite (insert_id bufs "1") by done. rewrite insert_id by done.
    rewrite <- Hb. by rewrite with_ledBuffers_id.
  - set (bufs1 := <["1" := <[n := c]> l1]> bufs).
    set (bufs2 := <["0" := <[n := c]> l0]> bufs1).
    rewrite (bind_Ok _ _ s tt (with_ledBuffers (Some bufs2) (with_ledBuffers (Some bufs1) s))).
    2: { rewrite (bind_Ok _ _ s tt (with_ledBuffers (Some bufs1) s)).
         - apply (set_led_Ok _ bufs1 l0 _ "0" _ n);
             [reflexivity|apply to_string_lit_0|reflexivity|].
           unfold bufs1. by rewrite lookup_insert_ne.
         - by apply (set_led_Ok _ bufs l1 _ "1" _ n);
             [|apply to_string_lit_1|reflexivity|]. }
    rewrite (IH _ bufs2 (<[n := c]> l0) (<[n := c]> l1)); [|reflexivity|..].
    + fields. do 3 f_equal. apply map_eq. intros k. unfold bufs2, bufs1.
      destruct (decide (k = "0")) as [->|]; [by rewrite !lookup_insert_eq|].
      rewrite !(lookup_insert_ne _ "0") by done.
      destruct (decide (k = "1")) as [->|]; [by rewrite !lookup_insert_eq|].
      by rewrite !lookup_insert_ne by done.
    + unfold bufs2. by rewrite lookup_insert_eq.
    + unfold bufs2, bufs1. rewrite lookup_insert_ne by done. by rewrite lookup_insert_eq.
Qed.

Lemma reset_Ok s sent :
  output s = Some sent ->
  reset s
  = Ok tt (with_calls (calls s ++ notified s led_changed JUndefined)
             (with_ledBuffers (Some reset_buffers)
                (with_updatingBuffer (lit 0)
                   (with_displayingBuffer (lit 0)
                      (with_flashingBuffers (lit 0)
                         (with_output (Some (sent ++ [[0xB0; 0; 0]])) s)))))).
Proof.
  intros H. unfold reset.
  erewrite bind_Ok; [|by eapply midiSend_Ok].
  unfold modify at 1 2 3 4. unfold mbind at 1 2 3 4, M_bind at 1 2 3 4.
  erewrite bind_Ok; last first.
  { eapply reset_loop; [reflexivity| |].
    - by rewrite lookup_insert_eq.
    - rewrite lookup_insert_ne by done. by rewrite lookup_insert_eq. }
  reflexivity.
Qed.

Lemma fresh_eq :
  fresh = with_calls []
            (with_ledBuffers (Some reset_buffers)
               (with_updatingBuffer (lit 0)
                  (with_displayingBuffer (lit 0)
                     (with_flashingBuffers (lit 0)
                        (with_output (Some [[0xB0; 0; 0]]) attached))))).
Proof. unfold fresh, after. by rewrite (reset_Ok attached []). Qed.

Lemma reset_buffers_lookup (buffer : Z) :
  buffer = 0 \/ buffer = 1 ->
  reset_buffers !! pretty buffer = Some (fill (Color "Off") (keys Buttons) ∅).
Proof.
  unfold reset_buffers. intros [-> | ->]; rewrite ?pretty_0, ?pretty_1.
  - by rewrite lookup_insert_eq.
  - rewrite lookup_insert_ne by done. by rewrite lookup_insert_eq.
Qed.

(** C6: on an attached device [reset()] sends [0xB0, 0, 0]; afterwards
    every button name has the entry Off in both LED buffers, displaying
    and updating buffer are 0, flashing is off, and the LED-changed
    listeners have been called once each. *)
Theorem reset_spec (s : state) (sent : list (list Z)) :
  output s = Some sent ->
  exists s',
    reset s = Ok tt s' /\
    output s' = Some (sent ++ [[0xB0; 0; 0]]) /\
    (forall name, In name (map fst Buttons) ->
       led s' 0 name = Some (Color "Off") /\ led s' 1 name = Some (Color "Off")) /\
    displayingBuffer s' = lit 0 /\
    updatingBuffer s' = lit 0 /\
    flashingBuffers s' = lit 0 /\ truthy (flashingBuffers s') = false /\
    calls s' = calls s ++ notified s led_changed JUndefined.
Proof.
  intros H. eexists. split; [by apply reset_Ok|].
  split; [reflexivity|]. split; [|by repeat split].
  intros name Hn. apply keys_Buttons in Hn.
  unfold led. fields. cbn [mbind option_bind].
  rewrite !reset_buffers_lookup by tauto. cbn [mbind option_bind].
  rewrite !fill_lookup, !bool_decide_eq_true_2 by done. done.
Qed.

Lemma reset_spec_witness :
  output attached = Some [] /\
  output fresh = Some [[0xB0; 0; 0]] /\
  led fresh 0 "Mixer" = Some (Color "Off") /\ led fresh 1 "00" = Some (Color "Off").
Proof.
  assert (H : output attached = Some []) by reflexivity.
  destruct (reset_spec attached [] H) as (s' & E & Hout & Hled & _).
  split; [exact H|].
  unfold fresh, after. rewrite E.
  split; [exact Hout|]. split; apply Hled; vm_compute; tauto.
Defined.

(** ** setSingleLED *)

Lemma safe_small z : -256 <= z <= 256 -> safe_integer z = true.
Proof.
  intros H. unfold safe_integer.
  change (2 ^ 53) with 9007199254740992.
  apply andb_true_iff. split; apply Z.leb_le; lia.
Qed.

Lemma to_uint8_lit z : 0 <= z < 256 -> to_uint8 (lit z) = Val z.
Proof.
  intros H. unfold to_uint8, lit, to_number, int_result.
  rewrite safe_small by lia. simpl. by rewrite Z.mod_small.
Qed.

Lemma to_uint8_array_lit a b c :
  0 <= a < 256 -> 0 <= b < 256 -> 0 <= c < 256 ->
  to_uint8_array [lit a; lit b; lit c] = Val [a; b; c].
Proof.
  intros Ha Hb Hc. unfold to_uint8_array.
  rewrite !to_uint8_lit by done. reflexivity.
Qed.

Lemma setSingleLED_Ok button color f g s v bytes name u sent bufs leds :
  (negb (truthy button) || negb (String.eqb (typeof button) "object")
   || (is_undefined (get button "_note_key")
       && is_undefined (get button "_automap_key"))) = false ->
  _colorToMIDIVelocity color f g = Val v ->
  to_uint8_array
    [lit (if negb (is_undefined (get button "_note_key")) then 0x90 else 0xB0);
     (if negb (is_undefined (get button "_note_key"))
      then get button "_note_key" else get button "_automap_key");
     v] = Val bytes ->
  to_string (get button "name") = Val name ->
  output s = Some sent -> ledBuffers s = Some bufs ->
  to_string (updatingBuffer s) = Val u -> bufs !! u = Some leds ->
  setSingleLED button color f g s
  = Ok tt (with_calls (calls s ++ notified s led_changed JUndefined)
             (with_ledBuffers (Some (<[u := <[name := color]> leds]> bufs))
                (with_output (Some (sent ++ [bytes])) s))).
Proof.
  intros Hg Hv Hb Hn Ho Hl Hu Hk. unfold setSingleLED. rewrite Hg.
  erewrite bind_Ok; [|unfold lift; rewrite Hv; reflexivity].
  erewrite bind_Ok; [|by eapply midiSend_Ok].
  erewrite bind_Ok; [|reflexivity].
  erewrite bind_Ok; [|by eapply set_led_Ok].
  reflexivity.
Qed.

Lemma buttons_cases (P : string -> value -> Prop) :
  Forall (fun p => P p.1 p.2) Buttons -> forall name B, In (name, B) Buttons -> P name B.
Proof.
  intros HP name B H. rewrite Forall_forall in HP.
  apply (HP (name, B)). by apply list_elem_of_In.
Qed.

Lemma registry_button_facts name B :
  In (name, B) Buttons ->
  (negb (truthy B) || negb (String.eqb (typeof B) "object")
   || (is_undefined (get B "_note_key") && is_undefined (get B "_automap_key"))) = false
  /\ get B "name" = JStr name
  /\ exists status key,
       (get B "_note_key" = lit key /\ status = 0x90
        \/ get B "_note_key" = JUndefined /\ get B "_automap_key" = lit key /\ status = 0xB0)
       /\ 0 <= key < 128.
Proof.
  revert name B. apply buttons_cases.
  forall_list ltac:(
    cbn [fst snd];
    split; [vm_compute; reflexivity|];
    split; [vm_compute; reflexivity|];
    eexists _, _; split;
      [first [left; split; [vm_compute; reflexivity|reflexivity]
             |right; split; [vm_compute; reflexivity|split; [vm_compute; reflexivity|reflexivity]]]
      |lia]).
Qed.

Lemma palette_facts C :
  In C palette ->
  truthy C = true /\
  exists v, 0 <= v < 64 /\ _colorToMIDIVelocity C JUndefined JUndefined = Val (lit v).
Proof.
  revert C. apply palette_cases.
  forall_list ltac:(
    split; [reflexivity|];
    match goal with
    | |- exists v, _ /\ ?e = _ =>
        let r := eval vm_compute in e in
        match r with Val (JNum (Int ?z)) => exists z end
    end; split; [lia|reflexivity]).
Qed.

(** C5: on an attached, reset instance, [setSingleLED(B, C)] with a
    registered button and a palette colour sets the entry of B in the
    updating buffer to C, leaves every other entry of that buffer and every
    entry of the other buffer as they were, and calls the LED-changed
    listeners once each. *)
Theorem setSingleLED_frame (name : string) (B C : value) (s : state)
    (u : Z) (sent : list (list Z)) :
  In (name, B) Buttons -> In C palette ->
  output s = Some sent ->
  updatingBuffer s = lit u -> u = 0 \/ u = 1 ->
  is_Some (bufs ← ledBuffers s; bufs !! pretty u) ->
  exists s' status key v,
    setSingleLED B C JUndefined JUndefined s = Ok tt s' /\
    (get B "_note_key" = lit key /\ status = 0x90
     \/ get B "_note_key" = JUndefined /\ get B "_automap_key" = lit key /\ status = 0xB0) /\
    _colorToMIDIVelocity C JUndefined JUndefined = Val (lit v) /\
    output s' = Some (sent ++ [[status; key; v]]) /\
    led s' u name = Some C /\
    (forall n, n <> name -> led s' u n = led s u n) /\
    (forall n, led s' (1 - u) n = led s (1 - u) n) /\
    calls s' = calls s ++ notified s led_changed JUndefined /\
    updatingBuffer s' = updatingBuffer s /\
    displayingBuffer s' = displayingBuffer s /\
    flashingBuffers s' = flashingBuffers s /\
    _pressedButtons s' = _pressedButtons s.
Proof.
  intros HB HC Ho Hu Hu01 [leds Hl].
  destruct (ledBuffers s) as [bufs|] eqn:Eb; [|discriminate Hl]. simpl in Hl.
  destruct (registry_button_facts name B HB) as (Hg & Hname & status & key & Hkey & Hr).
  destruct (palette_facts C HC) as (_ & v & Hv & Ev).
  assert (Hs : to_string (lit u) = Val (pretty u)).
  { destruct Hu01 as [-> | ->]; vm_compute; reflexivity. }
  assert (Hne : pretty u <> pretty (1 - u)).
  { destruct Hu01 as [-> | ->]; vm_compute; discriminate. }
  exists (with_calls (calls s ++ notified s led_changed JUndefined)
            (with_ledBuffers (Some (<[pretty u := <[name := C]> leds]> bufs))
               (with_output (Some (sent ++ [[status; key; v]])) s))),
         status, key, v.
  split.
  { eapply setSingleLED_Ok; eauto.
    - destruct Hkey as [[E1 ->] | (E1 & E2 & ->)]; rewrite E1, ?E2;
        [change (is_undefined (lit key)) with false
        |change (is_undefined JUndefined) with true];
        cbn [negb]; apply to_uint8_array_lit; lia.
    - by rewrite Hname.
    - by rewrite Hu. }
  split; [exact Hkey|]. split; [exact Ev|].
  split; [reflexivity|].
  unfold led. fields. rewrite Eb. cbn [mbind option_bind].
  rewrite lookup_insert_eq, (lookup_insert_ne _ (pretty u)) by done.
  cbn [mbind option_bind]. rewrite Hl. cbn [mbind option_bind].
  split; [by rewrite lookup_insert_eq|].
  split; [by intros n Hn; rewrite lookup_insert_ne|].
  by repeat split.
Qed.

Lemma setSingleLED_frame_witness :
  exists s',
    setSingleLED (Button "00") (Color "Red") JUndefined JUndefined fresh = Ok tt s' /\
    led s' 0 "00" = Some (Color "Red") /\
    forall n, led s' 1 n = led fresh 1 n.
Proof.
  destruct (setSingleLED_frame "00" (Button "00") (Color "Red") fresh 0 [[0xB0; 0; 0]])
    as (s' & _ & _ & _ & E & _ & _ & _ & H1 & _ & H2 & _).
  - vm_compute. left. reflexivity.
  - vm_compute. tauto.
  - by rewrite fresh_eq.
  - by rewrite fresh_eq.
  - left. reflexivity.
  - rewrite fresh_eq. fields. cbn [mbind option_bind].
    rewrite reset_buffers_lookup by tauto. by eexists.
  - exists s'. split; [exact E|]. split; [exact H1|exact H2].
Defined.

(** ** Inbound messages *)

Lemma same_value_zero_refl v : same_value_zero v v = true.
Proof.
  destruct v as [| |b|[z|]|str|a ps]; simpl; try reflexivity.
  - by destruct b.
  - apply Z.eqb_refl.
  - apply String.eqb_refl.
  - apply Pos.eqb_refl.
Qed.

Lemma set_has_add v l : set_has v (set_add v l) = true.
Proof.
  unfold set_has, set_add. destruct (existsb _ l) eqn:E; [done|].
  rewrite existsb_app. simpl. rewrite same_value_zero_refl. by rewrite orb_true_r.
Qed.

Lemma set_add_present v l : set_has v l = true -> set_add v l = l.
Proof. unfold set_has, set_add. by intros ->. Qed.

Lemma set_has_delete v l : set_has v (set_delete v l) = false.
Proof.
  unfold set_has, set_delete. induction l as [|w l IH]; simpl; [done|].
  destruct (same_value_zero v w) eqn:E; simpl; [done|]. by rewrite E.
Qed.

Lemma set_delete_absent v l : set_has v l = false -> set_delete v l = l.
Proof.
  unfold set_has, set_delete. induction l as [|w l IH]; simpl; [done|].
  intros H. apply orb_false_iff in H as [-> H]. simpl. by rewrite IH.
Qed.

Lemma set_add_once v l :
  set_has v l = false -> List.filter (same_value_zero v) (set_add v l) = [v].
Proof.
  unfold set_has, set_add. intros H. rewrite H.
  rewrite List.filter_app. simpl. rewrite same_value_zero_refl.
  replace (List.filter (same_value_zero v) l) with (@nil value); [done|].
  induction l as [|w l IH]; simpl in *; [done|].
  apply orb_false_iff in H as [-> H]. by apply IH.
Qed.

Lemma listener_pressed status key s :
  truthy (resolve status key) = true ->
  _midiMessageListener [status; key; 0x7F] s
  = Ok JUndefined
      (with_calls (calls s ++ notified s pressed (resolve status key))
         (with_pressedButtons (set_add (resolve status key) (_pressedButtons s)) s)).
Proof.
  intros H. unfold _midiMessageListener.
  unfold resolve in *.
  cbn [length Nat.eqb negb lookup list_lookup default from_option id] in *.
  by rewrite H.
Qed.

Lemma listener_released status key s :
  truthy (resolve status key) = true ->
  _midiMessageListener [status; key; 0x0] s
  = Ok JUndefined
      (with_calls (calls s ++ notified s released (resolve status key))
         (with_pressedButtons (set_delete (resolve status key) (_pressedButtons s)) s)).
Proof.
  intros H. unfold _midiMessageListener.
  unfold resolve in *.
  cbn [length Nat.eqb negb lookup list_lookup default from_option id] in *.
  by rewrite H.
Qed.

Lemma resolve_note_key name B K :
  In (name, B) Buttons -> get B "_note_key" = lit K ->
  resolve 0x90 K = B /\ truthy B = true.
Proof.
  intros HB. revert K. revert name B HB.
  apply (buttons_cases (fun _ B => forall K,
           get B "_note_key" = lit K -> resolve 0x90 K = B /\ truthy B = true)).
  forall_list ltac:(
    cbn [fst snd]; intros K E; vm_compute in E;
    first [discriminate E | injection E as <-; split; vm_compute; reflexivity]).
Qed.

(** C8: for a button B of the registry with note key K, the press message
    [0x90, K, 0x7F] resolves to B (the pressed listeners are called with
    B) and makes isButtonPressed(B) true; the release message
    [0x90, K, 0x00] that follows makes it false again. *)
Theorem press_release_roundtrip (name : string) (B : value) (K : Z) (s : state) :
  In (name, B) Buttons -> get B "_note_key" = lit K ->
  exists s1 s2,
    resolve 0x90 K = B /\
    _midiMessageListener [0x90; K; 0x7F] s = Ok JUndefined s1 /\
    calls s1 = calls s ++ notified s pressed B /\
    isButtonPressed B s1 = true /\
    _midiMessageListener [0x90; K; 0x00] s1 = Ok JUndefined s2 /\
    calls s2 = calls s1 ++ notified s1 released B /\
    isButtonPressed B s2 = false.
Proof.
  intros HB HK. destruct (resolve_note_key name B K HB HK) as [R T].
  set (s1 := with_calls (calls s ++ notified s pressed B)
               (with_pressedButtons (set_add B (_pressedButtons s)) s)).
  exists s1,
    (with_calls (calls s1 ++ notified s1 released B)
       (with_pressedButtons (set_delete B (_pressedButtons s1)) s1)).
  split; [exact R|].
  split; [rewrite listener_pressed, R by (by rewrite R); reflexivity|].
  split; [reflexivity|].
  split; [apply set_has_add|].
  split; [rewrite listener_released, R by (by rewrite R); reflexivity|].
  split; [reflexivity|].
  apply set_has_delete.
Qed.

Lemma press_release_roundtrip_witness :
  exists s1 s2,
    _midiMessageListener [0x90; 115; 0x7F] fresh = Ok JUndefined s1 /\
    isButtonPressed (Button "37") s1 = true /\
    _midiMessageListener [0x90; 115; 0x00] s1 = Ok JUndefined s2 /\
    isButtonPressed (Button "37") s2 = false.
Proof.
  destruct (press_release_roundtrip "37" (Button "37") 115 fresh)
    as (s1 & s2 & _ & E1 & _ & P1 & E2 & _ & P2).
  - vm_compute. tauto.
  - vm_compute. reflexivity.
  - exists s1, s2. tauto.
Defined.

(** C10: delivering twice a press message that resolves to button B
    leaves the pressed set as one delivery does (B is in it, and once only
    if it was not there before), while the pressed listeners are called on
    each delivery; a release message for a button that is not in the set
    leaves the set unchanged and still calls the released listeners. *)
Theorem repeated_press_and_stray_release (status key : Z) (B : value) (s : state) :
  resolve status key = B -> truthy B = true ->
  exists s1 s2,
    _midiMessageListener [status; key; 0x7F] s = Ok JUndefined s1 /\
    _midiMessageListener [status; key; 0x7F] s1 = Ok JUndefined s2 /\
    _pressedButtons s2 = _pressedButtons s1 /\
    isButtonPressed B s1 = true /\
    (isButtonPressed B s = false ->
       List.filter (same_value_zero B) (_pressedButtons s2) = [B]) /\
    calls s2 = calls s ++ notified s pressed B ++ notified s pressed B /\
    (isButtonPressed B s = false ->
       exists s3,
         _midiMessageListener [status; key; 0x00] s = Ok JUndefined s3 /\
         _pressedButtons s3 = _pressedButtons s /\
         calls s3 = calls s ++ notified s released B).
Proof.
  intros R T.
  set (s1 := with_calls (calls s ++ notified s pressed B)
               (with_pressedButtons (set_add B (_pressedButtons s)) s)).
  exists s1,
    (with_calls (calls s1 ++ notified s1 pressed B)
       (with_pressedButtons (set_add B (_pressedButtons s1)) s1)).
  split; [rewrite listener_pressed, R by (by rewrite R); reflexivity|].
  split; [rewrite listener_pressed, R by (by rewrite R); reflexivity|].
  assert (Hin : set_has B (_pressedButtons s1) = true) by apply set_has_add.
  split; [fields; by apply set_add_present|].
  split; [exact Hin|].
  split.
  { intros Hout. fields. rewrite set_add_present by exact Hin.
    by apply set_add_once. }
  split; [subst s1; unfold notified; fields; by rewrite <- app_assoc|].
  intros Hout.
  exists (with_calls (calls s ++ notified s released B)
            (with_pressedButtons (set_delete B (_pressedButtons s)) s)).
  split; [rewrite listener_released, R by (by rewrite R); reflexivity|].
  split; [fields; by apply set_delete_absent|reflexivity].
Qed.

Lemma repeated_press_and_stray_release_witness :
  exists s1 s2 s3,
    _midiMessageListener [0xB0; 104; 0x7F] fresh = Ok JUndefined s1 /\
    _midiMessageListener [0xB0; 104; 0x7F] s1 = Ok JUndefined s2 /\
    _pressedButtons s2 = _pressedButtons s1 /\
    isButtonPressed (Button "Up") s1 = true /\
    _midiMessageListener [0xB0; 104; 0x00] fresh = Ok JUndefined s3 /\
    _pressedButtons s3 = _pressedButtons fresh.
Proof.
  destruct (repeated_press_and_stray_release 0xB0 104 (Button "Up") fresh)
    as (s1 & s2 & E1 & E2 & P & M & _ & _ & Hrel).
  - vm_compute. reflexivity.
  - reflexivity.
  - destruct Hrel as (s3 & E3 & P3 & _); [by rewrite fresh_eq|].
    exists s1, s2, s3. tauto.
Defined.

(** ** Validation comes before the wire *)

Section Validation.

Context {A B : Type}.

Lemma no_raise_bind (r : res A) (k : A -> res B) :
  no_raise r -> (forall a, no_raise (k a)) -> no_raise (r ≫= k).
Proof.
  intros Hr Hk e. unfold mbind, res_mbind, res_bind.
  destruct r as [a|e'|]; [apply Hk|by destruct (Hr e')|done].
Qed.

Lemma ote_bind (m : M A) (k : A -> M B) :
  only_type_errors m -> (forall a, only_type_errors (k a)) -> only_type_errors (m ≫= k).
Proof.
  intros Hm Hk s e s'. unfold mbind, M_bind.
  destruct (m s) as [a s1|e1 s1|] eqn:E; [apply Hk| |done].
  intros [= <- <-]. by eapply Hm.
Qed.

Lemma validates_bind (m : M A) (k : A -> M B) :
  quiet m -> (forall a, validates (k a)) -> validates (m ≫= k).
Proof.
  intros Hm Hk s msg s'. unfold mbind, M_bind.
  specialize (Hm s). destruct (m s) as [a s1|e1 s1|]; [|by intros [= -> ->]|done].
  intros H. apply Hk in H. congruence.
Qed.

Lemma ote_validates (m : M A) : only_type_errors m -> validates m.
Proof. intros H s msg s' E. by apply H in E. Qed.

Lemma validates_throw e : validates (@throw A e).
Proof. intros s msg s' H. unfold throw in H. injection H as H1 H2. by rewrite H2. Qed.

Lemma ote_lift (r : res A) : no_raise r -> only_type_errors (lift r).
Proof.
  intros H s e s'. unfold lift. destruct r as [a|e'|]; [done| |done].
  by destruct (H e').
Qed.

Lemma quiet_lift (r : res A) : quiet (lift r).
Proof. intros s. unfold lift. by destruct r. Qed.

Lemma ote_ret (a : A) : only_type_errors (mret a).
Proof. by intros s e s'. Qed.

Lemma ote_read (f : state -> A) : only_type_errors (read f).
Proof. by intros s e s'. Qed.

Lemma ote_stuck : only_type_errors (@stuck A).
Proof. by intros s e s'. Qed.

Lemma ote_for_each (l : list A) (f : A -> M unit) :
  (forall a, only_type_errors (f a)) -> only_type_errors (for_each l f).
Proof.
  intros Hf. induction l as [|a l IH]; simpl.
  - by intros s e s'.
  - intros s e s'. unfold mbind, M_bind.
    destruct (f a s) as [[] s1|e1 s1|] eqn:E; [apply IH| |done].
    intros [= <- <-]. by eapply Hf.
Qed.

End Validation.

Lemma no_raise_to_number v : no_raise (to_number v).
Proof.
  intros e. unfold to_number, int_result.
  destruct v as [| |b|[z|]|str|a ps]; try done. by destruct (safe_integer z).
Qed.

Lemma no_raise_add a b : no_raise (add a b).
Proof. intros e. apply arith_never_raises. tauto. Qed.

Lemma no_raise_mul a b : no_raise (mul a b).
Proof. intros e. apply arith_never_raises. tauto. Qed.

Lemma no_raise_sub a b : no_raise (sub a b).
Proof. intros e. apply arith_never_raises. tauto. Qed.

Lemma no_raise_lt a b : no_raise (lt a b).
Proof.
  intros e. unfold lt, res_bind.
  destruct (to_number a) as [[x|]|e1|] eqn:Ea; try done;
    [| |by destruct (no_raise_to_number a e1)];
    (destruct (to_number b) as [[y|]|e2|] eqn:Eb; try done;
     by destruct (no_raise_to_number b e2)).
Qed.

Lemma no_raise_to_string v : no_raise (to_string v).
Proof.
  intros e. unfold to_string.
  destruct v as [| |b|[z|]|str|a ps]; try done. by destruct (safe_integer z).
Qed.

Lemma no_raise_to_uint8_array vs : no_raise (to_uint8_array vs).
Proof.
  induction vs as [|v vs IH]; intros e; simpl; [done|].
  unfold to_uint8, res_bind.
  destruct (to_number v) as [[z|]|e1|] eqn:E; try done;
    [| |by destruct (no_raise_to_number v e1)];
    (destruct (to_uint8_array vs) as [bs|e2|]; try done; by destruct (IH e2)).
Qed.

Lemma ote_modify f : only_type_errors (modify f).
Proof. by intros s e s'. Qed.

Lemma ote_dispatch listener data : only_type_errors (_dispatchListener listener data).
Proof. by intros s e s'. Qed.

Lemma ote_midiSend args : only_type_errors (_midiSend args).
Proof.
  intros s e s'. unfold _midiSend.
  destruct (output s); [|by intros [= <- _]].
  destruct (to_uint8_array args) as [bs|e1|] eqn:E; [done| |done].
  by destruct (no_raise_to_uint8_array args e1).
Qed.

Lemma ote_set_led buffer name color : only_type_errors (set_led buffer name color).
Proof.
  intros s e s'. unfold set_led.
  destruct (ledBuffers s); [|by intros [= <- _]].
  destruct (to_string buffer); try done.
  destruct (to_string name); try done.
  destruct (_ !! _); [done|by intros [= <- _]].
Qed.

Lemma ote_name_of b : only_type_errors (name_of b).
Proof. intros s e s'. destruct b; simpl; try done; by intros [= <- _]. Qed.

(** Decompose a goal [only_type_errors m] along the structure of [m]. *)
Ltac no_raise_steps :=
  repeat first
    [ apply no_raise_add | apply no_raise_mul | apply no_raise_sub
    | apply no_raise_lt
    | apply no_raise_to_string
    | apply no_raise_to_number
    | apply no_raise_bind; [|intros ?] ].

Ltac ote_steps :=
  repeat first
    [ apply ote_bind; [|intros ?]
    | apply ote_ret | apply ote_read | apply ote_modify | apply ote_stuck
    | apply ote_midiSend | apply ote_set_led | apply ote_dispatch | apply ote_name_of
    | apply ote_for_each; intros ?
    | apply ote_lift; no_raise_steps
    | match goal with
      | |- only_type_errors (if ?c then _ else _) => destruct c
      end ].

Lemma ote_reset : only_type_errors reset.
Proof. unfold reset. ote_steps. Qed.

Lemma ote_allLEDsOn b : only_type_errors (allLEDsOn b).
Proof. unfold allLEDsOn. ote_steps. Qed.

Lemma ote_updateBufferStatus copy : only_type_errors (_updateBufferStatus copy).
Proof. unfold _updateBufferStatus. ote_steps. Qed.

Lemma ote_switchDisplayingBuffer : only_type_errors switchDisplayingBuffer.
Proof. unfold switchDisplayingBuffer. ote_steps. Qed.

Lemma ote_switchUpdatingBuffer copy : only_type_errors (switchUpdatingBuffer copy).
Proof. unfold switchUpdatingBuffer. ote_steps. Qed.

Lemma ote_switchFlash : only_type_errors switchFlash.
Proof. unfold switchFlash. ote_steps. Qed.

Lemma validates_setSingleLED button color f g : validates (setSingleLED button color f g).
Proof.
  unfold setSingleLED. destruct (_ || _ || _); [apply validates_throw|].
  apply validates_bind; [apply quiet_lift|]. intros v.
  apply ote_validates. ote_steps.
Qed.

(** C7 (amended): the encoder fails with "Invalid color" exactly on the
    values that are not objects and on the objects with neither [r] nor [g]
    defined; it raises no other error and accepts every palette entry; and
    [setSingleLED] on a registered button fails with "Invalid color" on
    exactly the same colours. *)
Theorem invalid_color_iff (color changeInBothBuffers turnOffInOtherBuffer : value) :
  (_colorToMIDIVelocity color changeInBothBuffers turnOffInOtherBuffer
     = Raise (Error "Invalid color")
   <-> lacks_intensities color)
  /\ (forall e, _colorToMIDIVelocity color changeInBothBuffers turnOffInOtherBuffer = Raise e
                -> e = Error "Invalid color")
  /\ Forall (fun C => ~ lacks_intensities C) palette
  /\ Forall (fun B => forall s,
               (exists s', setSingleLED B color changeInBothBuffers turnOffInOtherBuffer s
                           = Fail (Error "Invalid color") s')
               <-> lacks_intensities color)
            registry.
Proof.
  split; [apply invalid_color_guard|]. split; [|split].
  - intros e H. by apply encoder_raise_inv in H as [-> _].
  - forall_list ltac:(vm_compute; intros [H _]; discriminate H).
  - apply Forall_forall. intros B HB.
    apply list_elem_of_fmap in HB as ([name B'] & -> & HB). cbn [snd].
    apply list_elem_of_In in HB.
    destruct (registry_button_facts name B' HB) as (Hg & _).
    intros s. unfold setSingleLED. rewrite Hg.
    destruct (_colorToMIDIVelocity color changeInBothBuffers turnOffInOtherBuffer)
      as [v|e|] eqn:E.
    + split.
      * intros [s' H]. exfalso. revert H.
        match goal with
        | |- (lift (Val v) ≫= ?k) s = _ -> _ =>
            assert (O : only_type_errors (k v)) by ote_steps;
            change ((lift (Val v) ≫= k) s) with (k v s)
        end.
        intros H. by apply O in H.
      * intros L.
        apply (invalid_color_guard color changeInBothBuffers turnOffInOtherBuffer) in L.
        congruence.
    + assert (He : e = Error "Invalid color") by (by apply encoder_raise_inv in E as [-> _]).
      subst e. split; [intros _; by apply invalid_color_guard in E|].
      intros _. by exists s.
    + split; [by intros [s' H]|].
      intros L.
      apply (invalid_color_guard color changeInBothBuffers turnOffInOtherBuffer) in L.
      congruence.
Qed.

Lemma validates_setDutyCycle numerator denominator :
  validates (setDutyCycle numerator denominator).
Proof.
  unfold setDutyCycle.
  do 2 (apply validates_bind; [apply quiet_lift|]; intros ?).
  destruct (_ || _); [apply validates_throw|].
  do 2 (apply validates_bind; [apply quiet_lift|]; intros ?).
  destruct (_ || _); [apply validates_throw|].
  apply ote_validates. ote_steps.
Qed.

Lemma validates_setBrightness brightness : validates (setBrightness brightness).
Proof.
  unfold setBrightness.
  repeat (destruct (strict_eq _ _); [apply validates_setDutyCycle|]).
  apply validates_throw.
Qed.

Lemma item_dense l i : item (dense l) i = elem l i.
Proof.
  unfold item, dense, elem. rewrite list_lookup_fmap. by destruct (l !! i).
Qed.

Lemma length_dense l : length (dense l) = length l.
Proof. apply length_map. Qed.

Lemma ote_batch_loop fuel colors velocities listOfButtons i :
  only_type_errors (batch_loop fuel colors velocities listOfButtons i).
Proof.
  revert i. induction fuel as [|fuel IH]; intros i; simpl; [apply ote_stuck|].
  ote_steps. apply IH.
Qed.

Lemma quiet_getOrderedButtons order : quiet (getOrderedButtons order).
Proof. intros s. unfold getOrderedButtons. by destruct (bool_decide _). Qed.

Lemma validates_setMultipleLED_loop colors : validates (setMultipleLED_loop colors).
Proof.
  unfold setMultipleLED_loop.
  destruct (_ =? _)%nat; [apply validates_throw|].
  destruct (_ <? _)%nat; [apply validates_throw|].
  apply validates_bind; [apply quiet_getOrderedButtons|]. intros listOfButtons.
  apply validates_bind; [apply quiet_lift|]. intros velocities.
  apply ote_validates, ote_batch_loop.
Qed.

(** Once the loop part has run, the first colour, when the array has an
    element at index 0, is known to encode: [map] has called the encoder
    on it.  At a hole it has not. *)
Lemma setMultipleLED_loop_Ok_inv colors s s1 :
  setMultipleLED_loop colors s = Ok tt s1 -> colors !! 0%nat <> Some None ->
  exists v, _colorToMIDIVelocity (item colors 0) JUndefined JUndefined = Val v.
Proof.
  unfold setMultipleLED_loop.
  destruct colors as [|[c0|] rest]; [done| |intros _ H; by destruct H].
  cbn [length Nat.eqb].
  destruct (_ <? _)%nat; [done|].
  unfold mbind at 1, M_bind at 1.
  destruct (getOrderedButtons "forBatch" s) as [l sc| |]; [|done|done].
  unfold mbind at 1, M_bind at 1, lift.
  cbn [velocities_of]. unfold mbind at 1, res_mbind at 1, res_bind at 1.
  unfold item. cbn [lookup list_lookup mbind option_bind default from_option id].
  destruct (_colorToMIDIVelocity c0 JUndefined JUndefined) as [v|e|]; [eauto|done|done].
Qed.

Lemma validates_setMultipleLED colors :
  colors !! 0%nat <> Some None -> validates (setMultipleLED colors).
Proof.
  intros Hhead s msg s'. unfold setMultipleLED.
  unfold mbind at 1, M_bind at 1.
  destruct (setMultipleLED_loop colors s) as [[] s1|e s1|] eqn:E; [| |done].
  - destruct (setMultipleLED_loop_Ok_inv _ _ _ E Hhead) as [v Hv].
    intros H. exfalso.
    assert (O : only_type_errors
                  (setSingleLED (Button "00") (item colors 0) JUndefined JUndefined;;
                   _dispatchListener led_changed JUndefined)).
    { apply ote_bind; [|intros ?; apply ote_dispatch].
      unfold setSingleLED.
      replace (negb (truthy (Button "00")) || _ || _) with false
        by (vm_compute; reflexivity).
      rewrite Hv. ote_steps. }
    by apply O in H.
  - intros [= -> ->]. by eapply validates_setMultipleLED_loop.
Qed.

(** C9: the claim fails on a batch with a hole at index 0.
    [setMultipleLED(new Array(2))] on a reset instance passes the length
    guards, [map] skips the two holes, the loop sends [0x92, 0, 0] and
    records [undefined] for button "00", and only then the flush, given
    [colors[0]], throws "Invalid color": a validation error after a wire
    message. *)
Lemma hole_is_sent_before_rejection :
  thrown (run (SetMultipleLED [None; None])) fresh = Some (Error "Invalid color") /\
  output fresh = Some [[0xB0; 0; 0]] /\
  output (after (run (SetMultipleLED [None; None])) fresh)
    = Some [[0xB0; 0; 0]; [0x92; 0; 0]] /\
  led (after (run (SetMultipleLED [None; None])) fresh) 0 "00" = Some JUndefined.
Proof. repeat split; vm_compute; reflexivity. Qed.

(** A batch without holes that holds an invalid colour anywhere among
    palette colours is rejected with "Invalid color" before anything is
    sent or recorded, whatever the state of the instance. *)
Lemma invalid_batch_rejected (colors : list value) (s : state) :
  (1 <= length colors <= 80)%nat ->
  Forall (fun c => In c palette \/ lacks_intensities c) colors ->
  Exists lacks_intensities colors ->
  exists s',
    setMultipleLED (dense colors) s = Fail (Error "Invalid color") s' /\
    output s' = output s /\ ledBuffers s' = ledBuffers s /\ calls s' = calls s.
Proof.
  intros Hlen Hall Hbad.
  assert (Hv : velocities_of (dense colors) = Raise (Error "Invalid color")).
  { clear Hlen. unfold dense.
    induction Hall as [|c colors [Hc | Hc] _ IH]; [by apply Exists_nil in Hbad| |].
    - cbn [map velocities_of].
      destruct (palette_facts c Hc) as (_ & v & _ & ->).
      apply Exists_cons in Hbad as [Hbad | Hbad].
      + exfalso. apply (invalid_color_guard c JUndefined JUndefined) in Hbad.
        destruct (palette_facts c Hc) as (_ & v' & _ & E). congruence.
      + by rewrite (IH Hbad).
    - cbn [map velocities_of].
      by rewrite (proj2 (invalid_color_guard c JUndefined JUndefined) Hc). }
  unfold setMultipleLED, setMultipleLED_loop. rewrite !length_dense.
  destruct (Nat.eqb_spec (length colors) 0) as [?|_]; [lia|].
  destruct (Nat.ltb_spec 80 (length colors)) as [?|_]; [lia|].
  rewrite Hv. unfold getOrderedButtons. rewrite (proj2 known_orders).
  eexists. split; [reflexivity|]. by repeat split.
Qed.

(** On every other input validation does come before the wire: a public
    command that fails with a validation error has sent nothing, the sent
    messages being those from before the call, unless it is a batch with
    a hole at index 0.  This covers setDutyCycle(0, 3), setMultipleLED([]),
    setSingleLED(null, Red) and a batch without holes with an invalid
    colour anywhere in it. *)
Theorem validation_precedes_wire (c : command) (s s' : state) (msg : string) :
  first_present c ->
  run c s = Fail (Error msg) s' -> output s' = output s.
Proof.
  destruct c; cbn [run first_present]; intros Hhead.
  - apply ote_validates, ote_reset.
  - apply ote_validates, ote_allLEDsOn.
  - apply validates_setSingleLED.
  - apply ote_validates, ote_switchDisplayingBuffer.
  - apply ote_validates, ote_switchUpdatingBuffer.
  - apply ote_validates, ote_switchFlash.
  - apply validates_setDutyCycle.
  - apply validates_setBrightness.
  - by apply validates_setMultipleLED.
Qed.

Lemma validation_precedes_wire_witness :
  let failing (c : command) (msg : string) :=
    run c attached = Fail (Error msg) (after (run c) attached) /\
    output (after (run c) attached) = output attached in
  failing (SetDutyCycle (lit 0) (lit 3)) "Invalid numerator" /\
  failing (SetMultipleLED []) "Invalid colors array: Can not be empty" /\
  failing (SetSingleLED JNull (Color "Red") JUndefined JUndefined) "Invalid button" /\
  failing (SetMultipleLED
             (dense [Color "Red"; Color "Green"; JStr "blue"; Color "Amber"]))
          "Invalid color".
Proof.
  cbv zeta.
  assert (E1 : run (SetDutyCycle (lit 0) (lit 3)) attached
               = Fail (Error "Invalid numerator")
                   (after (run (SetDutyCycle (lit 0) (lit 3))) attached))
    by (vm_compute; reflexivity).
  assert (E2 : run (SetMultipleLED []) attached
               = Fail (Error "Invalid colors array: Can not be empty")
                   (after (run (SetMultipleLED [])) attached))
    by (vm_compute; reflexivity).
  assert (E3 : run (SetSingleLED JNull (Color "Red") JUndefined JUndefined) attached
               = Fail (Error "Invalid button")
                   (after (run (SetSingleLED JNull (Color "Red") JUndefined JUndefined))
                      attached))
    by (vm_compute; reflexivity).
  assert (E4 : run (SetMultipleLED
                      (dense [Color "Red"; Color "Green"; JStr "blue"; Color "Amber"]))
                 attached
               = Fail (Error "Invalid color")
                   (after (run (SetMultipleLED
                                  (dense [Color "Red"; Color "Green"; JStr "blue";
                                          Color "Amber"])))
                      attached))
    by (vm_compute; reflexivity).
  split; [|split; [|split]].
  - split; [exact E1|].
    exact (validation_precedes_wire (SetDutyCycle (lit 0) (lit 3)) _ _ _ I E1).
  - split; [exact E2|].
    refine (validation_precedes_wire (SetMultipleLED []) _ _ _ _ E2).
    cbn. discriminate.
  - split; [exact E3|].
    exact (validation_precedes_wire
             (SetSingleLED JNull (Color "Red") JUndefined JUndefined) _ _ _ I E3).
  - split; [exact E4|].
    refine (validation_precedes_wire
              (SetMultipleLED
                 (dense [Color "Red"; Color "Green"; JStr "blue"; Color "Amber"]))
              _ _ _ _ E4).
    cbn. discriminate.
Defined.

(** ** setMultipleLED *)

Lemma with_output_id s : with_output (output s) s = s.
Proof. by destruct s. Qed.

Lemma name_of_object b :
  address b <> None -> name_of b = mret (get b "name").
Proof. by destruct b. Qed.

Section BatchLoop.

Variables (cs : list value) (vb : list Z) (ns : list string) (u : value) (ku : string).
Hypothesis Hcs : Forall (fun c => truthy c = true) cs.
Hypothesis Hvb : Forall (fun v => 0 <= v < 256) vb.
Hypothesis Hlen : length vb = length cs.
Hypothesis Hns :
  Forall (fun n => address (Button n) <> None /\ get (Button n) "name" = JStr n) ns.
Hypothesis Hfit : (length cs <= length ns)%nat.
Hypothesis Hu : to_string u = Val ku.

Lemma elem_velocity i v : vb !! i = Some v -> item (dense (map lit vb)) i = lit v.
Proof. intros H. rewrite item_dense. unfold elem. by rewrite list_lookup_fmap, H. Qed.

Lemma elem_velocity_end i :
  (length vb <= i)%nat -> item (dense (map lit vb)) i = JUndefined.
Proof.
  intros H. rewrite item_dense. unfold elem. rewrite list_lookup_fmap.
  by rewrite (lookup_ge_None_2 vb i).
Qed.

Lemma name_of_elem i n :
  ns !! i = Some n -> name_of (elem (map Button ns) i) = mret (JStr n).
Proof.
  intros Hn.
  rewrite Forall_forall in Hns. destruct (Hns n) as [Ha Hname].
  { eapply list_elem_of_lookup_2. exact Hn. }
  unfold elem. rewrite list_lookup_fmap, Hn.
  cbn [fmap option_fmap option_map default from_option id].
  by rewrite (name_of_object _ Ha), Hname.
Qed.

Lemma elem_color i c : cs !! i = Some c -> item (dense cs) i = c /\ truthy c = true.
Proof.
  intros H. rewrite item_dense. unfold elem. rewrite H. split; [done|].
  rewrite Forall_forall in Hcs. apply Hcs. by eapply list_elem_of_lookup_2.
Qed.

Lemma elem_color_end i : (length cs <= i)%nat -> item (dense cs) i = JUndefined.
Proof. intros H. rewrite item_dense. unfold elem. by rewrite (lookup_ge_None_2 cs i). Qed.

Lemma batch_loop_run fuel :
  forall i s sent bufs leds,
    (0 < fuel)%nat -> (length cs + 2 <= i + 2 * fuel)%nat ->
    output s = Some sent -> ledBuffers s = Some bufs ->
    updatingBuffer s = u -> bufs !! ku = Some leds ->
    batch_loop fuel (dense cs) (dense (map lit vb)) (map Button ns) i s
    = Ok tt (with_ledBuffers
               (Some (<[ku := written (drop i ns) (drop i cs) leds]> bufs))
               (with_output (Some (sent ++ paired (drop i vb))) s)).
Proof.
  induction fuel as [|fuel IH]; intros i s sent bufs leds Hf Hfuel Ho Hb Hus Hk; [lia|].
  cbn [batch_loop]. rewrite length_dense, length_map.
  destruct (Nat.ltb_spec i (length vb)) as [Hi|Hi].
  2: { rewrite (drop_ge cs), (drop_ge vb) by lia.
       unfold written. rewrite zip_with_nil_r. cbn [foldl paired].
       rewrite insert_id, app_nil_r by done.
       rewrite <- Ho, with_output_id, <- Hb. by rewrite with_ledBuffers_id. }
  destruct (lookup_lt_is_Some_2 cs i) as [c Hc]; [lia|].
  destruct (lookup_lt_is_Some_2 vb i) as [v Hv]; [lia|].
  destruct (lookup_lt_is_Some_2 ns i) as [n Hn]; [lia|].
  assert (Hvr : 0 <= v < 256).
  { rewrite Forall_forall in Hvb. apply Hvb. eapply list_elem_of_lookup_2. exact Hv. }
  rewrite (elem_velocity i v Hv).
  destruct (elem_color i c Hc) as [Ec Tc].
  replace (i + 1)%nat with (S i) by lia. replace (i + 2)%nat with (S (S i)) by lia.
  rewrite (name_of_elem i n Hn), Ec.
  rewrite (drop_S ns n i Hn), (drop_S cs c i Hc), (drop_S vb v i Hv).
  destruct (Nat.lt_ge_cases (S i) (length vb)) as [Hj|Hj].
  - destruct (lookup_lt_is_Some_2 cs (S i)) as [c' Hc']; [lia|].
    destruct (lookup_lt_is_Some_2 vb (S i)) as [v' Hv']; [lia|].
    destruct (lookup_lt_is_Some_2 ns (S i)) as [n' Hn']; [lia|].
    assert (Hvr' : 0 <= v' < 256).
    { rewrite Forall_forall in Hvb. apply Hvb. eapply list_elem_of_lookup_2. exact Hv'. }
    destruct (elem_color (S i) c' Hc') as [Ec' Tc'].
    rewrite (elem_velocity (S i) v' Hv'), (name_of_elem (S i) n' Hn'), Ec', Tc'.
    rewrite (drop_S ns n' (S i) Hn'), (drop_S cs c' (S i) Hc'), (drop_S vb v' (S i) Hv').
    erewrite bind_Ok; [|eapply midiSend_Ok; [exact Ho|apply to_uint8_array_lit; lia]].
    erewrite bind_Ok; [|reflexivity].
    erewrite bind_Ok; [|reflexivity].
    fields. rewrite Hus.
    erewrite bind_Ok; [|eapply set_led_Ok; [exact Hb|exact Hu|reflexivity|exact Hk]].
    erewrite bind_Ok; last first.
    { erewrite bind_Ok; [|reflexivity].
      erewrite bind_Ok; [|reflexivity].
      fields. rewrite ?Hus.
      eapply set_led_Ok; [reflexivity|exact Hu|reflexivity|].
      by rewrite lookup_insert_eq. }
    rewrite (IH (S (S i)) _ (sent ++ [[146; v; v']])
               (<[ku := <[n' := c']> (<[n := c]> leds)]> (<[ku := <[n := c]> leds]> bufs))
               (<[n' := c']> (<[n := c]> leds)));
      [|lia|lia|reflexivity|reflexivity|reflexivity|by rewrite lookup_insert_eq].
    fields. do 2 f_equal.
    + by rewrite !insert_insert_eq.
    + by rewrite <- app_assoc.
  - rewrite (elem_velocity_end (S i)), (elem_color_end (S i)) by lia.
    cbn [truthy].
    rewrite (drop_ge cs (S i)), (drop_ge vb (S i)) by lia.
    erewrite bind_Ok; [|eapply midiSend_Ok; [exact Ho|]].
    2: { unfold to_uint8_array. rewrite !to_uint8_lit by lia. reflexivity. }
    erewrite bind_Ok; [|reflexivity].
    erewrite bind_Ok; [|reflexivity].
    fields. rewrite Hus.
    erewrite bind_Ok; [|eapply set_led_Ok; [exact Hb|exact Hu|reflexivity|exact Hk]].
    erewrite bind_Ok; [|reflexivity].
    destruct fuel as [|fuel']; [lia|].
    cbn [batch_loop]. rewrite length_dense, length_map.
    destruct (Nat.ltb_spec (S (S i)) (length vb)) as [Hi'|Hi']; [lia|].
    unfold written. cbn [zip_with]. rewrite zip_with_nil_r. cbn [foldl paired fst snd].
    fields. reflexivity.
Qed.

End BatchLoop.

Lemma forBatch_names_facts :
  Forall (fun n => address (Button n) <> None /\ get (Button n) "name" = JStr n)
         forBatch_names.
Proof.
  forall_list ltac:(split; [vm_compute; discriminate|vm_compute; reflexivity]).
Qed.

Lemma forBatch_names_length : length forBatch_names = 80%nat.
Proof. vm_compute. reflexivity. Qed.

Lemma forBatch_names_head :
  exists others, forBatch_names = "00" :: others /\ "00" ∉ others.
Proof.
  eexists. split; [vm_compute; reflexivity|].
  apply (bool_decide_unpack _). vm_compute. exact I.
Qed.

Lemma velocity_byte_palette C :
  In C palette ->
  truthy C = true /\ 0 <= velocity_byte C < 64 /\
  _colorToMIDIVelocity C JUndefined JUndefined = Val (lit (velocity_byte C)).
Proof.
  intros H. destruct (palette_facts C H) as (T & v & Hv & E).
  unfold velocity_byte. rewrite E. by cbn.
Qed.

Lemma velocities_of_palette colors :
  Forall (fun C => In C palette) colors ->
  velocities_of (dense colors) = Val (dense (map lit (map velocity_byte colors))).
Proof.
  unfold dense. induction 1 as [|C colors HC _ IH]; [done|].
  cbn [velocities_of map]. destruct (velocity_byte_palette C HC) as (_ & _ & ->).
  by rewrite IH.
Qed.

Lemma written_lookup_notin names colors leds n :
  n ∉ names -> written names colors leds !! n = leds !! n.
Proof.
  unfold written. revert colors leds.
  induction names as [|k names IH]; intros colors leds Hn; [done|].
  destruct colors as [|c colors]; [done|]. cbn [zip_with foldl fst snd].
  rewrite not_elem_of_cons in Hn. destruct Hn as [Hne Hn].
  rewrite IH by done. by rewrite lookup_insert_ne.
Qed.

Lemma setMultipleLED_loop_Ok colors s u sent bufs leds :
  Forall (fun C => In C palette) colors -> (1 <= length colors <= 80)%nat ->
  cache_ok s -> output s = Some sent -> updatingBuffer s = lit u -> u = 0 \/ u = 1 ->
  ledBuffers s = Some bufs -> bufs !! pretty u = Some leds ->
  exists s1,
    setMultipleLED_loop (dense colors) s = Ok tt s1 /\
    output s1 = Some (sent ++ paired (map velocity_byte colors)) /\
    ledBuffers s1 = Some (<[pretty u := written forBatch_names colors leds]> bufs) /\
    updatingBuffer s1 = lit u /\ calls s1 = calls s /\ listeners s1 = listeners s.
Proof.
  intros Hpal Hlen Hc Ho Hu Hu01 Hb Hk.
  destruct (getOrderedButtons_forBatch s Hc) as (sc & Eg & Hoc & Hcc & Hbc & Huc & Hlc & _).
  unfold setMultipleLED_loop. rewrite !length_dense.
  destruct (Nat.eqb_spec (length colors) 0) as [?|_]; [lia|].
  destruct (Nat.ltb_spec 80 (length colors)) as [?|_]; [lia|].
  erewrite bind_Ok; [|exact Eg].
  erewrite bind_Ok; [|unfold lift; rewrite (velocities_of_palette colors Hpal); reflexivity].
  cbn [default from_option id].
  rewrite (batch_loop_run colors (map velocity_byte colors) forBatch_names (lit u) (pretty u))
    with (sent := sent) (bufs := bufs) (leds := leds).
  - eexists. split; [reflexivity|]. fields. by rewrite Huc, Hcc, Hlc.
  - apply Forall_forall. intros c Hin. rewrite Forall_forall in Hpal.
    by destruct (velocity_byte_palette c (Hpal c Hin)).
  - apply Forall_forall. intros v Hin. apply list_elem_of_fmap in Hin as (c & -> & Hin).
    rewrite Forall_forall in Hpal.
    destruct (velocity_byte_palette c (Hpal c Hin)) as (_ & ? & _). lia.
  - by rewrite length_map.
  - apply forBatch_names_facts.
  - rewrite forBatch_names_length. lia.
  - destruct Hu01 as [-> | ->]; vm_compute; reflexivity.
  - lia.
  - rewrite ?length_dense, !length_map. lia.
  - by rewrite Hoc.
  - by rewrite Hbc.
  - by rewrite Huc.
  - done.
Qed.

(** The flush of [setMultipleLED]: button "00" with the first colour. *)
Lemma flush_Ok c0 s u sent bufs leds :
  In c0 palette -> output s = Some sent -> updatingBuffer s = lit u -> u = 0 \/ u = 1 ->
  ledBuffers s = Some bufs -> bufs !! pretty u = Some leds ->
  setSingleLED (Button "00") c0 JUndefined JUndefined s
  = Ok tt (with_calls (calls s ++ notified s led_changed JUndefined)
             (with_ledBuffers (Some (<[pretty u := <["00" := c0]> leds]> bufs))
                (with_output (Some (sent ++ [[0x90; 0; velocity_byte c0]])) s))).
Proof.
  intros Hc Ho Hu Hu01 Hb Hk.
  destruct (velocity_byte_palette c0 Hc) as (_ & Hv & Ev).
  eapply setSingleLED_Ok; eauto.
  - change (get (Button "00") "_note_key") with (lit 0).
    change (is_undefined (lit 0)) with false. cbn [negb].
    apply to_uint8_array_lit; lia.
  - rewrite Hu. destruct Hu01 as [-> | ->]; vm_compute; reflexivity.
Qed.

(** C4: the code notifies twice where the claim says once.  On a reset
    instance with one LED-changed listener, [setMultipleLED([Red])] calls
    that listener twice: the flush goes through the public [setSingleLED],
    which dispatches the event itself, and [setMultipleLED] dispatches it
    again at its end. *)
Lemma setMultipleLED_notifies_twice :
  listeners listening led_changed = [7%nat] /\
  calls listening = [] /\
  calls_after (setMultipleLED (dense [Color "Red"])) listening
    = Some [(7%nat, JUndefined); (7%nat, JUndefined)].
Proof. split; [|split]; vm_compute; reflexivity. Qed.

(** The same on every batch: for 1 to 80 palette colours on a reset
    instance, [setMultipleLED] sends its paired messages, then one
    single-LED message [0x90, 0, velocity(colors[0])] for button "00", whose
    buffer write changes nothing (the entry of "00" is colors[0] already),
    and when it returns each LED-changed listener has been called twice. *)
Theorem setMultipleLED_flush (colors : list value) (s : state) (u : Z)
    (sent : list (list Z)) :
  Forall (fun C => In C palette) colors -> (1 <= length colors <= 80)%nat ->
  cache_ok s -> output s = Some sent ->
  updatingBuffer s = lit u -> u = 0 \/ u = 1 ->
  is_Some (bufs ← ledBuffers s; bufs !! pretty u) ->
  exists s1 s2 c0,
    colors !! 0%nat = Some c0 /\
    setMultipleLED_loop (dense colors) s = Ok tt s1 /\
    setMultipleLED (dense colors) s = Ok tt s2 /\
    output s1 = Some (sent ++ paired (map velocity_byte colors)) /\
    output s2 = Some (sent ++ paired (map velocity_byte colors)
                           ++ [[0x90; 0; velocity_byte c0]]) /\
    _colorToMIDIVelocity c0 JUndefined JUndefined = Val (lit (velocity_byte c0)) /\
    led s1 u "00" = Some c0 /\
    ledBuffers s2 = ledBuffers s1 /\
    calls s1 = calls s /\
    calls s2 = calls s ++ notified s led_changed JUndefined
                       ++ notified s led_changed JUndefined.
Proof.
  intros Hpal Hlen Hc Ho Hu Hu01 [leds Hl].
  destruct (ledBuffers s) as [bufs|] eqn:Eb; [|discriminate Hl]. cbn in Hl.
  destruct colors as [|c0 rest] eqn:Ecs; [cbn in Hlen; lia|]. rewrite <- Ecs in *.
  assert (Hc0 : In c0 palette).
  { rewrite Ecs in Hpal. by apply Forall_cons_1 in Hpal as [? _]. }
  destruct (setMultipleLED_loop_Ok colors s u sent bufs leds)
    as (s1 & E1 & Ho1 & Hb1 & Hu1 & Hc1 & Hl1); try done.
  set (leds1 := written forBatch_names colors leds) in *.
  assert (H00 : leds1 !! "00" = Some c0).
  { unfold leds1. destruct forBatch_names_head as (others & -> & Hnot).
    rewrite Ecs. unfold written. cbn [zip_with foldl fst snd].
    fold (written others rest (<["00" := c0]> leds)).
    rewrite written_lookup_notin by done. by rewrite lookup_insert_eq. }
  exists s1,
    (with_calls ((calls s1 ++ notified s1 led_changed JUndefined)
                 ++ notified s1 led_changed JUndefined)
       (with_ledBuffers
          (Some (<[pretty u := <["00" := c0]> leds1]> (<[pretty u := leds1]> bufs)))
          (with_output (Some ((sent ++ paired (map velocity_byte colors))
                              ++ [[0x90; 0; velocity_byte c0]])) s1))),
    c0.
  split; [by rewrite Ecs|]. split; [exact E1|].
  split.
  { unfold setMultipleLED. erewrite bind_Ok; [|exact E1].
    replace (item (dense colors) 0) with c0 by (by rewrite item_dense, Ecs).
    erewrite bind_Ok;
      [|apply (flush_Ok c0 s1 u (sent ++ paired (map velocity_byte colors))
                 (<[pretty u := leds1]> bufs) leds1); try done;
        by rewrite lookup_insert_eq].
    reflexivity. }
  split; [exact Ho1|]. split; [fields; by rewrite <- app_assoc|].
  split; [by destruct (velocity_byte_palette c0 Hc0) as (_ & _ & ?)|].
  split.
  { unfold led. rewrite Hb1. cbn [mbind option_bind].
    rewrite lookup_insert_eq. cbn [mbind option_bind]. exact H00. }
  split.
  { fields. rewrite Hb1. f_equal.
    rewrite insert_insert_eq. f_equal. by apply insert_id. }
  split; [exact Hc1|].
  fields. unfold notified. rewrite Hc1, Hl1. by rewrite <- app_assoc.
Qed.

Lemma setMultipleLED_flush_witness :
  exists s2,
    setMultipleLED (dense [Color "Red"; Color "Green"; Color "Amber"]) fresh = Ok tt s2 /\
    output s2 = Some [[0xB0; 0; 0]; [0x92; 3; 48]; [0x92; 51; 0]; [0x90; 0; 3]].
Proof.
  destruct (setMultipleLED_flush [Color "Red"; Color "Green"; Color "Amber"] fresh 0
              [[0xB0; 0; 0]])
    as (s1 & s2 & c0 & H0 & _ & E2 & _ & Ho2 & _).
  - repeat constructor; vm_compute; tauto.
  - cbn. lia.
  - rewrite fresh_eq. intros c E. discriminate E.
  - by rewrite fresh_eq.
  - by rewrite fresh_eq.
  - by left.
  - rewrite fresh_eq. fields. cbn [mbind option_bind].
    rewrite reset_buffers_lookup by tauto. by eexists.
  - exists s2. split; [exact E2|].
    rewrite Ho2. injection H0 as <-. vm_compute. reflexivity.
Defined.

(** * Further properties *)

(** ** Arithmetic on small integers *)

Lemma safe_byte_range z : -4096 <= z <= 4096 -> safe_integer z = true.
Proof.
  intros H. unfold safe_integer.
  change (2 ^ 53) with 9007199254740992.
  apply andb_true_iff. split; apply Z.leb_le; lia.
Qed.

Lemma to_number_lit z : safe_integer z = true -> to_number (lit z) = Val (Int z).
Proof. intros H. unfold to_number, lit, int_result. by rewrite H. Qed.

Lemma lt_lit a b :
  safe_integer a = true -> safe_integer b = true -> lt (lit a) (lit b) = Val (a <? b).
Proof. intros Ha Hb. unfold lt. by rewrite !to_number_lit. Qed.

Lemma add_lit a b :
  -2048 <= a <= 2048 -> -2048 <= b <= 2048 -> add (lit a) (lit b) = Val (lit (a + b)).
Proof.
  intros Ha Hb. unfold add. rewrite !to_number_lit by (apply safe_byte_range; lia).
  cbn [res_bind]. unfold int_result. by rewrite safe_byte_range by lia.
Qed.

Lemma sub_lit a b :
  -2048 <= a <= 2048 -> -2048 <= b <= 2048 -> sub (lit a) (lit b) = Val (lit (a - b)).
Proof.
  intros Ha Hb. unfold sub. rewrite !to_number_lit by (apply safe_byte_range; lia).
  cbn [res_bind]. unfold int_result. by rewrite safe_byte_range by lia.
Qed.

Lemma mul_lit a b :
  -64 <= a <= 64 -> -64 <= b <= 64 -> mul (lit a) (lit b) = Val (lit (a * b)).
Proof.
  intros Ha Hb. unfold mul. rewrite !to_number_lit by (apply safe_byte_range; lia).
  cbn [res_bind]. unfold int_result. by rewrite safe_byte_range by nia.
Qed.

Lemma res_ret_bind {A B} (a : A) (k : A -> res B) : (Val a ≫= k) = k a.
Proof. reflexivity. Qed.

Lemma lift_Val_bind {A B} (a : A) (k : A -> M B) s : (lift (Val a) ≫= k) s = k a s.
Proof. reflexivity. Qed.

(** ** setDutyCycle and setBrightness *)

Lemma duty_byte_Ok (n d base : Z) :
  0 <= n - base <= 7 -> 0 <= base <= 9 -> 3 <= d <= 18 ->
  (x ← sub (lit n) (lit base); m ← mul (lit 16) x; y ← sub (lit d) (lit 3); add m y)
  = Val (lit (16 * (n - base) + (d - 3))).
Proof.
  intros Hn Hb Hd.
  rewrite !sub_lit, res_ret_bind by lia.
  rewrite mul_lit, !res_ret_bind by lia.
  by rewrite add_lit by lia.
Qed.

Lemma setDutyCycle_Ok (n d : Z) (s : state) (sent : list (list Z)) :
  1 <= n <= 16 -> 3 <= d <= 18 -> output s = Some sent ->
  setDutyCycle (lit n) (lit d) s
  = Ok tt (with_output
             (Some (sent ++ [[0xB0; (if n <? 9 then 0x1E else 0x1F);
                              16 * ((n - 1) mod 8) + (d - 3)]])) s).
Proof.
  intros Hn Hd Ho.
  unfold setDutyCycle.
  rewrite !lt_lit by (apply safe_byte_range; lia).
  rewrite !lift_Val_bind.
  replace (n <? 1) with false by (symmetry; apply Z.ltb_ge; lia).
  replace (16 <? n) with false by (symmetry; apply Z.ltb_ge; lia).
  cbn [orb]. rewrite !lift_Val_bind.
  replace (d <? 3) with false by (symmetry; apply Z.ltb_ge; lia).
  replace (18 <? d) with false by (symmetry; apply Z.ltb_ge; lia).
  cbn [orb]. rewrite !lift_Val_bind.
  destruct (Z.ltb_spec n 9) as [Hlt|Hge].
  - rewrite (duty_byte_Ok n d 1), lift_Val_bind by lia.
    rewrite Z.mod_small by lia.
    apply midiSend_Ok; [exact Ho|]. apply to_uint8_array_lit; lia.
  - rewrite (duty_byte_Ok n d 9), lift_Val_bind by lia.
    replace ((n - 1) mod 8) with (n - 9).
    2: { replace (n - 1) with ((n - 9) + 1 * 8) by lia.
         rewrite Z.mod_add by lia. by rewrite Z.mod_small by lia. }
    apply midiSend_Ok; [exact Ho|]. apply to_uint8_array_lit; lia.
Qed.

(** X1: on an attached device, [setDutyCycle(n, d)] with 1 <= n <= 16 and
    3 <= d <= 18 sends exactly one message, [0xB0, 0x1E, 16*(n-1) + (d-3)]
    when n < 9 and [0xB0, 0x1F, 16*(n-9) + (d-3)] otherwise; the data
    byte is at most 127 and nothing else in the state changes. *)
Theorem setDutyCycle_sends (n d : Z) (s : state) (sent : list (list Z)) :
  1 <= n <= 16 -> 3 <= d <= 18 -> output s = Some sent ->
  setDutyCycle (lit n) (lit d) s
  = Ok tt (with_output
             (Some (sent ++ [[0xB0; (if n <? 9 then 0x1E else 0x1F);
                              16 * ((n - 1) mod 8) + (d - 3)]])) s)
  /\ 0 <= 16 * ((n - 1) mod 8) + (d - 3) <= 127.
Proof.
  intros Hn Hd Ho. split; [by apply setDutyCycle_Ok|].
  pose proof (Z.mod_pos_bound (n - 1) 8). lia.
Qed.

Lemma setDutyCycle_sends_witness :
  setDutyCycle (lit 1) (lit 3) attached
    = Ok tt (with_output (Some [[0xB0; 0x1E; 0]]) attached) /\
  setDutyCycle (lit 16) (lit 18) attached
    = Ok tt (with_output (Some [[0xB0; 0x1F; 127]]) attached).
Proof.
  split.
  - apply (setDutyCycle_sends 1 3 attached []); [lia|lia|reflexivity].
  - apply (setDutyCycle_sends 16 18 attached []); [lia|lia|reflexivity].
Defined.

(** X2: [setDutyCycle] rejects an integer numerator outside 1..16 with
    "Invalid numerator" and, the numerator being in range, a denominator
    outside 3..18 with "Invalid denominator"; the numerator is checked
    first and the state is left as it was. *)
Theorem setDutyCycle_rejects (n d : Z) (s : state) :
  safe_integer n = true -> safe_integer d = true ->
  (n < 1 \/ 16 < n ->
     setDutyCycle (lit n) (lit d) s = Fail (Error "Invalid numerator") s) /\
  (1 <= n <= 16 -> d < 3 \/ 18 < d ->
     setDutyCycle (lit n) (lit d) s = Fail (Error "Invalid denominator") s).
Proof.
  intros Sn Sd. unfold setDutyCycle.
  rewrite !lt_lit by first [assumption|reflexivity].
  rewrite !lift_Val_bind. split.
  - intros Hn.
    replace ((n <? 1) || (16 <? n)) with true; [reflexivity|].
    symmetry. apply orb_true_iff. rewrite !Z.ltb_lt. lia.
  - intros Hn Hd.
    replace ((n <? 1) || (16 <? n)) with false.
    2: { symmetry. apply orb_false_iff. rewrite !Z.ltb_ge. lia. }
    rewrite !lift_Val_bind.
    replace ((d <? 3) || (18 <? d)) with true; [reflexivity|].
    symmetry. apply orb_true_iff. rewrite !Z.ltb_lt. lia.
Qed.

Lemma setDutyCycle_rejects_witness :
  setDutyCycle (lit 0) (lit 3) attached = Fail (Error "Invalid numerator") attached /\
  setDutyCycle (lit 17) (lit 2) attached = Fail (Error "Invalid numerator") attached /\
  setDutyCycle (lit 4) (lit 19) attached = Fail (Error "Invalid denominator") attached.
Proof.
  split; [|split].
  - apply (setDutyCycle_rejects 0 3 attached); [reflexivity|reflexivity|lia].
  - apply (setDutyCycle_rejects 17 2 attached); [reflexivity|reflexivity|lia].
  - apply (setDutyCycle_rejects 4 19 attached); [reflexivity|reflexivity|lia|lia].
Defined.

Lemma lt_NaN_l a b y : to_number a = Val NaN -> to_number b = Val y -> lt a b = Val false.
Proof. intros Ha Hb. unfold lt. by rewrite Ha, Hb. Qed.

Lemma lt_NaN_r a b x : to_number a = Val x -> to_number b = Val NaN -> lt a b = Val false.
Proof. intros Ha Hb. unfold lt. rewrite Ha, Hb. by destruct x. Qed.

Lemma to_number_lit_small z : -4096 <= z <= 4096 -> to_number (lit z) = Val (Int z).
Proof. intros H. apply to_number_lit, safe_byte_range, H. Qed.

Lemma arith_NaN_l (f : value -> value -> res value) a b y :
  f = add \/ f = mul \/ f = sub ->
  to_number a = Val NaN -> to_number b = Val y -> f a b = Val (JNum NaN).
Proof. intros [-> | [-> | ->]] Ha Hb; unfold add, mul, sub; by rewrite Ha, Hb. Qed.

Lemma arith_NaN_r (f : value -> value -> res value) a b x :
  f = add \/ f = mul \/ f = sub ->
  to_number a = Val x -> to_number b = Val NaN -> f a b = Val (JNum NaN).
Proof.
  intros [-> | [-> | ->]] Ha Hb; unfold add, mul, sub; rewrite Ha, Hb; by destruct x.
Qed.

(** X3: a numerator that is [undefined] or [NaN] passes the range checks,
    every comparison with it being false; with a denominator that is
    missing too or in 3..18, an attached device is sent [0xB0, 0x1F, 0]. *)
Theorem setDutyCycle_missing_numerator (numerator denominator : value) (s : state)
    (sent : list (list Z)) :
  to_number numerator = Val NaN ->
  (to_number denominator = Val NaN \/ exists d, denominator = lit d /\ 3 <= d <= 18) ->
  output s = Some sent ->
  setDutyCycle numerator denominator s
  = Ok tt (with_output (Some (sent ++ [[0xB0; 0x1F; 0]])) s).
Proof.
  intros Hn Hd Ho. unfold setDutyCycle.
  rewrite (lt_NaN_l numerator (lit 1) (Int 1)) by (done || by apply to_number_lit_small).
  rewrite (lt_NaN_r (lit 16) numerator (Int 16)) by (done || by apply to_number_lit_small).
  rewrite (lt_NaN_l numerator (lit 9) (Int 9)) by (done || by apply to_number_lit_small).
  rewrite !lift_Val_bind. cbn [orb].
  assert (Hsub : sub numerator (lit 9) = Val (JNum NaN)).
  { eapply arith_NaN_l; [tauto|done|by apply to_number_lit_small]. }
  assert (Hmul : mul (lit 16) (JNum NaN) = Val (JNum NaN)).
  { eapply arith_NaN_r; [tauto|by apply to_number_lit_small|done]. }
  assert (Hsend : forall y, to_number y = Val NaN \/ (exists z, y = lit z /\ -64 <= z <= 64) ->
            add (JNum NaN) y = Val (JNum NaN)).
  { intros y [Hy | (z & -> & Hz)].
    - eapply arith_NaN_l; [tauto|done|exact Hy].
    - eapply arith_NaN_l; [tauto|done|apply to_number_lit_small; lia]. }
  destruct Hd as [Hd | (d & -> & Hd)].
  - rewrite (lt_NaN_l denominator (lit 3) (Int 3)) by (done || by apply to_number_lit_small).
    rewrite (lt_NaN_r (lit 18) denominator (Int 18)) by (done || by apply to_number_lit_small).
    rewrite !lift_Val_bind. cbn [orb]. rewrite !lift_Val_bind.
    rewrite Hsub, res_ret_bind, Hmul, res_ret_bind.
    rewrite (arith_NaN_l sub denominator (lit 3) (Int 3))
      by (tauto || done || by apply to_number_lit_small).
    rewrite res_ret_bind, Hsend by (by left). rewrite lift_Val_bind.
    by apply midiSend_Ok.
  - rewrite !lt_lit by (apply safe_byte_range; lia).
    rewrite !lift_Val_bind.
    replace ((d <? 3) || (18 <? d)) with false.
    2: { symmetry. apply orb_false_iff. rewrite !Z.ltb_ge. lia. }
    rewrite !lift_Val_bind.
    rewrite Hsub, res_ret_bind, Hmul, res_ret_bind.
    rewrite sub_lit, res_ret_bind by lia.
    rewrite Hsend by (right; eexists; split; [reflexivity|lia]).
    rewrite lift_Val_bind. by apply midiSend_Ok.
Qed.

Lemma setDutyCycle_missing_numerator_witness :
  setDutyCycle JUndefined JUndefined attached
    = Ok tt (with_output (Some [[0xB0; 0x1F; 0]]) attached) /\
  setDutyCycle (JNum NaN) (lit 5) attached
    = Ok tt (with_output (Some [[0xB0; 0x1F; 0]]) attached).
Proof.
  split.
  - apply (setDutyCycle_missing_numerator JUndefined JUndefined attached []);
      [reflexivity|by left|reflexivity].
  - apply (setDutyCycle_missing_numerator (JNum NaN) (lit 5) attached []);
      [reflexivity|right; exists 5; split; [reflexivity|lia]|reflexivity].
Defined.

Lemma strict_eq_lit v k : strict_eq v (lit k) = true -> v = lit k.
Proof.
  destruct v as [| |b|[z|]|str|a ps]; simpl; try discriminate.
  intros H. apply Z.eqb_eq in H. by subst.
Qed.

Lemma setBrightness_Ok (k : Z) (s : state) (sent : list (list Z)) :
  1 <= k <= 5 -> output s = Some sent ->
  setBrightness (lit k) s
  = Ok tt (with_output (Some (sent ++ [[0xB0; 0x1E; 16 * (k - 1) + 2]])) s)
  /\ setBrightness JUndefined s
     = Ok tt (with_output (Some (sent ++ [[0xB0; 0x1E; 2]])) s).
Proof.
  intros Hk Ho.
  assert (H1 : forall j, 1 <= j <= 5 ->
            setDutyCycle (lit j) (lit 5) s
            = Ok tt (with_output (Some (sent ++ [[0xB0; 0x1E; 16 * (j - 1) + 2]])) s)).
  { intros j Hj. rewrite (setDutyCycle_Ok j 5 s sent) by (lia || done).
    replace (j <? 9) with true by (symmetry; apply Z.ltb_lt; lia).
    rewrite Z.mod_small by lia. reflexivity. }
  split.
  - unfold setBrightness. cbn [is_undefined lit].
    assert (Hc : k = 1 \/ k = 2 \/ k = 3 \/ k = 4 \/ k = 5) by lia.
    destruct Hc as [-> | [-> | [-> | [-> | ->]]]]; cbn [strict_eq Z.eqb Pos.eqb];
      apply (H1 _); lia.
  - unfold setBrightness. cbn [is_undefined strict_eq lit Z.eqb Pos.eqb].
    apply (H1 1). lia.
Qed.

(** X4: on an attached device [setBrightness(k)] with k in 1..5 sends the
    duty cycle k/5, that is the single message [0xB0, 0x1E, 16*(k-1) + 2],
    and a missing argument means level 1. *)
Theorem setBrightness_sends (k : Z) (s : state) (sent : list (list Z)) :
  1 <= k <= 5 -> output s = Some sent ->
  setBrightness (lit k) s
  = Ok tt (with_output (Some (sent ++ [[0xB0; 0x1E; 16 * (k - 1) + 2]])) s)
  /\ setBrightness JUndefined s
     = Ok tt (with_output (Some (sent ++ [[0xB0; 0x1E; 2]])) s).
Proof. exact (setBrightness_Ok k s sent). Qed.

Lemma setBrightness_sends_witness :
  setBrightness (lit 5) attached = Ok tt (with_output (Some [[0xB0; 0x1E; 66]]) attached).
Proof. apply (setBrightness_sends 5 attached []); [lia|reflexivity]. Defined.

Lemma setBrightness_invalid (brightness : value) (s : state) :
  brightness <> JUndefined ->
  (forall k, 1 <= k <= 5 -> brightness <> lit k) ->
  setBrightness brightness s = Fail (Error "Invalid brightness") s.
Proof.
  intros Hu Hk. unfold setBrightness.
  replace (is_undefined brightness) with false
    by (symmetry; destruct brightness; done).
  repeat match goal with
         | |- context [strict_eq brightness (lit ?k)] =>
             destruct (strict_eq brightness (lit k)) eqn:?;
             [exfalso; eapply (Hk k); [lia|by apply strict_eq_lit]|]
         end.
  reflexivity.
Qed.

(** X5: [setBrightness] compares its argument with [===]: any value other
    than [undefined] and the numbers 1 to 5 (0, 6, a numeric string, NaN,
    an object) fails with "Invalid brightness", the state is left as it
    was, and nothing is sent. *)
Theorem setBrightness_rejects (brightness : value) (s : state) :
  brightness <> JUndefined ->
  (forall k, 1 <= k <= 5 -> brightness <> lit k) ->
  setBrightness brightness s = Fail (Error "Invalid brightness") s.
Proof. apply setBrightness_invalid. Qed.

Lemma setBrightness_rejects_witness :
  setBrightness (JStr "3") attached = Fail (Error "Invalid brightness") attached /\
  setBrightness (lit 6) attached = Fail (Error "Invalid brightness") attached.
Proof.
  split.
  - apply setBrightness_rejects; [discriminate|intros k _; discriminate].
  - apply setBrightness_rejects; [discriminate|].
    intros k Hk E. injection E as E. lia.
Defined.

(** ** Buffer control *)

Lemma control_byte_Ok (d u : Z) (flash copy : bool) :
  0 <= d <= 1 -> 0 <= u <= 1 ->
  (a ← add (lit 32) (lit d);
   x ← mul (lit u) (lit 4);
   b ← add a x;
   f ← mul (lit (if flash then 1 else 0)) (lit 8);
   c ← add b f;
   k ← mul (lit (if copy then 1 else 0)) (lit 16);
   add c k)
  = Val (lit (control_byte d u flash copy))
  /\ 32 <= control_byte d u flash copy <= 61.
Proof.
  intros Hd Hu. unfold control_byte, b2z. split; [|destruct flash, copy; lia].
  rewrite (add_lit 32 d), res_ret_bind by lia.
  rewrite (mul_lit u 4), res_ret_bind by lia.
  rewrite (add_lit (32 + d) (u * 4)), res_ret_bind by lia.
  rewrite (mul_lit _ 8), res_ret_bind by (destruct flash; lia).
  rewrite (add_lit (32 + d + u * 4)), res_ret_bind by (destruct flash; lia).
  rewrite (mul_lit _ 16), res_ret_bind by (destruct copy; lia).
  by rewrite add_lit by (destruct flash, copy; lia).
Qed.

Lemma truthy_flag (b : bool) : truthy (lit (if b then 1 else 0)) = b.
Proof. by destruct b. Qed.

Lemma updateBufferStatus_Ok copy s sent d u :
  output s = Some sent -> displayingBuffer s = lit d -> updatingBuffer s = lit u ->
  0 <= d <= 1 -> 0 <= u <= 1 ->
  _updateBufferStatus copy s
  = Ok tt (with_calls (calls s ++ (if truthy copy
                                   then notified s led_changed JUndefined else []))
             (with_output
                (Some (sent ++ [[0xB0; 0;
                                 control_byte d u (truthy (flashingBuffers s)) (truthy copy)]]))
                s)).
Proof.
  intros Ho Hd Hu Bd Bu. unfold _updateBufferStatus.
  do 3 (erewrite bind_Ok; [|reflexivity]).
  rewrite Hd, Hu.
  destruct (control_byte_Ok d u (truthy (flashingBuffers s)) (truthy copy) Bd Bu) as [-> Hb].
  rewrite lift_Val_bind.
  erewrite bind_Ok; [|eapply midiSend_Ok; [exact Ho|apply to_uint8_array_lit; lia]].
  rewrite truthy_flag. destruct (truthy copy); [reflexivity|].
  unfold mret, M_ret. fields. by rewrite app_nil_r.
Qed.

Lemma switchDisplayingBuffer_Ok s sent d u :
  output s = Some sent -> displayingBuffer s = lit d -> updatingBuffer s = lit u ->
  d = 0 \/ d = 1 -> 0 <= u <= 1 ->
  switchDisplayingBuffer s
  = Ok tt (with_output
             (Some (sent ++ [[0xB0; 0;
                              control_byte (1 - d) u (truthy (flashingBuffers s)) false]]))
             (with_displayingBuffer (lit (1 - d)) s)).
Proof.
  intros Ho Hd Hu Bd Bu. unfold switchDisplayingBuffer.
  erewrite bind_Ok; [|reflexivity]. rewrite Hd.
  destruct Bd as [-> | ->]; cbn [truthy lit negb Z.eqb Pos.eqb].
  - erewrite bind_Ok; [|reflexivity].
    erewrite bind_Ok; [|reflexivity].
    erewrite bind_Ok; [|reflexivity].
    rewrite (updateBufferStatus_Ok JUndefined _ sent 1 u) by (done || lia).
    cbn [truthy]. fields. by rewrite app_nil_r.
  - erewrite bind_Ok; [|reflexivity].
    erewrite bind_Ok; [|reflexivity]. rewrite Hd.
    erewrite bind_Ok; [|reflexivity].
    rewrite (updateBufferStatus_Ok JUndefined _ sent 0 u) by (done || lia).
    cbn [truthy]. fields. by rewrite app_nil_r.
Qed.

Lemma switchUpdatingBuffer_Ok copy s sent d u :
  output s = Some sent -> displayingBuffer s = lit d -> updatingBuffer s = lit u ->
  0 <= d <= 1 -> u = 0 \/ u = 1 ->
  switchUpdatingBuffer copy s
  = Ok tt (with_calls (calls s ++ (if truthy copy
                                   then notified s led_changed JUndefined else []))
             (with_output
                (Some (sent ++ [[0xB0; 0;
                                 control_byte d (1 - u) (truthy (flashingBuffers s))
                                   (truthy copy)]]))
                (with_updatingBuffer (lit (1 - u)) s))).
Proof.
  intros Ho Hd Hu Bd Bu. unfold switchUpdatingBuffer.
  erewrite bind_Ok; [|reflexivity]. rewrite Hu.
  destruct Bu as [-> | ->]; cbn [truthy lit negb Z.eqb Pos.eqb].
  - erewrite bind_Ok; [|reflexivity].
    erewrite bind_Ok; [|reflexivity].
    erewrite bind_Ok; [|reflexivity].
    by rewrite (updateBufferStatus_Ok copy _ sent d 1) by (done || lia).
  - erewrite bind_Ok; [|reflexivity].
    erewrite bind_Ok; [|reflexivity]. rewrite Hu.
    erewrite bind_Ok; [|reflexivity].
    by rewrite (updateBufferStatus_Ok copy _ sent d 0) by (done || lia).
Qed.

Lemma switchFlash_Ok s sent d u :
  output s = Some sent -> displayingBuffer s = lit d -> updatingBuffer s = lit u ->
  0 <= d <= 1 -> 0 <= u <= 1 ->
  switchFlash s
  = Ok tt (with_output
             (Some (sent ++ [[0xB0; 0;
                              control_byte d u (negb (truthy (flashingBuffers s))) false]]))
             (with_flashingBuffers (JBool (negb (truthy (flashingBuffers s)))) s)).
Proof.
  intros Ho Hd Hu Bd Bu. unfold switchFlash.
  erewrite bind_Ok; [|reflexivity].
  erewrite bind_Ok; [|reflexivity].
  rewrite (updateBufferStatus_Ok JUndefined _ sent d u) by (done || lia).
  cbn [truthy]. fields. by rewrite app_nil_r.
Qed.

(** X6: on a reset instance [switchDisplayingBuffer()] flips the
    displaying buffer between 0 and 1 and sends the buffer-control message
    [0xB0, 0, 32 + display + 4*update + 8*flash] computed from the new value;
    the byte lies in 32..47 and nothing else in the state changes. *)
Theorem switchDisplayingBuffer_spec (s : state) (sent : list (list Z)) (d u : Z) :
  output s = Some sent -> displayingBuffer s = lit d -> updatingBuffer s = lit u ->
  d = 0 \/ d = 1 -> u = 0 \/ u = 1 ->
  switchDisplayingBuffer s
  = Ok tt (with_output
             (Some (sent ++ [[0xB0; 0;
                              control_byte (1 - d) u (truthy (flashingBuffers s)) false]]))
             (with_displayingBuffer (lit (1 - d)) s))
  /\ 32 <= control_byte (1 - d) u (truthy (flashingBuffers s)) false <= 47.
Proof.
  intros Ho Hd Hu Bd Bu. split; [apply switchDisplayingBuffer_Ok; (done || lia)|].
  unfold control_byte, b2z. destruct (truthy (flashingBuffers s)); lia.
Qed.

Lemma switchDisplayingBuffer_spec_witness :
  switchDisplayingBuffer fresh
  = Ok tt (with_output (Some [[0xB0; 0; 0]; [0xB0; 0; 33]])
             (with_displayingBuffer (lit 1) fresh)).
Proof.
  apply (switchDisplayingBuffer_spec fresh [[0xB0; 0; 0]] 0 0);
    try (by rewrite fresh_eq); by left.
Defined.

(** X7: on a reset instance [switchUpdatingBuffer(copy)] flips the
    updating buffer and sends [0xB0, 0, 32 + display + 4*update + 8*flash +
    16*copy] with the new value.  The LED-changed listeners are called
    exactly when [copy] is truthy, yet the two LED buffers of the instance
    are left as they were: the copy the device makes is not mirrored. *)
Theorem switchUpdatingBuffer_spec (copy : value) (s : state) (sent : list (list Z))
    (d u : Z) :
  output s = Some sent -> displayingBuffer s = lit d -> updatingBuffer s = lit u ->
  d = 0 \/ d = 1 -> u = 0 \/ u = 1 ->
  exists s',
    switchUpdatingBuffer copy s = Ok tt s' /\
    updatingBuffer s' = lit (1 - u) /\
    output s' = Some (sent ++ [[0xB0; 0;
                                control_byte d (1 - u) (truthy (flashingBuffers s))
                                  (truthy copy)]]) /\
    calls s' = calls s ++ (if truthy copy then notified s led_changed JUndefined else []) /\
    ledBuffers s' = ledBuffers s /\
    displayingBuffer s' = displayingBuffer s /\
    flashingBuffers s' = flashingBuffers s /\
    _pressedButtons s' = _pressedButtons s.
Proof.
  intros Ho Hd Hu Bd Bu. eexists.
  split; [apply (switchUpdatingBuffer_Ok copy s sent d u); (done || lia)|].
  by repeat split.
Qed.

Lemma switchUpdatingBuffer_spec_witness :
  exists s',
    switchUpdatingBuffer (JBool true) listening = Ok tt s' /\
    output s' = Some [[0xB0; 0; 0]; [0xB0; 0; 52]] /\
    calls s' = [(7%nat, JUndefined)] /\
    ledBuffers s' = ledBuffers listening.
Proof.
  destruct (switchUpdatingBuffer_spec (JBool true) listening [[0xB0; 0; 0]] 0 0)
    as (s' & E & _ & Ho & Hc & Hl & _); try (by left).
  - unfold listening. by rewrite fresh_eq.
  - unfold listening. by rewrite fresh_eq.
  - unfold listening. by rewrite fresh_eq.
  - exists s'. split; [exact E|]. split; [exact Ho|]. split; [|exact Hl].
    rewrite Hc. unfold listening. by rewrite fresh_eq.
Defined.

(** X8: on a reset instance [switchFlash()] replaces the flashing flag by
    the negation of its truth value and sends the buffer-control message
    with the new flash bit; nothing else changes. *)
Theorem switchFlash_spec (s : state) (sent : list (list Z)) (d u : Z) :
  output s = Some sent -> displayingBuffer s = lit d -> updatingBuffer s = lit u ->
  d = 0 \/ d = 1 -> u = 0 \/ u = 1 ->
  switchFlash s
  = Ok tt (with_output
             (Some (sent ++ [[0xB0; 0;
                              control_byte d u (negb (truthy (flashingBuffers s))) false]]))
             (with_flashingBuffers (JBool (negb (truthy (flashingBuffers s)))) s)).
Proof. intros Ho Hd Hu Bd Bu. apply switchFlash_Ok; (done || lia). Qed.

Lemma switchFlash_spec_witness :
  switchFlash fresh
  = Ok tt (with_output (Some [[0xB0; 0; 0]; [0xB0; 0; 40]])
             (with_flashingBuffers (JBool true) fresh)).
Proof.
  rewrite (switchFlash_spec fresh [[0xB0; 0; 0]] 0 0);
    try (by rewrite fresh_eq); try (by left).
Defined.



Lemma control_byte_unset (display update : value) (flash copy : bool) :
  display = JUndefined \/ display = lit 0 \/ display = lit 1 ->
  update = JUndefined \/ update = lit 0 \/ update = lit 1 ->
  display = JUndefined \/ update = JUndefined ->
  (a ← add (lit 32) display;
   x ← mul update (lit 4);
   b ← add a x;
   f ← mul (lit (if flash then 1 else 0)) (lit 8);
   c ← add b f;
   k ← mul (lit (if copy then 1 else 0)) (lit 16);
   add c k)
  = Val (JNum NaN).
Proof.
  intros [-> | [-> | ->]] [-> | [-> | ->]] [H | H]; try discriminate H;
    destruct flash, copy; vm_compute; reflexivity.
Qed.

Lemma updateBufferStatus_unset copy s sent :
  output s = Some sent ->
  displayingBuffer s = JUndefined \/ displayingBuffer s = lit 0 \/ displayingBuffer s = lit 1 ->
  updatingBuffer s = JUndefined \/ updatingBuffer s = lit 0 \/ updatingBuffer s = lit 1 ->
  displayingBuffer s = JUndefined \/ updatingBuffer s = JUndefined ->
  _updateBufferStatus copy s
  = Ok tt (with_calls (calls s ++ (if truthy copy
                                   then notified s led_changed JUndefined else []))
             (with_output (Some (sent ++ [[0xB0; 0; 0]])) s)).
Proof.
  intros Ho Hd Hu Hn. unfold _updateBufferStatus.
  do 3 (erewrite bind_Ok; [|reflexivity]).
  rewrite (control_byte_unset _ _ _ _ Hd Hu Hn), lift_Val_bind.
  erewrite bind_Ok; [|eapply midiSend_Ok; [exact Ho|reflexivity]].
  rewrite truthy_flag. destruct (truthy copy); [reflexivity|].
  unfold mret, M_ret. fields. by rewrite app_nil_r.
Qed.

(** X10: before the first [reset()] both buffer indices are [undefined],
    the control byte evaluates to [NaN], and each of the three switches
    sends [0xB0, 0, 0], which is the reset message, while setting its own
    field (displaying buffer 1, updating buffer 1, flashing true). *)
Theorem switch_before_reset (copy : value) (s : state) (sent : list (list Z)) :
  output s = Some sent ->
  displayingBuffer s = JUndefined -> updatingBuffer s = JUndefined ->
  switchDisplayingBuffer s
  = Ok tt (with_output (Some (sent ++ [[0xB0; 0; 0]])) (with_displayingBuffer (lit 1) s))
  /\ switchUpdatingBuffer copy s
     = Ok tt (with_calls (calls s ++ (if truthy copy
                                      then notified s led_changed JUndefined else []))
                (with_output (Some (sent ++ [[0xB0; 0; 0]]))
                   (with_updatingBuffer (lit 1) s)))
  /\ switchFlash s
     = Ok tt (with_output (Some (sent ++ [[0xB0; 0; 0]]))
                (with_flashingBuffers (JBool (negb (truthy (flashingBuffers s)))) s)).
Proof.
  intros Ho Hd Hu. split; [|split].
  - unfold switchDisplayingBuffer.
    erewrite bind_Ok; [|reflexivity]. rewrite Hd. cbn [truthy negb].
    do 3 (erewrite bind_Ok; [|reflexivity]).
    rewrite (updateBufferStatus_unset JUndefined _ sent); try done;
      fields; rewrite ?Hu; try tauto.
    cbn [truthy]. by rewrite app_nil_r.
  - unfold switchUpdatingBuffer.
    erewrite bind_Ok; [|reflexivity]. rewrite Hu. cbn [truthy negb].
    do 3 (erewrite bind_Ok; [|reflexivity]).
    rewrite (updateBufferStatus_unset copy _ sent); try done;
      fields; rewrite ?Hd; tauto.
  - unfold switchFlash.
    do 2 (erewrite bind_Ok; [|reflexivity]).
    rewrite (updateBufferStatus_unset JUndefined _ sent); try done;
      fields; rewrite ?Hd, ?Hu; try tauto.
    cbn [truthy]. by rewrite app_nil_r.
Qed.

Lemma switch_before_reset_witness :
  switchFlash attached
  = Ok tt (with_output (Some [[0xB0; 0; 0]]) (with_flashingBuffers (JBool true) attached)).
Proof. by apply (switch_before_reset JUndefined attached []). Defined.

(** ** workOnBackgroundBuffer *)


(** Normalise nested field updates on a state given by its fields. *)
Ltac record_norm :=
  cbv beta iota zeta delta
    [with_pressedButtons with_flashingBuffers with_displayingBuffer
     with_updatingBuffer with_ledBuffers with_cachedOrderedButtons
     with_output with_calls with_listener
     listeners _pressedButtons flashingBuffers displayingBuffer updatingBuffer
     ledBuffers _cachedOrderedButtons output calls].






(** ** allLEDsOn *)

Lemma allLEDsOn_level (level colour : string) (byte : Z) s sent bufs l0 l1 :
  In (level, byte, colour)
     [("low", 0x7D, "AmberLow"); ("medium", 0x7E, "AmberMed"); ("high", 0x7F, "Amber")] ->
  output s = Some sent -> ledBuffers s = Some bufs ->
  bufs !! "0" = Some l0 -> bufs !! "1" = Some l1 ->
  allLEDsOn (JStr level) s
  = Ok tt (with_calls (calls s ++ notified s led_changed JUndefined)
             (with_ledBuffers
                (Some (<["0" := fill (Color colour) (keys Buttons) l0]>
                         (<["1" := fill (Color colour) (keys Buttons) l1]> bufs)))
                (with_output (Some (sent ++ [[0xB0; 0; byte]])) s))).
Proof.
  intros Hin Ho Hb H0 H1. unfold allLEDsOn.
  cbn [is_undefined to_string]. rewrite lift_Val_bind.
  assert (Hp : bool_decide (level ∈ object_prototype_names) = false).
  { destruct Hin as [[= <- <- <-] | [[= <- <- <-] | [[= <- <- <-] | []]]];
      vm_compute; reflexivity. }
  rewrite Hp.
  destruct Hin as [[= <- <- <-] | [[= <- <- <-] | [[= <- <- <-] | []]]];
    cbv zeta;
    match goal with
    | |- context [truthy (default JUndefined (assoc ?k brightnessMap))] =>
        change (truthy (default JUndefined (assoc k brightnessMap))) with true
    end; cbn [negb to_string]; rewrite lift_Val_bind;
    (erewrite bind_Ok; [|eapply midiSend_Ok; [exact Ho|reflexivity]]);
    (erewrite bind_Ok; [|by eapply reset_loop]);
    reflexivity.
Qed.

(** X13: on a reset instance [allLEDsOn('low' | 'medium' | 'high')] sends
    [0xB0, 0, 0x7D | 0x7E | 0x7F], puts AmberLow, AmberMed or Amber under
    every button name in both LED buffers, and calls the LED-changed
    listeners once each. *)
Theorem allLEDsOn_spec (level colour : string) (byte : Z) (s : state)
    (sent : list (list Z)) :
  In (level, byte, colour)
     [("low", 0x7D, "AmberLow"); ("medium", 0x7E, "AmberMed"); ("high", 0x7F, "Amber")] ->
  output s = Some sent ->
  is_Some (bufs ← ledBuffers s; bufs !! "0") ->
  is_Some (bufs ← ledBuffers s; bufs !! "1") ->
  exists s',
    allLEDsOn (JStr level) s = Ok tt s' /\
    output s' = Some (sent ++ [[0xB0; 0; byte]]) /\
    (forall name, In name (map fst Buttons) ->
       led s' 0 name = Some (Color colour) /\ led s' 1 name = Some (Color colour)) /\
    In (Color colour) palette /\
    calls s' = calls s ++ notified s led_changed JUndefined.
Proof.
  intros Hin Ho [l0 H0] [l1 H1].
  destruct (ledBuffers s) as [bufs|] eqn:Hb; [|discriminate H0].
  cbn [mbind option_bind] in H0, H1.
  eexists. split; [by eapply allLEDsOn_level|].
  split; [reflexivity|]. split; [|split; [|reflexivity]].
  - intros name Hn. apply keys_Buttons in Hn.
    unfold led. fields. cbn [mbind option_bind].
    rewrite pretty_0, pretty_1.
    rewrite lookup_insert_eq, lookup_insert_ne, lookup_insert_eq by done.
    cbn [mbind option_bind].
    by rewrite !fill_lookup, !bool_decide_eq_true_2 by done.
  - destruct Hin as [[= <- <- <-] | [[= <- <- <-] | [[= <- <- <-] | []]]];
      vm_compute; tauto.
Qed.

Lemma allLEDsOn_spec_witness :
  exists s',
    allLEDsOn (JStr "high") fresh = Ok tt s' /\
    output s' = Some [[0xB0; 0; 0]; [0xB0; 0; 0x7F]] /\
    led s' 0 "Mixer" = Some (Color "Amber") /\ led s' 1 "00" = Some (Color "Amber").
Proof.
  destruct (allLEDsOn_spec "high" "Amber" 0x7F fresh [[0xB0; 0; 0]])
    as (s' & E & Ho & Hl & _).
  - right. right. by left.
  - by rewrite fresh_eq.
  - rewrite fresh_eq. fields. cbn [mbind option_bind].
    rewrite <- pretty_0, reset_buffers_lookup by tauto. by eexists.
  - rewrite fresh_eq. fields. cbn [mbind option_bind].
    rewrite <- pretty_1, reset_buffers_lookup by tauto. by eexists.
  - exists s'. split; [exact E|]. split; [exact Ho|].
    split; apply Hl; vm_compute; tauto.
Defined.

Lemma allLEDsOn_lenient (brightness : value) (key : string) (s : state) :
  to_string brightness = Val key ->
  ~ In key object_prototype_names ->
  ~ In key ["low"; "medium"; "high"] ->
  allLEDsOn brightness s = allLEDsOn (JStr "medium") s.
Proof.
  intros Hk Hp Hl. unfold allLEDsOn.
  destruct (is_undefined brightness) eqn:Eu; [reflexivity|].
  rewrite Hk. cbn [is_undefined to_string]. rewrite !lift_Val_bind.
  rewrite bool_decide_eq_false_2 by (by rewrite list_elem_of_In).
  replace (bool_decide ("medium" ∈ object_prototype_names)) with false
    by (vm_compute; reflexivity).
  cbv zeta.
  assert (Ha : assoc key brightnessMap = None).
  { unfold brightnessMap. cbn [assoc].
    repeat match goal with
           | |- context [String.eqb key ?k] =>
               destruct (String.eqb_spec key k) as [->|_];
               [exfalso; apply Hl; cbn; tauto|]
           end.
    reflexivity. }
  rewrite Ha. cbn [default from_option id truthy negb to_string].
  reflexivity.
Qed.

(** X14: [allLEDsOn] is lenient: a missing argument, and any argument whose
    property key is none of "low", "medium", "high" (another string, a
    number, a boolean, null), behaves exactly as [allLEDsOn('medium')]. *)
Theorem allLEDsOn_fallback (brightness : value) (key : string) (s : state) :
  to_string brightness = Val key ->
  ~ In key object_prototype_names ->
  ~ In key ["low"; "medium"; "high"] ->
  allLEDsOn brightness s = allLEDsOn (JStr "medium") s.
Proof. exact (allLEDsOn_lenient brightness key s). Qed.

Lemma allLEDsOn_fallback_witness :
  allLEDsOn (JStr "bright") fresh = allLEDsOn (JStr "medium") fresh /\
  allLEDsOn (lit 3) fresh = allLEDsOn (JStr "medium") fresh /\
  allLEDsOn JUndefined fresh = allLEDsOn (JStr "medium") fresh.
Proof.
  split; [|split].
  - apply (allLEDsOn_fallback _ "bright"); [reflexivity| |];
      vm_compute; intuition discriminate.
  - apply (allLEDsOn_fallback _ "3"); [vm_compute; reflexivity| |];
      vm_compute; intuition discriminate.
  - apply (allLEDsOn_fallback _ "undefined"); [reflexivity| |];
      vm_compute; intuition discriminate.
Defined.

(** ** setSingleLED: flags, guard, missing buffers, missing port *)

Lemma truthy_default v : truthy (if is_undefined v then JBool false else v) = truthy v.
Proof. by destruct v. Qed.

Lemma encoder_flags C f g :
  In C palette ->
  _colorToMIDIVelocity C f g
  = Val (lit (velocity_byte C + (if truthy g then 8 else 0) + (if truthy f then 12 else 0)))
  /\ 0 <= velocity_byte C + (if truthy g then 8 else 0) + (if truthy f then 12 else 0) < 128.
Proof.
  intros HC. unfold _colorToMIDIVelocity. cbv zeta. rewrite !truthy_default.
  revert C HC. apply palette_cases.
  forall_list ltac:(destruct (truthy f), (truthy g); vm_compute; (split; [reflexivity|split; [intros [=]|reflexivity]])).
Qed.



Lemma button_guard button :
  (negb (truthy button) || negb (String.eqb (typeof button) "object")
   || (is_undefined (get button "_note_key") && is_undefined (get button "_automap_key")))
  = true <-> lacks_keys button.
Proof.
  destruct button as [| |[|]|[z|]|str|a ps]; simpl; try tauto.
  - destruct (z =? 0); simpl; tauto.
  - destruct (String.eqb str ""); simpl; tauto.
  - rewrite andb_true_iff, !is_undefined_true. tauto.
Qed.

(** X16: [setSingleLED] fails with "Invalid button" exactly on the values
    that are not objects and on the objects with neither [_note_key] nor
    [_automap_key]; the button is checked before the colour, so the error
    is this one whatever the colour, and the instance is left as it was. *)
Theorem invalid_button_iff (button color f g : value) (s : state) :
  (lacks_keys button ->
   setSingleLED button color f g s = Fail (Error "Invalid button") s)
  /\ (forall s', setSingleLED button color f g s = Fail (Error "Invalid button") s' ->
                 lacks_keys button)
  /\ Forall (fun B => ~ lacks_keys B) registry.
Proof.
  split; [|split].
  - intros H. apply button_guard in H. unfold setSingleLED. by rewrite H.
  - intros s' H. apply button_guard.
    destruct (negb (truthy button) || _ || _) eqn:G; [reflexivity|exfalso].
    unfold setSingleLED in H. rewrite G in H.
    destruct (_colorToMIDIVelocity color f g) as [v|e|] eqn:Ev.
    + erewrite bind_Ok in H by reflexivity.
      revert H. generalize s s'.
      assert (O : only_type_errors
                (_midiSend
                   [lit (if negb (is_undefined (get button "_note_key")) then 144 else 176);
                    if negb (is_undefined (get button "_note_key"))
                    then get button "_note_key" else get button "_automap_key"; v];;
                 read updatingBuffer ≫= (λ updating : value,
                   set_led updating (get button "name") color;;
                   _dispatchListener led_changed JUndefined))) by ote_steps.
      intros s1 s2 H. by apply O in H.
    + apply encoder_raise_inv in Ev as [-> _].
      unfold mbind, M_bind, lift in H. discriminate H.
    + unfold mbind, M_bind, lift in H. discriminate H.
  - unfold registry. apply Forall_map, Forall_forall. intros [name B] HB.
    apply list_elem_of_In in HB.
    destruct (registry_button_facts name B HB) as (Hg & _). simpl.
    intros HL. apply button_guard in HL. congruence.
Qed.

(** X17: on an instance whose port is attached but that was never reset,
    [setSingleLED] with a registered button and a palette colour sends its
    message and then fails with a [TypeError], the buffers being still
    undefined: the device is lit, nothing is recorded and no listener is
    called. *)
Theorem setSingleLED_before_reset (name : string) (B C f g : value) (s : state)
    (sent : list (list Z)) :
  In (name, B) Buttons -> In C palette ->
  output s = Some sent -> ledBuffers s = None ->
  exists status key,
    setSingleLED B C f g s
    = Fail TypeError
        (with_output
           (Some (sent ++ [[status; key;
                            velocity_byte C + (if truthy g then 8 else 0)
                            + (if truthy f then 12 else 0)]])) s).
Proof.
  intros HB HC Ho Hl.
  destruct (registry_button_facts name B HB) as (Hg & Hname & status & key & Hkey & Hr).
  destruct (encoder_flags C f g HC) as [Ev Hv].
  exists status, key. unfold setSingleLED. rewrite Hg.
  erewrite bind_Ok; [|unfold lift; rewrite Ev; reflexivity].
  erewrite bind_Ok; [|eapply midiSend_Ok; [exact Ho|]].
  - erewrite bind_Ok; [|reflexivity].
    unfold mbind at 1, M_bind at 1, set_led. fields. by rewrite Hl.
  - destruct Hkey as [[E1 ->] | (E1 & E2 & ->)]; rewrite E1, ?E2;
      [change (is_undefined (lit key)) with false
      |change (is_undefined JUndefined) with true];
      cbn [negb]; apply to_uint8_array_lit; lia.
Qed.

Lemma setSingleLED_before_reset_witness :
  exists status key,
    setSingleLED (Button "00") (Color "Green") JUndefined JUndefined attached
    = Fail TypeError
        (with_output
           (Some ([] ++ [[status; key; velocity_byte (Color "Green") + 0 + 0]])) attached).
Proof.
  apply (setSingleLED_before_reset "00" (Button "00") (Color "Green")
           JUndefined JUndefined attached []).
  - vm_compute. left. reflexivity.
  - vm_compute. tauto.
  - reflexivity.
  - reflexivity.
Defined.

(** *** No output port *)

Section Port.
Context {A B : Type}.

Lemma needs_port_bind (m : M A) (k : A -> M B) : needs_port m -> needs_port (m ≫= k).
Proof.
  intros Hm s a s' Ho. unfold mbind, M_bind.
  destruct (m s) as [x s1| |] eqn:E; try discriminate.
  by apply Hm in E.
Qed.

Lemma needs_port_then (m : M A) (k : A -> M B) :
  keeps_detached m -> (forall a, needs_port (k a)) -> needs_port (m ≫= k).
Proof.
  intros Hm Hk s a s' Ho. unfold mbind, M_bind.
  destruct (m s) as [x s1| |] eqn:E; try discriminate.
  apply Hk. eapply Hm; eauto.
Qed.

Lemma keeps_detached_bind (m : M A) (k : A -> M B) :
  keeps_detached m -> (forall a, keeps_detached (k a)) -> keeps_detached (m ≫= k).
Proof.
  intros Hm Hk s a s' Ho. unfold mbind, M_bind.
  destruct (m s) as [x s1| |] eqn:E; try discriminate.
  apply Hk. eapply Hm; eauto.
Qed.

Lemma needs_port_keeps (m : M A) : needs_port m -> keeps_detached m.
Proof. intros H s a s' Ho E. by apply H in E. Qed.

Lemma needs_port_throw e : needs_port (throw e : M A).
Proof. intros s a s' _. discriminate. Qed.

Lemma needs_port_stuck : needs_port (stuck : M A).
Proof. intros s a s' _. discriminate. Qed.

Lemma keeps_detached_ret (a : A) : keeps_detached (mret a : M A).
Proof. intros s x s' Ho [= _ <-]. exact Ho. Qed.

Lemma keeps_detached_read (f : state -> A) : keeps_detached (read f).
Proof. intros s x s' Ho [= _ <-]. exact Ho. Qed.

Lemma keeps_detached_lift (r : res A) : keeps_detached (lift r).
Proof. intros s x s' Ho. unfold lift. destruct r; intros [=]. by subst. Qed.
End Port.

Lemma needs_port_midiSend args : needs_port (_midiSend args).
Proof. intros s a s' Ho. unfold _midiSend. rewrite Ho. discriminate. Qed.

Lemma keeps_detached_modify f :
  (forall s, output (f s) = output s) -> keeps_detached (modify f).
Proof. intros Hf s x s' Ho [= _ <-]. by rewrite Hf. Qed.

Lemma keeps_detached_set_led b n c : keeps_detached (set_led b n c).
Proof.
  intros s x s' Ho. unfold set_led.
  repeat case_match; intros [=]; subst; exact Ho.
Qed.

Lemma keeps_detached_getOrderedButtons order : keeps_detached (getOrderedButtons order).
Proof.
  intros s x s' Ho. unfold getOrderedButtons.
  destruct (bool_decide _); [discriminate|]. intros [= _ <-]. exact Ho.
Qed.

Lemma keeps_detached_name_of b : keeps_detached (name_of b).
Proof. intros s x s' Ho. destruct b; intros [=]; by subst. Qed.

Ltac port_steps :=
  repeat first
    [ apply needs_port_midiSend | apply needs_port_throw | apply needs_port_stuck
    | apply needs_port_bind; apply needs_port_midiSend
    | apply needs_port_then; [|intros ?]
    | apply keeps_detached_read | apply keeps_detached_lift | apply keeps_detached_ret
    | apply keeps_detached_set_led | apply keeps_detached_name_of
    | apply keeps_detached_getOrderedButtons
    | apply keeps_detached_modify; intros ?; reflexivity
    | apply needs_port_keeps;
      first [ apply needs_port_midiSend | apply needs_port_throw | apply needs_port_stuck ]
    | match goal with
      | |- needs_port (if ?c then _ else _) => destruct c
      | |- keeps_detached (if ?c then _ else _) => destruct c
      end ].

Lemma needs_port_reset : needs_port reset.
Proof. unfold reset. port_steps. Qed.

Lemma needs_port_allLEDsOn b : needs_port (allLEDsOn b).
Proof. unfold allLEDsOn. port_steps. Qed.

Lemma needs_port_setSingleLED b c f g : needs_port (setSingleLED b c f g).
Proof. unfold setSingleLED. port_steps. Qed.

Lemma needs_port_updateBufferStatus c : needs_port (_updateBufferStatus c).
Proof. unfold _updateBufferStatus. port_steps. Qed.

Lemma needs_port_setDutyCycle n d : needs_port (setDutyCycle n d).
Proof. unfold setDutyCycle. port_steps. Qed.

Lemma needs_port_setBrightness b : needs_port (setBrightness b).
Proof. unfold setBrightness. repeat case_match; port_steps; apply needs_port_setDutyCycle. Qed.

Lemma keeps_detached_batch_loop fuel colors velocities listOfButtons i :
  keeps_detached (batch_loop fuel colors velocities listOfButtons i).
Proof.
  revert i. induction fuel as [|fuel IH]; intros i; simpl.
  - apply needs_port_keeps, needs_port_stuck.
  - destruct (i <? length velocities)%nat; [|apply keeps_detached_ret].
    apply needs_port_keeps, needs_port_bind, needs_port_midiSend.
Qed.

Lemma keeps_detached_setMultipleLED_loop colors : keeps_detached (setMultipleLED_loop colors).
Proof.
  unfold setMultipleLED_loop.
  destruct (length colors =? 0)%nat; [apply needs_port_keeps, needs_port_throw|].
  destruct (80 <? length colors)%nat; [apply needs_port_keeps, needs_port_throw|].
  apply keeps_detached_bind; [apply keeps_detached_getOrderedButtons|intros l].
  apply keeps_detached_bind; [apply keeps_detached_lift|intros vs].
  apply keeps_detached_batch_loop.
Qed.

Lemma needs_port_setMultipleLED colors : needs_port (setMultipleLED colors).
Proof.
  unfold setMultipleLED.
  apply needs_port_then; [apply keeps_detached_setMultipleLED_loop|intros _].
  apply needs_port_bind, needs_port_setSingleLED.
Qed.

Lemma needs_port_run c : needs_port (run c).
Proof.
  destruct c; simpl.
  - apply needs_port_reset.
  - apply needs_port_allLEDsOn.
  - apply needs_port_setSingleLED.
  - unfold switchDisplayingBuffer. port_steps; apply needs_port_updateBufferStatus.
  - unfold switchUpdatingBuffer. port_steps; apply needs_port_updateBufferStatus.
  - unfold switchFlash. port_steps; apply needs_port_updateBufferStatus.
  - apply needs_port_setDutyCycle.
  - apply needs_port_setBrightness.
  - apply needs_port_setMultipleLED.
Qed.

(** X18: while no output port is attached (before the lifecycle found the
    device, or after it was unplugged) none of the nine commands completes,
    whatever its arguments and the rest of the state: [setMultipleLED]
    too, whose loop may send nothing, fails in its final [setSingleLED]. *)
Theorem no_command_without_port (c : command) (s : state) :
  output s = None ->
  completes (run c s) = false.
Proof.
  intros Ho. unfold completes.
  destruct (run c s) as [a s'| |] eqn:E; try reflexivity.
  by apply needs_port_run in E.
Qed.

Lemma no_command_without_port_witness :
  completes (run (SetBrightness (lit 3)) constructor) = false.
Proof. apply (no_command_without_port (SetBrightness (lit 3)) constructor). reflexivity. Defined.

(** ** Inbound messages: resolution and outcome *)

Lemma find_button_sound names k v :
  find_button names k v = JUndefined \/
  exists i, i ∈ names /\ find_button names k v = Button i
            /\ strict_eq (get (Button i) k) v = true.
Proof.
  induction names as [|i names IH]; [by left|]. simpl.
  destruct (strict_eq (get (Button i) k) v) eqn:E.
  - right. exists i. split; [by left|done].
  - destruct IH as [IH | (j & Hj & Ej & Hs)]; [by left|].
    right. exists j. split; [by right|done].
Qed.

Lemma keys_Buttons_names i : i ∈ keys Buttons -> In i (map fst Buttons).
Proof.
  intros H. apply list_elem_of_In. revert i H. apply Forall_forall.
  apply (bool_decide_unpack _). vm_compute. exact I.
Qed.

Lemma Button_lookup name B : In (name, B) Buttons -> Button name = B.
Proof.
  revert name B. apply buttons_cases.
  forall_list ltac:(vm_compute; reflexivity).
Qed.

Lemma Button_registered i : In i (map fst Buttons) -> In (i, Button i) Buttons.
Proof.
  intros H. apply in_map_iff in H as ([n B] & <- & H). simpl.
  by rewrite (Button_lookup n B H).
Qed.

Lemma resolve_keyspace status key :
  resolve status key = find_button (keys Buttons) (keyspace status) (lit key).
Proof.
  unfold resolve, keyspace. cbn [lookup list_lookup].
  destruct (decide (status = 144)) as [->|N].
  - by rewrite decide_True.
  - rewrite decide_False; [done|]. intros [= ?]. done.
Qed.

Lemma resolve_sound status key :
  resolve status key = JUndefined \/
  In (resolve status key) registry /\ truthy (resolve status key) = true /\
  get (resolve status key) (keyspace status) = lit key.
Proof.
  rewrite resolve_keyspace.
  destruct (find_button_sound (keys Buttons) (keyspace status) (lit key))
    as [H | (i & Hi & -> & Hs)]; [by left|right].
  apply keys_Buttons_names, Button_registered in Hi.
  split; [unfold registry; apply in_map_iff; by exists (i, Button i)|].
  destruct (registry_button_facts i _ Hi) as (Hg & _).
  split; [|by apply strict_eq_lit].
  destruct (truthy (Button i)); [done|discriminate Hg].
Qed.

Lemma message_type (c : Z) :
  match Some c with
  | Some 0x7F => Some pressed
  | Some 0x0 => Some released
  | _ => None
  end
  = if decide (c = 0x7F) then Some pressed
    else if decide (c = 0) then Some released else None.
Proof.
  destruct (decide (c = 0x7F)) as [->|N]; [reflexivity|].
  destruct (decide (c = 0)) as [->|N0]; [reflexivity|].
  destruct c as [|p|p]; [done| |done].
  do 7 (destruct p as [p|p|]; try reflexivity). done.
Qed.

Lemma listener_three status key v s :
  _midiMessageListener [status; key; v] s
  = if decide (v = 0x7F) then
      if truthy (resolve status key) then
        Ok JUndefined
          (with_calls (calls s ++ notified s pressed (resolve status key))
             (with_pressedButtons (set_add (resolve status key) (_pressedButtons s)) s))
      else Ok (JBool false) s
    else if decide (v = 0) then
      if truthy (resolve status key) then
        Ok JUndefined
          (with_calls (calls s ++ notified s released (resolve status key))
             (with_pressedButtons (set_delete (resolve status key) (_pressedButtons s)) s))
      else Ok (JBool false) s
    else Ok (JBool false) s.
Proof.
  unfold _midiMessageListener, resolve.
  cbn [length Nat.eqb negb lookup list_lookup default from_option id].
  rewrite message_type.
  destruct (decide (v = 0x7F)); [by destruct (truthy _)|].
  destruct (decide (v = 0)); [by destruct (truthy _)|]. reflexivity.
Qed.

Lemma listener_short data s :
  length data <> 3%nat -> _midiMessageListener data s = Ok (JBool false) s.
Proof.
  intros H. unfold _midiMessageListener.
  destruct (Nat.eqb_spec (length data) 3) as [?|_]; [done|]. reflexivity.
Qed.

Lemma listener_cases (data : list Z) (s : state) :
  (_midiMessageListener data s = Ok (JBool false) s /\
   (length data <> 3%nat \/
    exists status key v, data = [status; key; v] /\
      (v <> 0x7F /\ v <> 0 \/ resolve status key = JUndefined)))
  \/
  (exists status key v B,
     data = [status; key; v] /\ (v = 0x7F \/ v = 0) /\
     resolve status key = B /\ In B registry /\ get B (keyspace status) = lit key /\
     _midiMessageListener data s
     = Ok JUndefined
         (with_calls
            (calls s ++ notified s (if decide (v = 0x7F) then pressed else released) B)
            (with_pressedButtons
               ((if decide (v = 0x7F) then set_add else set_delete) B (_pressedButtons s))
               s))).
Proof.
  destruct (decide (length data = 3%nat)) as [L|L];
    [|left; split; [by apply listener_short|by left]].
  destruct data as [|status [|key [|v [|? ?]]]]; try discriminate L. clear L.
  rewrite listener_three.
  destruct (resolve_sound status key) as [E | (Hin & T & Hk)].
  { left. rewrite E. cbn [truthy].
    split; [by repeat destruct (decide _)|].
    right. exists status, key, v. split; [done|by right]. }
  rewrite T.
  destruct (decide (v = 0x7F)) as [->|N].
  { right. exists status, key, 0x7F, (resolve status key).
    repeat (split; [done || by left|]). reflexivity. }
  destruct (decide (v = 0)) as [->|N0].
  { right. exists status, key, 0, (resolve status key).
    repeat (split; [done || by right|]). reflexivity. }
  left. split; [done|]. right. exists status, key, v. split; [done|by left].
Qed.

(** X19: what an inbound message does.  Either it is dropped: it has not
    three bytes, or its third byte is neither 0x7F nor 0, or no button has
    its key in the key space of its status; the listener then returns
    false and the instance is untouched.  Or it resolves to a registered
    button whose key it carries: that button is added to (0x7F) or deleted
    from (0) the pressed set, the listeners of that kind are called with
    it, and the listener returns undefined.  It never throws. *)
Theorem listener_outcome (data : list Z) (s : state) :
  (_midiMessageListener data s = Ok (JBool false) s /\
   (length data <> 3%nat \/
    exists status key v, data = [status; key; v] /\
      (v <> 0x7F /\ v <> 0 \/ resolve status key = JUndefined)))
  \/
  (exists status key v B,
     data = [status; key; v] /\ (v = 0x7F \/ v = 0) /\
     resolve status key = B /\ In B registry /\ get B (keyspace status) = lit key /\
     _midiMessageListener data s
     = Ok JUndefined
         (with_calls
            (calls s ++ notified s (if decide (v = 0x7F) then pressed else released) B)
            (with_pressedButtons
               ((if decide (v = 0x7F) then set_add else set_delete) B (_pressedButtons s))
               s))).
Proof. exact (listener_cases data s). Qed.

(** *** Top-row buttons *)

Lemma resolve_automap_key name B K :
  In (name, B) Buttons -> get B "_automap_key" = lit K ->
  resolve 0xB0 K = B /\ truthy B = true.
Proof.
  intros HB. revert K. revert name B HB.
  apply (buttons_cases (fun _ B => forall K,
           get B "_automap_key" = lit K -> resolve 0xB0 K = B /\ truthy B = true)).
  forall_list ltac:(
    cbn [fst snd]; intros K E; vm_compute in E;
    first [discriminate E | injection E as <-; split; vm_compute; reflexivity]).
Qed.

Lemma resolve_status status key : status <> 0x90 -> resolve status key = resolve 0xB0 key.
Proof.
  intros N. rewrite !resolve_keyspace. unfold keyspace.
  rewrite decide_False by done. reflexivity.
Qed.

Lemma automap_keys name B K :
  In (name, B) Buttons -> get B "_automap_key" = lit K -> 104 <= K <= 111.
Proof.
  intros HB. revert K. revert name B HB.
  apply (buttons_cases (fun _ B => forall K,
           get B "_automap_key" = lit K -> 104 <= K <= 111)).
  forall_list ltac:(
    cbn [fst snd]; intros K E; vm_compute in E;
    first [discriminate E | injection E as <-; lia]).
Qed.

Lemma registry_In B : In B registry -> exists name, In (name, B) Buttons.
Proof.
  unfold registry. intros H. apply in_map_iff in H as ([n B'] & <- & H). by exists n.
Qed.

(** X20: the top-row buttons are reached under every status byte other
    than 0x90, not only 0xB0: a message [status, K, 0x7F] with K the
    automap key of a registered button B resolves to B and makes
    isButtonPressed(B) true, and the message [status, K, 0] that follows
    makes it false again.  Under such a status only the keys 104 to 111
    resolve, so a note-off message (status 0x80) for a grid key is
    dropped. *)
Theorem automap_roundtrip (name : string) (B : value) (K status : Z) (s : state) :
  In (name, B) Buttons -> get B "_automap_key" = lit K -> status <> 0x90 ->
  (exists s1 s2,
     resolve status K = B /\
     _midiMessageListener [status; K; 0x7F] s = Ok JUndefined s1 /\
     calls s1 = calls s ++ notified s pressed B /\
     isButtonPressed B s1 = true /\
     _midiMessageListener [status; K; 0x00] s1 = Ok JUndefined s2 /\
     calls s2 = calls s1 ++ notified s1 released B /\
     isButtonPressed B s2 = false) /\
  (forall key, truthy (resolve status key) = true -> 104 <= key <= 111).
Proof.
  intros HB HK N. split.
  - destruct (resolve_automap_key name B K HB HK) as [R T].
    rewrite <- (resolve_status status K N) in R.
    set (s1 := with_calls (calls s ++ notified s pressed B)
                 (with_pressedButtons (set_add B (_pressedButtons s)) s)).
    exists s1,
      (with_calls (calls s1 ++ notified s1 released B)
         (with_pressedButtons (set_delete B (_pressedButtons s1)) s1)).
    split; [exact R|].
    split; [rewrite listener_pressed, R by (by rewrite R); reflexivity|].
    split; [reflexivity|].
    split; [apply set_has_add|].
    split; [rewrite listener_released, R by (by rewrite R); reflexivity|].
    split; [reflexivity|].
    apply set_has_delete.
  - intros key T.
    destruct (resolve_sound status key) as [E | (Hin & _ & Hk)];
      [rewrite E in T; discriminate T|].
    apply registry_In in Hin as [n Hin].
    unfold keyspace in Hk. rewrite decide_False in Hk by done.
    by eapply automap_keys.
Qed.

Lemma automap_roundtrip_witness :
  (exists s1 s2,
     resolve 0xB0 104 = Button "Up" /\
     _midiMessageListener [0xB0; 104; 0x7F] fresh = Ok JUndefined s1 /\
     calls s1 = calls fresh ++ notified fresh pressed (Button "Up") /\
     isButtonPressed (Button "Up") s1 = true /\
     _midiMessageListener [0xB0; 104; 0x00] s1 = Ok JUndefined s2 /\
     calls s2 = calls s1 ++ notified s1 released (Button "Up") /\
     isButtonPressed (Button "Up") s2 = false) /\
  (forall key, truthy (resolve 0xB0 key) = true -> 104 <= key <= 111).
Proof.
  apply (automap_roundtrip "Up" (Button "Up") 104 0xB0 fresh).
  - apply Button_registered. vm_compute. tauto.
  - vm_compute. reflexivity.
  - discriminate.
Defined.

Lemma note_keys name B K :
  In (name, B) Buttons -> get B "_note_key" = lit K -> 0 <= K <= 120 /\ K mod 16 <= 8.
Proof.
  intros HB. revert K. revert name B HB.
  apply (buttons_cases (fun _ B => forall K,
           get B "_note_key" = lit K -> 0 <= K <= 120 /\ K mod 16 <= 8)).
  forall_list ltac:(
    cbn [fst snd]; intros K E; vm_compute in E;
    first [discriminate E | injection E as <-; split; [lia|vm_compute; intros [=]]]).
Qed.

(** X21: the note keys of the device.  The grid button of column x and
    row y has note key x + 16 y and the side button of row y has key
    8 + 16 y; a message with status 0x90 and that key resolves to that
    button, and no other key resolves under status 0x90: a key that does
    is at most 120 and its remainder modulo 16 is at most 8. *)
Theorem note_key_map :
  (forall x y, 0 <= x < 8 -> 0 <= y < 8 ->
     get (Button (xy_name x y)) "_note_key" = lit (x + 16 * y) /\
     resolve 0x90 (x + 16 * y) = Button (xy_name x y)) /\
  Forall (fun y =>
     get (Button (default "" (sideBar !! Z.to_nat y))) "_note_key" = lit (8 + 16 * y) /\
     resolve 0x90 (8 + 16 * y) = Button (default "" (sideBar !! Z.to_nat y)))
    (seqZ 0 8) /\
  (forall key, truthy (resolve 0x90 key) = true -> 0 <= key <= 120 /\ key mod 16 <= 8).
Proof.
  split; [|split].
  - apply grid_cases.
    forall_list ltac:(forall_list ltac:(split; vm_compute; reflexivity)).
  - forall_list ltac:(split; vm_compute; reflexivity).
  - intros key T.
    destruct (resolve_sound 0x90 key) as [E | (Hin & _ & Hk)];
      [rewrite E in T; discriminate T|].
    apply registry_In in Hin as [n Hin].
    by eapply note_keys.
Qed.

(** *** What each side leaves alone *)

Section Unchanged.
Context {F : Type} (f : state -> F).

Lemma unchanged_bind {A B} (m : M A) (k : A -> M B) :
  unchanged f m -> (forall a, unchanged f (k a)) -> unchanged f (m ≫= k).
Proof.
  intros Hm Hk s. unfold mbind, M_bind. specialize (Hm s).
  destruct (m s) as [a s1|e s1|]; [|done|done].
  specialize (Hk a s1). destruct (k a s1); [congruence|congruence|done].
Qed.

Lemma unchanged_ret {A} (a : A) : unchanged f (mret a : M A).
Proof. intros s. reflexivity. Qed.

Lemma unchanged_read {A} (g : state -> A) : unchanged f (read g).
Proof. intros s. reflexivity. Qed.

Lemma unchanged_throw {A} e : unchanged f (throw e : M A).
Proof. intros s. reflexivity. Qed.

Lemma unchanged_stuck {A} : unchanged f (stuck : M A).
Proof. intros s. exact I. Qed.

Lemma unchanged_lift {A} (r : res A) : unchanged f (lift r).
Proof. intros s. unfold lift. by destruct r. Qed.

Lemma unchanged_modify (g : state -> state) :
  (forall s, f (g s) = f s) -> unchanged f (modify g).
Proof. intros H s. apply H. Qed.

Lemma unchanged_for_each {A} (l : list A) (k : A -> M unit) :
  (forall a, unchanged f (k a)) -> unchanged f (for_each l k).
Proof.
  intros H. induction l as [|a l IH]; simpl; [apply unchanged_ret|].
  apply unchanged_bind; [apply H|intros _; exact IH].
Qed.
End Unchanged.

Lemma inbound_midiSend args : unchanged inbound (_midiSend args).
Proof.
  intros s. unfold _midiSend.
  destruct (output s); [|reflexivity]. by destruct (to_uint8_array args).
Qed.

Lemma inbound_set_led b n c : unchanged inbound (set_led b n c).
Proof.
  intros s. unfold set_led.
  destruct (ledBuffers s) as [bufs|]; [|reflexivity].
  destruct (to_string b) as [b'| |]; [|done|done].
  destruct (to_string n) as [n'| |]; [|done|done].
  by destruct (bufs !! b').
Qed.

Lemma inbound_dispatch c d : unchanged inbound (_dispatchListener c d).
Proof. intros s. reflexivity. Qed.

Lemma inbound_getOrderedButtons o : unchanged inbound (getOrderedButtons o).
Proof. intros s. unfold getOrderedButtons. by destruct (bool_decide _). Qed.

Lemma inbound_name_of b : unchanged inbound (name_of b).
Proof. intros s. by destruct b. Qed.

Ltac inbound_steps :=
  repeat first
    [ apply unchanged_bind; [|intros ?]
    | apply unchanged_ret | apply unchanged_read | apply unchanged_throw
    | apply unchanged_stuck | apply unchanged_lift
    | apply inbound_midiSend | apply inbound_set_led | apply inbound_dispatch
    | apply inbound_getOrderedButtons | apply inbound_name_of
    | apply unchanged_modify; intros ?; reflexivity
    | apply unchanged_for_each; intros ?
    | match goal with
      | |- unchanged _ (if ?c then _ else _) => destruct c
      end ].

Lemma inbound_batch_loop fuel colors velocities listOfButtons i :
  unchanged inbound (batch_loop fuel colors velocities listOfButtons i).
Proof.
  revert i. induction fuel as [|fuel IH]; intros i; simpl; [apply unchanged_stuck|].
  destruct (i <? length velocities)%nat; [|apply unchanged_ret].
  do 5 (apply unchanged_bind; [inbound_steps|intros ?]). apply IH.
Qed.

Lemma inbound_setSingleLED b c f g : unchanged inbound (setSingleLED b c f g).
Proof. unfold setSingleLED. inbound_steps. Qed.

Lemma inbound_updateBufferStatus c : unchanged inbound (_updateBufferStatus c).
Proof. unfold _updateBufferStatus. inbound_steps. Qed.

Lemma inbound_setDutyCycle n d : unchanged inbound (setDutyCycle n d).
Proof. unfold setDutyCycle. inbound_steps. Qed.

Lemma inbound_run c : unchanged inbound (run c).
Proof.
  destruct c; cbn [run].
  - unfold reset. inbound_steps.
  - unfold allLEDsOn. inbound_steps.
  - apply inbound_setSingleLED.
  - unfold switchDisplayingBuffer. inbound_steps; apply inbound_updateBufferStatus.
  - unfold switchUpdatingBuffer. inbound_steps; apply inbound_updateBufferStatus.
  - unfold switchFlash. inbound_steps; apply inbound_updateBufferStatus.
  - apply inbound_setDutyCycle.
  - unfold setBrightness. cbv zeta.
    repeat match goal with
           | |- unchanged _ (if ?c then _ else _) => destruct c
           end;
      first [apply inbound_setDutyCycle | apply unchanged_throw].
  - unfold setMultipleLED, setMultipleLED_loop.
    apply unchanged_bind; [|intros ?; apply unchanged_bind;
                             [apply inbound_setSingleLED|intros ?; apply inbound_dispatch]].
    destruct (_ =? _)%nat; [apply unchanged_throw|].
    destruct (_ <? _)%nat; [apply unchanged_throw|].
    apply unchanged_bind; [apply inbound_getOrderedButtons|intros ?].
    apply unchanged_bind; [apply unchanged_lift|intros ?].
    apply inbound_batch_loop.
Qed.

(** X22: the two directions do not interfere.  No command, whether it
    completes or throws, changes the pressed set or the listener lists;
    no inbound message sends anything or changes the LED buffers, the
    buffer indices, the flash flag, the cache or the listener lists; and a
    faked press or release ([dispatchButtonPressed],
    [dispatchButtonReleased]) calls the listeners as a real one does but
    changes neither side: isButtonPressed is not affected by it. *)
Theorem directions_independent :
  (forall c, unchanged inbound (run c)) /\
  (forall data, unchanged outbound (_midiMessageListener data)) /\
  (forall B s,
     exists s1 s2,
       dispatchButtonPressed B s = Ok tt s1 /\
       calls s1 = calls s ++ notified s pressed B /\
       inbound s1 = inbound s /\ outbound s1 = outbound s /\
       dispatchButtonReleased B s = Ok tt s2 /\
       calls s2 = calls s ++ notified s released B /\
       inbound s2 = inbound s /\ outbound s2 = outbound s).
Proof.
  split; [exact inbound_run|]. split.
  - intros data s.
    destruct (listener_cases data s)
      as [[-> _] | (st & k & v & B & _ & _ & _ & _ & _ & ->)]; reflexivity.
  - intros B s. eexists _, _. repeat (split; [reflexivity|]). reflexivity.
Qed.

(** *** The pressed set, button by button *)

Lemma same_value_zero_sym a b : same_value_zero a b = same_value_zero b a.
Proof.
  destruct a as [| |x|[x|]|x|x ?], b as [| |y|[y|]|y|y ?]; simpl; try reflexivity.
  - by destruct x, y.
  - apply Z.eqb_sym.
  - apply String.eqb_sym.
  - apply Pos.eqb_sym.
Qed.

Lemma same_value_zero_trans a b c :
  same_value_zero a b = true -> same_value_zero b c = true -> same_value_zero a c = true.
Proof.
  destruct a as [| |x|[x|]|x|x ?], b as [| |y|[y|]|y|y ?]; simpl; try discriminate;
    destruct c as [| |z|[z|]|z|z ?]; simpl; try discriminate; try reflexivity.
  - destruct x, y, z; simpl; congruence.
  - rewrite !Z.eqb_eq. congruence.
  - rewrite !String.eqb_eq. congruence.
  - rewrite !Pos.eqb_eq. congruence.
Qed.

Lemma set_has_add_other v w l :
  same_value_zero w v = false -> set_has w (set_add v l) = set_has w l.
Proof.
  intros H. unfold set_add, set_has.
  destruct (existsb (same_value_zero v) l); [reflexivity|].
  rewrite existsb_app. simpl. rewrite H. by rewrite !orb_false_r.
Qed.

Lemma set_has_delete_other v w l :
  same_value_zero w v = false -> set_has w (set_delete v l) = set_has w l.
Proof.
  intros H. unfold set_delete, set_has.
  induction l as [|x l IH]; [reflexivity|]. simpl.
  destruct (same_value_zero v x) eqn:E; simpl.
  - rewrite IH. destruct (same_value_zero w x) eqn:E'; [|reflexivity].
    rewrite same_value_zero_sym in E.
    by rewrite (same_value_zero_trans w x v E' E) in H.
  - by rewrite IH.
Qed.

Lemma NoDup_fmap_eq {A B} (f : A -> B) (l : list A) x y :
  NoDup (f <$> l) -> x ∈ l -> y ∈ l -> f x = f y -> x = y.
Proof.
  induction l as [|a l IH]; [by intros _ ?%elem_of_nil|].
  rewrite fmap_cons, NoDup_cons. intros [Hn Hd] Hx Hy E.
  apply elem_of_cons in Hx as [->|Hx], Hy as [->|Hy]; [done| | |by apply IH].
  - exfalso. apply Hn. rewrite E. by apply list_elem_of_fmap_2.
  - exfalso. apply Hn. rewrite <- E. by apply list_elem_of_fmap_2.
Qed.

Lemma registry_address B : In B registry -> exists a ps, B = JObj a ps.
Proof.
  intros H. apply registry_In in H as [n H].
  destruct (registry_button_facts n B H) as (G & _).
  destruct B as [| |[|]|[z|]|str|a ps]; try discriminate G; [| |by eauto].
  - simpl in G. by rewrite orb_true_r in G.
  - simpl in G. by rewrite orb_true_r in G.
Qed.

Lemma registry_distinct B B' :
  In B registry -> In B' registry -> B <> B' -> same_value_zero B B' = false.
Proof.
  intros H H' N.
  assert (D : NoDup (address <$> registry)).
  { apply (bool_decide_unpack _). vm_compute. exact I. }
  destruct (same_value_zero B B') eqn:E; [exfalso|reflexivity].
  apply N. apply (NoDup_fmap_eq address registry); [done|by apply list_elem_of_In..|].
  destruct (registry_address B H) as (a & ps & ->).
  destruct (registry_address B' H') as (a' & ps' & ->).
  simpl in E. apply Pos.eqb_eq in E. by subst.
Qed.

(** X23: the pressed set is kept button by button: a three-byte message
    that does not resolve to a registered button B leaves
    isButtonPressed(B) as it was, whatever else it does. *)
Theorem pressed_per_button (B : value) (status key v : Z) (s : state) :
  In B registry -> resolve status key <> B ->
  isButtonPressed B (after (_midiMessageListener [status; key; v]) s)
  = isButtonPressed B s.
Proof.
  intros HB N. unfold after.
  destruct (listener_cases [status; key; v] s)
    as [[-> _] | (st & k & v' & B' & [= <- <- <-] & _ & R & HB' & _ & ->)];
    [reflexivity|].
  rewrite R in N. unfold isButtonPressed. fields.
  assert (D : same_value_zero B B' = false) by (apply registry_distinct; congruence).
  destruct (decide (v = 127)); [by apply set_has_add_other|by apply set_has_delete_other].
Qed.

Lemma pressed_per_button_witness :
  isButtonPressed (Button "00") (after (_midiMessageListener [0x90; 1; 0x7F]) fresh)
  = isButtonPressed (Button "00") fresh.
Proof.
  apply (pressed_per_button (Button "00") 0x90 1 0x7F fresh).
  - vm_compute. left. reflexivity.
  - vm_compute. intros [=].
Defined.

(** ** Listeners *)

Lemma delete_app_length {A} (l k : list A) (n : nat) :
  delete (length l + n)%nat (l ++ k) = l ++ delete n k.
Proof. induction l as [|a l IH]; [reflexivity|]. simpl. by rewrite IH. Qed.

Lemma delete_last_index {A} (l k : list A) x :
  delete (length l) (l ++ x :: k) = l ++ k.
Proof. by rewrite <- (Nat.add_0_r (length l)), delete_app_length. Qed.

Lemma delete_next_index {A} (l k : list A) x :
  delete (length (l ++ [x])) (l ++ k) = l ++ delete 1%nat k.
Proof. rewrite length_app. apply delete_app_length. Qed.

Lemma listeners_with_listener c v s : listeners (with_listener c v s) c = v.
Proof. unfold with_listener. cbn [listeners]. by rewrite decide_True. Qed.

Lemma listeners_with_listener_ne c c' v s :
  c' <> c -> listeners (with_listener c v s) c' = listeners s c'.
Proof. intros N. unfold with_listener. cbn [listeners]. by rewrite decide_False. Qed.

(** X24: a callback subscribed to a category is called by every dispatch
    of that category that follows, after the callbacks subscribed before
    it, and by no dispatch of another category; subscribing changes
    nothing else.  Calling the returned unsubscribe function right away
    gives back the listener lists the instance had, and a dispatch then
    calls the earlier callbacks only.  Callbacks are observers here: they
    do not subscribe or unsubscribe while a dispatch runs. *)
Theorem subscribe_roundtrip (c : category) (cb : callback) (s : state) :
  exists i s1 s2,
    subscribe c cb s = Ok i s1 /\
    (forall data,
       _dispatchListener c data s1
       = Ok tt (with_calls
                  (calls s ++ map (fun l => (l, data)) (listeners s c) ++ [(cb, data)])
                  s1)) /\
    (forall c' data, c' <> c ->
       _dispatchListener c' data s1
       = Ok tt (with_calls (calls s ++ map (fun l => (l, data)) (listeners s c')) s1)) /\
    inbound s1 = (listeners s1, _pressedButtons s) /\
    outbound s1 = (output s, ledBuffers s,
                   (displayingBuffer s, updatingBuffer s, flashingBuffers s),
                   (_cachedOrderedButtons s, listeners s1)) /\
    unsubscribe c i s1 = Ok tt s2 /\
    (forall c', listeners s2 c' = listeners s c') /\
    (forall c' data,
       _dispatchListener c' data s2
       = Ok tt (with_calls (calls s ++ map (fun l => (l, data)) (listeners s c')) s2)).
Proof.
  eexists _, _, _. split; [reflexivity|].
  assert (Hback : forall c',
            listeners
              (with_listener c (delete (length (listeners s c)) (listeners s c ++ [cb]))
                 (with_listener c (listeners s c ++ [cb]) s)) c'
            = listeners s c').
  { intros c'. destruct (decide (c' = c)) as [->|N].
    - rewrite listeners_with_listener, delete_last_index. apply app_nil_r.
    - by rewrite !listeners_with_listener_ne. }
  split.
  { intros data. unfold _dispatchListener, modify.
    by rewrite listeners_with_listener, map_app. }
  split.
  { intros c' data N. unfold _dispatchListener, modify.
    by rewrite listeners_with_listener_ne. }
  split; [reflexivity|]. split; [reflexivity|]. split.
  { unfold unsubscribe, modify. by rewrite listeners_with_listener. }
  split; [exact Hback|].
  intros c' data. unfold _dispatchListener, modify. by rewrite Hback.
Qed.

(** X25: the unsubscribe functions remove by position, and the positions
    shift.  With callbacks a, b and c subscribed in this order to one
    category, unsubscribing a and then b leaves b subscribed and removes
    c: the index b was given now designates c.  With only a and b
    subscribed, unsubscribing a and then b leaves b subscribed. *)
Theorem unsubscribe_stale_index (cat : category) (a b c : callback) (s : state) :
  exists i j k s3 s5,
    (x ← subscribe cat a; y ← subscribe cat b; z ← subscribe cat c; mret (x, y, z)) s
    = Ok (i, j, k) s3 /\
    listeners s3 cat = listeners s cat ++ [a; b; c] /\
    (unsubscribe cat i;; unsubscribe cat j) s3 = Ok tt s5 /\
    listeners s5 cat = listeners s cat ++ [b] /\
    exists s2 s4,
      (x ← subscribe cat a; y ← subscribe cat b; mret (x, y)) s = Ok (i, j) s2 /\
      (unsubscribe cat i;; unsubscribe cat j) s2 = Ok tt s4 /\
      listeners s4 cat = listeners s cat ++ [b].
Proof.
  set (l := listeners s cat).
  exists (length l), (length (l ++ [a])), (length ((l ++ [a]) ++ [b])).
  eexists _, _. split.
  { unfold mbind, M_bind, subscribe, mret, M_ret.
    rewrite !listeners_with_listener. reflexivity. }
  split; [by rewrite listeners_with_listener, <- !app_assoc|].
  split; [reflexivity|].
  split.
  { rewrite !listeners_with_listener, <- !app_assoc. cbn [app]. subst l.
    by rewrite delete_last_index, delete_next_index. }
  eexists _, _. split.
  { unfold mbind, M_bind, subscribe, mret, M_ret.
    rewrite !listeners_with_listener. reflexivity. }
  split; [reflexivity|].
  rewrite !listeners_with_listener, <- !app_assoc. cbn [app]. subst l.
  by rewrite delete_last_index, delete_next_index.
Qed.

(** ** The ordered lists *)



(** X27: the physical order lists the device row by row: after the eight
    top buttons, the grid button of column x and row y is at index
    8 + 9 y + x, and the side button of row y, whose note key is
    8 + 16 y, closes its row at index 8 + 9 y + 8. *)
Theorem physical_layout (s : state) :
  cache_ok s ->
  exists physical s1,
    getOrderedButtons "physical" s = Ok (Some physical) s1 /\
    length physical = 80%nat /\
    (forall x y, 0 <= x < 8 -> 0 <= y < 8 ->
       physical !! Z.to_nat (8 + 9 * y + x) = Some (Button (xy_name x y))) /\
    (forall y, 0 <= y < 8 ->
       exists side,
         physical !! Z.to_nat (8 + 9 * y + 8) = Some side /\
         get side "_note_key" = lit (8 + 16 * y) /\
         get side "name" = JStr (default "" (sideBar !! Z.to_nat y))).
Proof.
  intros Hc. destruct (getOrderedButtons_physical s Hc) as [s1 E1].
  exists (map Button physical_names), s1.
  split; [exact E1|]. split; [vm_compute; reflexivity|].
  split.
  - apply grid_cases.
    forall_list ltac:(forall_list ltac:(vm_compute; reflexivity)).
  - intros y Hy. assert (Hy' : y ∈ seqZ 0 8) by (apply elem_of_seqZ; lia).
    clear Hy. revert y Hy'. apply Forall_forall.
    forall_list ltac:(eexists; split; [vm_compute; reflexivity|];
                      split; vm_compute; reflexivity).
Qed.

Lemma physical_layout_witness :
  exists physical s1,
    getOrderedButtons "physical" constructor = Ok (Some physical) s1 /\
    physical !! Z.to_nat (8 + 9 * 2 + 5) = Some (Button (xy_name 5 2)).
Proof.
  destruct (physical_layout constructor) as (l & s1 & E & _ & H & _).
  - intros c E. discriminate E.
  - exists l, s1. split; [exact E|]. apply H; lia.
Defined.

(** ** Batches, button by button *)

Lemma written_lookup names colors leds i n c :
  NoDup names -> names !! i = Some n -> colors !! i = Some c ->
  written names colors leds !! n = Some c.
Proof.
  unfold written. revert colors leds i.
  induction names as [|k names IH]; intros colors leds i Hd Hn Hc; [done|].
  destruct colors as [|c0 colors]; [done|]. cbn [zip_with foldl fst snd].
  apply NoDup_cons in Hd as [Hk Hd].
  destruct i as [|i]; simpl in Hn, Hc.
  - injection Hn as ->. injection Hc as ->.
    fold (written names colors (<[n := c]> leds)).
    rewrite written_lookup_notin by done. by rewrite lookup_insert_eq.
  - by eapply IH.
Qed.

Lemma written_lookup_beyond names colors leds i n :
  NoDup names -> names !! i = Some n -> (length colors <= i)%nat ->
  written names colors leds !! n = leds !! n.
Proof.
  unfold written. revert colors leds i.
  induction names as [|k names IH]; intros colors leds i Hd Hn Hl; [done|].
  destruct colors as [|c0 colors]; [done|]. cbn [zip_with foldl fst snd].
  apply NoDup_cons in Hd as [Hk Hd].
  destruct i as [|i]; simpl in Hn, Hl; [lia|].
  rewrite (IH colors _ i) by (done || lia).
  apply lookup_insert_ne. intros ->. apply Hk. by eapply list_elem_of_lookup_2.
Qed.

Lemma written_lookup_cases names colors leds n :
  written names colors leds !! n = leds !! n \/
  exists c, In c colors /\ written names colors leds !! n = Some c.
Proof.
  unfold written. revert colors leds.
  induction names as [|k names IH]; intros colors leds; [by left|].
  destruct colors as [|c0 colors]; [by left|]. cbn [zip_with foldl fst snd].
  destruct (IH colors (<[k := c0]> leds)) as [E | (c & Hc & E)].
  - rewrite E. destruct (decide (n = k)) as [->|N].
    + right. exists c0. split; [by left|]. by rewrite lookup_insert_eq.
    + left. by rewrite lookup_insert_ne.
  - right. exists c. split; [by right|done].
Qed.

Lemma NoDup_forBatch_names : NoDup forBatch_names.
Proof. apply (bool_decide_unpack _). vm_compute. exact I. Qed.

Lemma getOrderedButtons_state order s r s' :
  getOrderedButtons order s = Ok r s' ->
  exists cache, s' = with_cachedOrderedButtons (Some cache) s.
Proof.
  unfold getOrderedButtons. destruct (bool_decide _); [discriminate|].
  intros [= _ <-]. eauto.
Qed.

Lemma pretty_ne b u : b = 0 \/ b = 1 -> u = 0 \/ u = 1 -> b <> u -> pretty b <> pretty u.
Proof. intros [-> | ->] [-> | ->] N; try done; vm_compute; discriminate. Qed.

Lemma setMultipleLED_explicit colors c0 s u sent bufs leds :
  Forall (fun C => In C palette) colors -> (1 <= length colors <= 80)%nat ->
  colors !! 0%nat = Some c0 ->
  cache_ok s -> output s = Some sent -> updatingBuffer s = lit u -> u = 0 \/ u = 1 ->
  ledBuffers s = Some bufs -> bufs !! pretty u = Some leds ->
  exists cache,
    cache_ok (with_cachedOrderedButtons (Some cache) s) /\
    setMultipleLED (dense colors) s
    = Ok tt
        (with_calls (calls s ++ notified s led_changed JUndefined
                     ++ notified s led_changed JUndefined)
           (with_ledBuffers
              (Some (<[pretty u := written forBatch_names colors leds]> bufs))
              (with_output
                 (Some (sent ++ paired (map velocity_byte colors)
                        ++ [[0x90; 0; velocity_byte c0]]))
                 (with_cachedOrderedButtons (Some cache) s)))).
Proof.
  intros Hpal Hlen H0 Hc Ho Hu Hu01 Hb Hk.
  assert (Hc0 : In c0 palette).
  { rewrite Forall_forall in Hpal. apply Hpal.
    by eapply list_elem_of_lookup_2. }
  destruct (getOrderedButtons_forBatch s Hc) as (sc & Eg & _ & _ & _ & _ & _ & Hcc).
  destruct (getOrderedButtons_state _ _ _ _ Eg) as [cache ->].
  exists cache. split; [exact Hcc|].
  set (leds1 := written forBatch_names colors leds).
  assert (H00 : leds1 !! "00" = Some c0).
  { apply (written_lookup _ _ _ 0%nat); [apply NoDup_forBatch_names|reflexivity|done]. }
  unfold setMultipleLED.
  erewrite bind_Ok; last first.
  { unfold setMultipleLED_loop. rewrite !length_dense.
    destruct (Nat.eqb_spec (length colors) 0) as [?|_]; [lia|].
    destruct (Nat.ltb_spec 80 (length colors)) as [?|_]; [lia|].
    erewrite bind_Ok; [|exact Eg].
    erewrite bind_Ok;
      [|unfold lift; rewrite (velocities_of_palette colors Hpal); reflexivity].
    cbn [default from_option id].
    apply (batch_loop_run colors (map velocity_byte colors) forBatch_names (lit u) (pretty u))
      with (sent := sent) (bufs := bufs) (leds := leds).
    - apply Forall_forall. intros c Hin. rewrite Forall_forall in Hpal.
      by destruct (velocity_byte_palette c (Hpal c Hin)).
    - apply Forall_forall. intros v Hin. apply list_elem_of_fmap in Hin as (c & -> & Hin).
      rewrite Forall_forall in Hpal.
      destruct (velocity_byte_palette c (Hpal c Hin)) as (_ & ? & _). lia.
    - by rewrite length_map.
    - apply forBatch_names_facts.
    - rewrite forBatch_names_length. lia.
    - destruct Hu01 as [-> | ->]; vm_compute; reflexivity.
    - lia.
    - rewrite ?length_dense, !length_map. lia.
    - exact Ho.
    - exact Hb.
    - exact Hu.
    - exact Hk. }
  cbn [drop]. fold leds1.
  replace (item (dense colors) 0) with c0
    by (rewrite item_dense; unfold elem; by rewrite H0).
  erewrite bind_Ok; last first.
  { apply (flush_Ok c0 _ u (sent ++ paired (map velocity_byte colors))
             (<[pretty u := leds1]> bufs) leds1); try done.
    by rewrite lookup_insert_eq. }
  clear Eg Hcc. unfold _dispatchListener, modify, notified. record_norm.
  rewrite insert_insert_eq, (insert_id leds1 "00" c0 H00), <- !app_assoc.
  reflexivity.
Qed.

(** X28: for a batch of 1 to 80 palette colours on a reset instance,
    [setMultipleLED] records the colour at index i for the button at index
    i of the batch order, leaves the entries of the buttons beyond the
    batch as they were, and does not touch the other buffer nor the
    buffer indices. *)
Theorem setMultipleLED_records (colors : list value) (s : state) (u : Z)
    (sent : list (list Z)) :
  Forall (fun C => In C palette) colors -> (1 <= length colors <= 80)%nat ->
  cache_ok s -> output s = Some sent ->
  updatingBuffer s = lit u -> u = 0 \/ u = 1 ->
  is_Some (bufs ← ledBuffers s; bufs !! pretty u) ->
  exists s2,
    setMultipleLED (dense colors) s = Ok tt s2 /\
    (forall i n c, forBatch_names !! i = Some n -> colors !! i = Some c ->
       led s2 u n = Some c) /\
    (forall i n, forBatch_names !! i = Some n -> (length colors <= i)%nat ->
       led s2 u n = led s u n) /\
    (forall n, led s2 (1 - u) n = led s (1 - u) n) /\
    updatingBuffer s2 = updatingBuffer s /\
    displayingBuffer s2 = displayingBuffer s.
Proof.
  intros Hpal Hlen Hc Ho Hu Hu01 [leds Hl].
  destruct (ledBuffers s) as [bufs|] eqn:Eb; [|discriminate Hl]. cbn in Hl.
  destruct (lookup_lt_is_Some_2 colors 0%nat) as [c0 H0]; [lia|].
  destruct (setMultipleLED_explicit colors c0 s u sent bufs leds)
    as (cache & _ & E); try done.
  eexists. split; [exact E|]. clear E.
  assert (Hne : pretty (1 - u) <> pretty u).
  { apply pretty_ne; lia. }
  unfold led. cbn [ledBuffers with_calls with_ledBuffers]. rewrite Eb.
  cbn [mbind option_bind].
  split; [|split; [|split; [|split; reflexivity]]].
  - intros i n c Hn Hci. rewrite lookup_insert_eq. cbn [mbind option_bind].
    by apply (written_lookup _ _ _ i); [apply NoDup_forBatch_names|..].
  - intros i n Hn Hi. rewrite lookup_insert_eq, Hl. cbn [mbind option_bind].
    by apply (written_lookup_beyond _ _ _ i); [apply NoDup_forBatch_names|..].
  - intros n. by rewrite lookup_insert_ne.
Qed.

Lemma setMultipleLED_records_witness :
  exists s2,
    setMultipleLED (dense [Color "Red"; Color "Green"; Color "Amber"]) fresh = Ok tt s2 /\
    led s2 0 "20" = Some (Color "Amber") /\
    led s2 0 "30" = led fresh 0 "30".
Proof.
  destruct (setMultipleLED_records [Color "Red"; Color "Green"; Color "Amber"] fresh 0
              [[0xB0; 0; 0]])
    as (s2 & E & H1 & H2 & _).
  - forall_list ltac:(vm_compute; tauto).
  - cbn. lia.
  - rewrite fresh_eq. intros c E. discriminate E.
  - by rewrite fresh_eq.
  - by rewrite fresh_eq.
  - by left.
  - rewrite fresh_eq. fields. cbn [mbind option_bind].
    rewrite reset_buffers_lookup by tauto. by eexists.
  - exists s2. split; [exact E|]. split.
    + apply (H1 2%nat); reflexivity.
    + apply (H2 3%nat); [reflexivity|cbn; lia].
Defined.

(** ** Valid commands on a reset instance *)

Lemma ready_intro s sent d u bufs :
  output s = Some sent -> displayingBuffer s = lit d -> updatingBuffer s = lit u ->
  d = 0 \/ d = 1 -> u = 0 \/ u = 1 -> cache_ok s ->
  ledBuffers s = Some bufs -> painted bufs -> ready s.
Proof.
  intros Ho Hd Hu Bd Bu Hc Hb Hp.
  split; [by exists sent|]. split; [exists d, u; tauto|]. split; [exact Hc|].
  exists bufs. split; [exact Hb|exact Hp].
Qed.

Lemma painted_update bufs u leds :
  painted bufs -> u = 0 \/ u = 1 ->
  (forall name, In name (map fst Buttons) -> exists c, leds !! name = Some c /\ In c palette) ->
  painted (<[pretty u := leds]> bufs).
Proof.
  intros Hp Hu Hl b Hb. destruct (decide (b = u)) as [->|N].
  - exists leds. by rewrite lookup_insert_eq.
  - rewrite lookup_insert_ne by (apply pretty_ne; done || congruence). by apply Hp.
Qed.

Lemma painted_fill bufs c l0 l1 :
  In c palette ->
  painted (<["0" := fill c (keys Buttons) l0]> (<["1" := fill c (keys Buttons) l1]> bufs)).
Proof.
  intros Hc b [-> | ->]; rewrite ?pretty_0, ?pretty_1.
  - eexists. rewrite lookup_insert_eq. split; [reflexivity|].
    intros name Hn. exists c.
    by rewrite fill_lookup, bool_decide_eq_true_2 by (by apply keys_Buttons).
  - eexists. rewrite lookup_insert_ne, lookup_insert_eq by done. split; [reflexivity|].
    intros name Hn. exists c.
    by rewrite fill_lookup, bool_decide_eq_true_2 by (by apply keys_Buttons).
Qed.

Lemma setSingleLED_valid name B C f g s u sent bufs leds :
  In (name, B) Buttons -> In C palette ->
  output s = Some sent -> updatingBuffer s = lit u -> u = 0 \/ u = 1 ->
  ledBuffers s = Some bufs -> bufs !! pretty u = Some leds ->
  exists msg,
    setSingleLED B C f g s
    = Ok tt (with_calls (calls s ++ notified s led_changed JUndefined)
               (with_ledBuffers (Some (<[pretty u := <[name := C]> leds]> bufs))
                  (with_output (Some (sent ++ [msg])) s))).
Proof.
  intros HB HC Ho Hu Hu01 Hb Hl.
  destruct (registry_button_facts name B HB) as (Hg & Hname & status & key & Hkey & Hr).
  destruct (encoder_flags C f g HC) as [Ev Hv].
  eexists. eapply setSingleLED_Ok; eauto.
  - destruct Hkey as [[E1 ->] | (E1 & E2 & ->)]; rewrite E1, ?E2;
      [change (is_undefined (lit key)) with false
      |change (is_undefined JUndefined) with true];
      cbn [negb]; apply to_uint8_array_lit; lia.
  - by rewrite Hname.
  - rewrite Hu. destruct Hu01 as [-> | ->]; vm_compute; reflexivity.
Qed.

Lemma allLEDsOn_valid b s :
  b = JUndefined \/ (exists str, b = JStr str /\ ~ In str object_prototype_names) ->
  exists level byte colour,
    In (level, byte, colour)
       [("low", 0x7D, "AmberLow"); ("medium", 0x7E, "AmberMed"); ("high", 0x7F, "Amber")] /\
    In (Color colour) palette /\
    allLEDsOn b s = allLEDsOn (JStr level) s.
Proof.
  intros [-> | (str & -> & Hp)].
  - exists "medium", 0x7E, "AmberMed". split; [cbn; tauto|]. split; [vm_compute; tauto|].
    apply (allLEDsOn_lenient _ "undefined"); [reflexivity| |]; vm_compute; intuition discriminate.
  - destruct (decide (str = "low")) as [->|N1].
    { exists "low", 0x7D, "AmberLow". split; [cbn; tauto|]. split; [vm_compute; tauto|done]. }
    destruct (decide (str = "medium")) as [->|N2].
    { exists "medium", 0x7E, "AmberMed". split; [cbn; tauto|]. split; [vm_compute; tauto|done]. }
    destruct (decide (str = "high")) as [->|N3].
    { exists "high", 0x7F, "Amber". split; [cbn; tauto|]. split; [vm_compute; tauto|done]. }
    exists "medium", 0x7E, "AmberMed". split; [cbn; tauto|]. split; [vm_compute; tauto|].
    apply (allLEDsOn_lenient _ str); [reflexivity|exact Hp|].
    intros [?|[?|[?|[]]]]; congruence.
Qed.

Lemma ready_preserved c s :
  ready s -> valid_command c -> exists s', run c s = Ok tt s' /\ ready s'.
Proof.
  intros ([sent Ho] & (d & u & Hd & Hu & Bd & Bu) & Hc & bufs & Hb & Hp) Hv.
  destruct c; cbn [run valid_command] in *.
  - rewrite (reset_Ok s sent Ho). eexists. split; [reflexivity|].
    apply (ready_intro _ (sent ++ [[0xB0; 0; 0]]) 0 0 reset_buffers);
      try reflexivity; try (by left); [exact Hc|].
    apply painted_fill. vm_compute. tauto.
  - destruct (allLEDsOn_valid brightness s Hv) as (level & byte & colour & Hin & Hcol & ->).
    destruct (Hp 0) as (l0 & H0 & _); [by left|].
    destruct (Hp 1) as (l1 & H1 & _); [by right|].
    rewrite pretty_0 in H0. rewrite pretty_1 in H1.
    rewrite (allLEDsOn_level level colour byte s sent bufs l0 l1) by done.
    eexists. split; [reflexivity|].
    eapply (ready_intro _ _ d u); try reflexivity; try done.
    by apply painted_fill.
  - destruct Hv as [HB HC]. apply registry_In in HB as [name HB].
    destruct (Hp u Bu) as (leds & Hl & Hleds).
    destruct (setSingleLED_valid name button color changeInBothBuffers turnOffInOtherBuffer
                s u sent bufs leds) as [msg ->]; try done.
    eexists. split; [reflexivity|].
    eapply (ready_intro _ _ d u); try reflexivity; try done.
    apply painted_update; [done..|].
    intros n Hn. destruct (decide (n = name)) as [->|N].
    + exists color. by rewrite lookup_insert_eq.
    + rewrite lookup_insert_ne by done. by apply Hleds.
  - rewrite (switchDisplayingBuffer_Ok s sent d u) by (done || lia).
    eexists. split; [reflexivity|].
    eapply (ready_intro _ _ (1 - d) u); try reflexivity; try done. lia.
  - rewrite (switchUpdatingBuffer_Ok copy s sent d u) by (done || lia).
    eexists. split; [reflexivity|].
    eapply (ready_intro _ _ d (1 - u)); try reflexivity; try done. lia.
  - rewrite (switchFlash_Ok s sent d u) by (done || lia).
    eexists. split; [reflexivity|].
    eapply (ready_intro _ _ d u); try reflexivity; done.
  - destruct Hv as (n' & d' & -> & -> & Hn & Hd').
    rewrite (setDutyCycle_Ok n' d' s sent) by done.
    eexists. split; [reflexivity|].
    eapply (ready_intro _ _ d u); try reflexivity; done.
  - destruct Hv as [-> | (k & -> & Hk)].
    + destruct (setBrightness_Ok 1 s sent) as [_ ->]; [lia|done|].
      eexists. split; [reflexivity|].
      eapply (ready_intro _ _ d u); try reflexivity; done.
    + destruct (setBrightness_Ok k s sent) as [-> _]; [lia|done|].
      eexists. split; [reflexivity|].
      eapply (ready_intro _ _ d u); try reflexivity; done.
  - destruct Hv as (batch & -> & Hpal & Hlen). rename batch into colors.
    destruct (lookup_lt_is_Some_2 colors 0%nat) as [c0 H0]; [lia|].
    destruct (Hp u Bu) as (leds & Hl & Hleds).
    destruct (setMultipleLED_explicit colors c0 s u sent bufs leds)
      as (cache & Hcc & ->); try done.
    eexists. split; [reflexivity|].
    eapply (ready_intro _ _ d u); try reflexivity; try done.
    apply painted_update; [done..|].
    intros n Hn.
    destruct (written_lookup_cases forBatch_names colors leds n) as [-> | (c & Hin & ->)].
    + by apply Hleds.
    + exists c. split; [done|]. rewrite Forall_forall in Hpal.
      by apply Hpal, list_elem_of_In.
Qed.

Lemma ready_after_reset s sent : output s = Some sent -> cache_ok s -> ready (after reset s).
Proof.
  intros Ho Hc. unfold after. rewrite (reset_Ok s sent Ho).
  apply (ready_intro _ (sent ++ [[0xB0; 0; 0]]) 0 0 reset_buffers);
    try reflexivity; try (by left); [exact Hc|].
  apply painted_fill. vm_compute. tauto.
Qed.

(** X29: once [reset()] has run on an attached instance, every sequence of
    commands with valid arguments completes: none throws, and the instance
    stays as a later command needs it, with the port attached, both buffer
    indices 0 or 1 and a palette colour recorded for every button in both
    buffers.  Valid arguments are a registered button and a palette colour
    for [setSingleLED], an array without holes of 1 to 80 palette colours
    for [setMultipleLED], 1..16 over 3..18 for [setDutyCycle], 1..5 or
    nothing for [setBrightness], and for [allLEDsOn] nothing or a string
    that is not one of the twelve names inherited from [Object.prototype]
    (on those the lookup in the brightness table finds a function, which
    is outside this model). *)
Theorem valid_commands_complete (cs : list command) (s : state) :
  ready s -> Forall valid_command cs ->
  exists s', for_each cs run s = Ok tt s' /\ ready s'.
Proof.
  intros Hr Hv. revert s Hr.
  induction Hv as [|c cs Hc _ IH]; intros s Hr; [by exists s|].
  destruct (ready_preserved c s Hr Hc) as (s1 & E1 & Hr1).
  destruct (IH s1 Hr1) as (s2 & E2 & Hr2).
  exists s2. split; [|exact Hr2].
  cbn [for_each]. by erewrite bind_Ok by exact E1.
Qed.

Lemma valid_commands_complete_witness :
  exists s',
    for_each
      [SetSingleLED (Button "00") (Color "Red") JUndefined JUndefined;
       SwitchUpdatingBuffer (JBool true);
       SetMultipleLED (dense [Color "Green"; Color "Amber"]);
       AllLEDsOn (JStr "low"); Reset;
       SetBrightness (lit 4)] run fresh = Ok tt s' /\ ready s'.
Proof.
  apply valid_commands_complete.
  - apply (ready_after_reset attached []); [reflexivity|]. intros c E. discriminate E.
  - repeat first [apply Forall_nil_2 | apply Forall_cons_2]; cbn [valid_command].
    + split; vm_compute; tauto.
    + exact I.
    + eexists. split; [reflexivity|].
      split; [forall_list ltac:(vm_compute; tauto)|cbn; lia].
    + right. exists "low". split; [reflexivity|]. vm_compute. intuition discriminate.
    + exact I.
    + right. exists 4. split; [reflexivity|lia].
Defined.

(** ** Set comparison in the demo page *)

Lemma same_value_zero_identity a b :
  same_value_zero a b = true <-> identity a = identity b.
Proof.
  destruct a as [| |x|[x|]|x|x ?], b as [| |y|[y|]|y|y ?]; simpl;
    try (split; [discriminate|discriminate]); try (split; reflexivity).
  - destruct x, y; simpl; split; congruence.
  - rewrite Z.eqb_eq. split; congruence.
  - rewrite String.eqb_eq. split; congruence.
  - rewrite Pos.eqb_eq. split; congruence.
Qed.

Lemma set_has_identity v l : set_has v l = true <-> identity v ∈ identity <$> l.
Proof.
  unfold set_has. rewrite existsb_exists, list_elem_of_fmap. split.
  - intros (w & Hw & E). exists w. split; [by apply same_value_zero_identity|].
    by apply list_elem_of_In.
  - intros (w & E & Hw). exists w. split; [by apply list_elem_of_In|].
    by apply same_value_zero_identity.
Qed.

Lemma set_wf_identity l : set_wf l = true <-> NoDup (identity <$> l).
Proof.
  induction l as [|v l IH]; simpl.
  - split; [constructor|done].
  - rewrite andb_true_iff, negb_true_iff, NoDup_cons, IH, <- set_has_identity.
    by rewrite not_true_iff_false.
Qed.

(** X30: [eqSet] of the demo page decides equality of Sets: on two Sets
    (no value twice, in the sense of SameValueZero) it returns true
    exactly when they have the same members, whatever the insertion
    orders; comparing the sizes and one inclusion is enough. *)
Theorem eqSet_spec (as_ bs : list value) :
  set_wf as_ = true -> set_wf bs = true ->
  (eqSet as_ bs = true <-> forall v, set_has v as_ = set_has v bs).
Proof.
  rewrite !set_wf_identity. intros Ha Hb. unfold eqSet. split.
  - destruct (Nat.eqb_spec (length as_) (length bs)) as [L|L]; [|discriminate].
    cbn [negb]. rewrite forallb_forall. intros Hsub.
    assert (P : identity <$> as_ ≡ₚ identity <$> bs).
    { apply submseteq_length_Permutation; [|by rewrite !length_fmap, L].
      apply NoDup_submseteq; [done|].
      intros x Hx. apply list_elem_of_fmap in Hx as (a & -> & Hin).
      apply set_has_identity, Hsub. by apply list_elem_of_In. }
    intros v. apply eq_true_iff_eq. rewrite !set_has_identity. by rewrite P.
  - intros Hmem.
    assert (P : identity <$> as_ ≡ₚ identity <$> bs).
    { apply NoDup_Permutation; [done..|].
      intros x. split; intros Hx; apply list_elem_of_fmap in Hx as (a & -> & Hin);
        apply set_has_identity; [rewrite <- Hmem|rewrite Hmem];
        apply set_has_identity; by apply list_elem_of_fmap_2. }
    apply Permutation_length in P. rewrite !length_fmap in P.
    rewrite P, Nat.eqb_refl. cbn [negb]. apply forallb_forall.
    intros a Hin. rewrite <- Hmem. apply set_has_identity, list_elem_of_fmap_2.
    by apply list_elem_of_In.
Qed.

Lemma eqSet_spec_witness :
  eqSet [Button "00"; Button "11"; JNum NaN] [JNum NaN; Button "00"; Button "11"] = true
  <-> forall v, set_has v [Button "00"; Button "11"; JNum NaN]
                = set_has v [JNum NaN; Button "00"; Button "11"].
Proof. apply eqSet_spec; vm_compute; reflexivity. Defined.
